(** * Bronze-layer ingestion: a shallow embedding of the two ingestion scripts

    The repository ships two variants of the Bronze ingestion pipeline:

    - [scripts/bronze/ingest_to_bronze.py]  (module [IngestToBronze] below):
      discovery, extraction with a bounded retry loop, the first validation
      checkpoint, audit tagging and persistence;
    - [scripts/bronze/modded_bronzeval.py]  (module [ModdedBronzeval] below):
      discovery guarded by an existence test, extraction with the tab
      delimiter override for campaign files, audit tagging and persistence.

    Python strings are modelled as [string] whose characters are read as code
    points below 256.  pandas, the file system and the clock are the
    environment: their answers are given by an [Env] of oracles, and what the
    scripts do to the outside (the validation log, the sleeps, the written
    tables) is recorded in a [World] that is threaded through every call.
    Console output ([print]) is not modelled. *)

From Stdlib Require Import String Ascii ZArith List Lia DecimalString.
From stdpp Require Import base gmap strings list.

Open Scope string_scope.
Open Scope list_scope.
Open Scope stdpp_scope.

(** ** Python string operations used by the scripts *)

Module PyStr.

Definition code (c : ascii) : N := N_of_ascii c.

(** [str.lower] on a code point below 256: the ASCII capitals and the
    Latin-1 capitals U+00C0..U+00DE (without U+00D7) move up by 32. *)
Definition is_upper (c : ascii) : bool :=
  let n := code c in
  ((65 <=? n) && (n <=? 90) || (192 <=? n) && (n <=? 222) && negb (n =? 215))%N.

Definition lower_char (c : ascii) : ascii :=
  if is_upper c then ascii_of_N (code c + 32) else c.

Fixpoint lower (s : string) : string :=
  match s with
  | EmptyString => EmptyString
  | String c s' => String (lower_char c) (lower s')
  end.

(** The class [\s] of [re] on a [str] pattern, below 256. *)
Definition is_space (c : ascii) : bool :=
  let n := code c in
  ((9 <=? n) && (n <=? 13) || (28 <=? n) && (n <=? 32)
   || (n =? 133) || (n =? 160))%N.

(** [s.split(sep)] for a one-character separator: never empty. *)
Fixpoint split (sep : ascii) (s : string) : list string :=
  match s with
  | EmptyString => [EmptyString]
  | String c s' =>
      if Ascii.eqb c sep then EmptyString :: split sep s'
      else match split sep s' with
           | seg :: segs => String c seg :: segs
           | [] => [String c EmptyString]
           end
  end.

(** [sep.join(segs)] *)
Fixpoint join (sep : ascii) (segs : list string) : string :=
  match segs with
  | [] => EmptyString
  | [seg] => seg
  | seg :: segs' => seg +:+ String sep (join sep segs')
  end.

(** [l[-1]] on the result of a split *)
Definition last_item (l : list string) : string := List.last l EmptyString.

(** [s.split(".")[-1]] *)
Definition suffix_after_last_dot (s : string) : string :=
  last_item (split "." s).

(** [s.rsplit(".", 1)[0]]: the text before the last dot, the whole string
    when it has no dot. *)
Definition rsplit1_head (s : string) : string :=
  match split "." s with
  | [] | [_] => s
  | segs => join "." (removelast segs)
  end.

(** [s.replace(" ", "_")] *)
Fixpoint replace_char (old new : ascii) (s : string) : string :=
  match s with
  | EmptyString => EmptyString
  | String c s' =>
      String (if Ascii.eqb c old then new else c) (replace_char old new s')
  end.

(** [re.sub(r'[cls]+', repl, s)]: scanning from the left, every maximal run
    of characters of the class is replaced by one [repl]. *)
Fixpoint re_sub_runs (cls : ascii -> bool) (repl : string) (in_run : bool)
    (s : string) : string :=
  match s with
  | EmptyString => EmptyString
  | String c s' =>
      if cls c then
        if in_run then re_sub_runs cls repl true s'
        else repl +:+ re_sub_runs cls repl true s'
      else String c (re_sub_runs cls repl false s')
  end.

Definition re_sub (cls : ascii -> bool) (repl s : string) : string :=
  re_sub_runs cls repl false s.

(** The two character classes of the scripts. *)
Definition cls_space_hyphen_dot (c : ascii) : bool :=
  is_space c || Ascii.eqb c "-" || Ascii.eqb c ".".   (* [\s\-\.] *)

Definition cls_space_hyphen (c : ascii) : bool :=
  is_space c || Ascii.eqb c "-".                      (* [\s\-] *)

(** [needle in hay] *)
Fixpoint contains (needle hay : string) : bool :=
  String.prefix needle hay ||
  match hay with
  | EmptyString => false
  | String _ hay' => contains needle hay'
  end.

(** [s.rfind(c)], as an index from the left *)
Fixpoint rfind_from (c : ascii) (i : nat) (s : string) : option nat :=
  match s with
  | EmptyString => None
  | String a s' =>
      match rfind_from c (S i) s' with
      | Some j => Some j
      | None => if Ascii.eqb a c then Some i else None
      end
  end.

Definition rfind (c : ascii) (s : string) : option nat := rfind_from c 0 s.

(** [s.endswith(c)] *)
Fixpoint ends_with_char (c : ascii) (s : string) : bool :=
  match s with
  | EmptyString => false
  | String a EmptyString => Ascii.eqb a c
  | String _ s' => ends_with_char c s'
  end.

(** [f"{n}"] for the integers the scripts format *)
Definition str_of_nat (n : nat) : string :=
  NilZero.string_of_uint (Nat.to_uint n).

Definition str_of_Z (z : Z) : string :=
  NilZero.string_of_int (Z.to_int z).

(** [s.rstrip(c)] for a one-character [c] *)
Fixpoint rstrip_char (c : ascii) (s : string) : string :=
  match s with
  | EmptyString => EmptyString
  | String a s' =>
      match rstrip_char c s' with
      | EmptyString => if Ascii.eqb a c then EmptyString else String a EmptyString
      | t => String a t
      end
  end.

(** [s == c * len(s)] *)
Fixpoint all_chars (c : ascii) (s : string) : bool :=
  match s with
  | EmptyString => true
  | String a s' => Ascii.eqb a c && all_chars c s'
  end.

End PyStr.

(** ** [os.path] on POSIX paths *)

Module OsPath.

(** [os.path.join(a, b)] *)
Definition join (a b : string) : string :=
  if String.prefix "/" b then b
  else if bool_decide (a = "") || PyStr.ends_with_char "/" a then a +:+ b
  else a +:+ "/" +:+ b.

(** [os.path.basename(p)]: what follows the last slash *)
Definition basename (p : string) : string :=
  PyStr.last_item (PyStr.split "/" p).

(** Is some character of [p] at an index in [lo, hi) not a dot? *)
Definition non_dot_between (p : string) (lo hi : nat) : bool :=
  existsb (fun k => match String.get k p with
                    | Some c => negb (Ascii.eqb c ".")
                    | None => false
                    end) (seq lo (hi - lo)).

(** [os.path.splitext(p)[0]]: the extension starts at the last dot of the
    last path component, and leading dots of that component do not start
    one. *)
Definition splitext_root (p : string) : string :=
  match PyStr.rfind "." p with
  | None => p
  | Some dotIndex =>
      let first := match PyStr.rfind "/" p with
                   | Some sepIndex => S sepIndex
                   | None => 0
                   end in
      if (first <=? dotIndex)%nat && non_dot_between p first dotIndex
      then String.substring 0 dotIndex p
      else p
  end.

(** [os.path.dirname(p)]: the text up to the last slash, without trailing
    slashes unless it consists of slashes only. *)
Definition dirname (p : string) : string :=
  let i := match PyStr.rfind "/" p with
           | Some j => S j
           | None => 0
           end in
  let head := String.substring 0 i p in
  if negb (bool_decide (head = "")) && negb (PyStr.all_chars "/" head)
  then PyStr.rstrip_char "/" head
  else head.

End OsPath.

(** ** The data model *)

(** Clock readings; the scripts render them with [isoformat()]. *)
Definition Time := nat.

(** A column label of a pandas frame: a string, or an integer position when
    the source carries no header. *)
Inductive Label :=
| LStr (s : string)
| LInt (n : Z).

Global Instance Label_eq_dec : EqDecision Label.
Proof. solve_decision. Defined.

Inductive Cell :=
| CNull
| CStr (s : string)
| CNum (z : Z)
| CTime (t : Time)       (* a [datetime] object *)
| CIso (t : Time).       (* the string [t.isoformat()] *)

(** [pd.DataFrame]: the length of the index and the labelled columns, in
    order. *)
Record DataFrame := mkDataFrame {
  index_len : nat;
  columns : list (Label * list Cell)
}.

(** [pd.DataFrame()] *)
Definition empty_DataFrame : DataFrame := mkDataFrame 0 [].

(** [len(df)] *)
Definition df_len (df : DataFrame) : nat := index_len df.

(** [df.columns], as a list of labels *)
Definition df_columns (df : DataFrame) : list Label := (columns df).*1.

(** [df.empty]: some axis has length zero *)
Definition df_empty (df : DataFrame) : bool :=
  (index_len df =? 0)%nat || (length (columns df) =? 0)%nat.

(** [df[name] = v] for a scalar [v]: the scalar is broadcast over the index;
    an existing column of that label is overwritten in place, otherwise the
    column is appended. *)
Definition df_setitem (df : DataFrame) (name : string) (v : Cell) : DataFrame :=
  let col := repeat v (index_len df) in
  if bool_decide (LStr name ∈ df_columns df) then
    mkDataFrame (index_len df)
      (map (fun lc => if bool_decide (lc.1 = LStr name) then (lc.1, col) else lc)
           (columns df))
  else mkDataFrame (index_len df) (columns df ++ [(LStr name, col)]).

(** A Python exception; [str(e)] is its message. *)
Record exn := Exn { exn_class : string; exn_msg : string }.

Definition py_str (e : exn) : string := exn_msg e.

(** An entry of [validation_log]. *)
Record ValidationEvent := mkEvent {
  timestamp : Time;
  stage : string;
  file : string;
  issue_type : string;
  details : string;
  severity : string
}.

Global Instance ValidationEvent_eq_dec : EqDecision ValidationEvent.
Proof. solve_decision. Defined.

(** A node of the source tree. *)
Inductive Node :=
| File (size_bytes : nat)
| Dir (size_bytes : nat) (entries : list string).

(** The environment: the file tree the scripts read, and the answers of the
    clock, of pandas and of [uuid].  An oracle indexed by [nat] is asked with
    the number of earlier calls of its kind, so that the same call may fail
    once and succeed later. *)
Record Env := mkEnv {
  fs : gmap string Node;
  datetime_now : nat -> Time;
  uuid4 : nat -> string;
  pd_read_csv : ascii -> string -> nat -> exn + DataFrame;
  pd_read_parquet : string -> nat -> exn + DataFrame;
  pd_read_pickle : string -> nat -> exn + DataFrame;
  pd_read_excel : string -> nat -> exn + DataFrame;
  pd_read_json : string -> nat -> exn + DataFrame;
  pd_read_html : string -> nat -> exn + list DataFrame;
  to_parquet_error : string -> DataFrame -> nat -> option exn
}.

(** What a run has done so far. *)
Record World := mkWorld {
  validation_log : list ValidationEvent;   (* the module-level list *)
  slept : list nat;                        (* arguments of [time.sleep] *)
  written : gmap string DataFrame;         (* tables persisted, by path *)
  saved_logs : gmap string (list ValidationEvent);  (* log files, by path *)
  clock_calls : nat;                       (* calls of [datetime.now] *)
  uuid_calls : nat;
  read_calls : nat;                        (* calls of a pandas reader *)
  write_calls : nat                        (* calls of [to_parquet] *)
}.

Definition initial_world : World := mkWorld [] [] ∅ ∅ 0 0 0 0.

Definition with_log (l : list ValidationEvent) (w : World) : World :=
  mkWorld l (slept w) (written w) (saved_logs w) (clock_calls w)
          (uuid_calls w) (read_calls w) (write_calls w).

Definition with_slept (l : list nat) (w : World) : World :=
  mkWorld (validation_log w) l (written w) (saved_logs w) (clock_calls w)
          (uuid_calls w) (read_calls w) (write_calls w).

Definition with_written (m : gmap string DataFrame) (w : World) : World :=
  mkWorld (validation_log w) (slept w) m (saved_logs w) (clock_calls w)
          (uuid_calls w) (read_calls w) (write_calls w).

Definition with_saved_logs (m : gmap string (list ValidationEvent))
    (w : World) : World :=
  mkWorld (validation_log w) (slept w) (written w) m (clock_calls w)
          (uuid_calls w) (read_calls w) (write_calls w).

Definition tick_clock (w : World) : World :=
  mkWorld (validation_log w) (slept w) (written w) (saved_logs w)
          (S (clock_calls w)) (uuid_calls w) (read_calls w) (write_calls w).

Definition tick_uuid (w : World) : World :=
  mkWorld (validation_log w) (slept w) (written w) (saved_logs w)
          (clock_calls w) (S (uuid_calls w)) (read_calls w) (write_calls w).

Definition tick_read (w : World) : World :=
  mkWorld (validation_log w) (slept w) (written w) (saved_logs w)
          (clock_calls w) (uuid_calls w) (S (read_calls w)) (write_calls w).

Definition tick_write (w : World) : World :=
  mkWorld (validation_log w) (slept w) (written w) (saved_logs w)
          (clock_calls w) (uuid_calls w) (read_calls w) (S (write_calls w)).

(** ** Effects: state passing with exceptions *)

Definition M (A : Type) : Type := World -> (exn + A) * World.

Definition ret {A} (a : A) : M A := fun w => (inr a, w).

Definition raise {A} (e : exn) : M A := fun w => (inl e, w).

Definition bind {A B} (m : M A) (k : A -> M B) : M B :=
  fun w => match m w with
           | (inr a, w') => k a w'
           | (inl e, w') => (inl e, w')
           end.

(** [try: body  except Exception as e: handler e] *)
Definition try_except {A} (body : M A) (handler : exn -> M A) : M A :=
  fun w => match body w with
           | (inr a, w') => (inr a, w')
           | (inl e, w') => handler e w'
           end.

Notation "'let!' x ':=' c1 'in' c2" := (bind c1 (fun x => c2))
  (at level 10, x name, c1 at level 100, c2 at level 200).
Notation "'do!' c1 'in' c2" := (bind c1 (fun _ => c2))
  (at level 10, c1 at level 100, c2 at level 200).

(** [for x in l: s = body x s] *)
Fixpoint for_each {A S} (l : list A) (body : A -> S -> M S) (s : S) : M S :=
  match l with
  | [] => ret s
  | x :: l' => let! s' := body x s in for_each l' body s'
  end.

(** A [dict] with string keys, in insertion order. *)
Definition dict (V : Type) : Type := list (string * V).

(** [d[k] = v] *)
Definition dict_set {V} (d : dict V) (k : string) (v : V) : dict V :=
  if bool_decide (k ∈ d.*1)
  then map (fun kv => if bool_decide (kv.1 = k) then (k, v) else kv) d
  else d ++ [(k, v)].

Section Primitives.
Context (E : Env).

(** [datetime.now()] *)
Definition now : M Time := fun w =>
  (inr (datetime_now E (clock_calls w)), tick_clock w).

(** [str(uuid.uuid4())] *)
Definition new_uuid : M string := fun w =>
  (inr (uuid4 E (uuid_calls w)), tick_uuid w).

(** [time.sleep(n)] *)
Definition sleep (n : nat) : M unit := fun w =>
  (inr tt, with_slept (slept w ++ [n]) w).

(** [validation_log.append(ev)] *)
Definition log_append (ev : ValidationEvent) : M unit := fun w =>
  (inr tt, with_log (validation_log w ++ [ev]) w).

(** The body shared by the [log_validation] of both scripts. *)
Definition log_validation (stage file issue_type details severity : string)
    : M unit :=
  let! t := now in
  log_append (mkEvent t stage file issue_type details severity).

(** A call of a pandas reader. *)
Definition pd_read {A} (reader : nat -> exn + A) : M A := fun w =>
  (reader (read_calls w), tick_read w).

(** [df.to_parquet(path, index=False)]: on success the table is what the
    file at [path] now holds, whatever it held before. *)
Definition to_parquet (df : DataFrame) (path : string) : M unit := fun w =>
  match to_parquet_error E path df (write_calls w) with
  | Some e => (inl e, tick_write w)
  | None => (inr tt, with_written (<[path := df]> (written w)) (tick_write w))
  end.

(** [pd.DataFrame(validation_log).to_csv(path, index=False)] *)
Definition log_to_csv (path : string) : M unit := fun w =>
  (inr tt, with_saved_logs (<[path := validation_log w]> (saved_logs w)) w).

(** [os.path.exists], [os.path.isdir], [os.path.isfile] *)
Definition os_path_exists (p : string) : bool :=
  bool_decide (is_Some (fs E !! p)).

Definition os_path_isdir (p : string) : bool :=
  match fs E !! p with Some (Dir _ _) => true | _ => false end.

Definition os_path_isfile (p : string) : bool :=
  match fs E !! p with Some (File _) => true | _ => false end.

(** [os.path.getsize] *)
Definition os_path_getsize (p : string) : M nat :=
  match fs E !! p with
  | Some (File n) | Some (Dir n _) => ret n
  | None =>
      raise (Exn "FileNotFoundError" ("No such file or directory: " +:+ p))
  end.

(** [os.listdir] *)
Definition os_listdir (p : string) : M (list string) :=
  match fs E !! p with
  | Some (Dir _ entries) => ret entries
  | Some (File _) =>
      raise (Exn "NotADirectoryError" ("Not a directory: " +:+ p))
  | None =>
      raise (Exn "FileNotFoundError" ("No such file or directory: " +:+ p))
  end.

End Primitives.

(** ** scripts/bronze/ingest_to_bronze.py *)

Module IngestToBronze.

(** An entry of [sources[department]]. *)
Record FileInfo := mkFileInfo {
  filename : string;
  path : string;
  format : string;
  size_bytes : nat
}.

Section WithEnv.
Context (E : Env).

(** *** Stage 1: [identify_sources] *)

(** The body of the inner loop, for one entry of a department directory. *)
Definition identify_file (dept_path : string) (file : string)
    (acc : list FileInfo) : M (list FileInfo) :=
  let file_path := OsPath.join dept_path file in
  if negb (os_path_isfile E file_path) then ret acc
  else
    let ext := PyStr.lower (PyStr.suffix_after_last_dot file) in
    let! size := os_path_getsize E file_path in
    ret (acc ++ [mkFileInfo file file_path ext size]).

(** The body of the outer loop, for one entry of the root. *)
Definition identify_department (raw_folder : string) (department : string)
    (sources : dict (list FileInfo)) : M (dict (list FileInfo)) :=
  let dept_path := OsPath.join raw_folder department in
  if negb (os_path_isdir E dept_path) then ret sources
  else
    let! files := os_listdir E dept_path in
    let! infos := for_each files (identify_file dept_path) [] in
    ret (dict_set sources department infos).

Definition identify_sources (raw_folder : string)
    : M (dict (list FileInfo)) :=
  let! departments := os_listdir E raw_folder in
  for_each departments (identify_department raw_folder) [].

(** *** Stage 2: [load_dataset] *)

(** The [if ext == ...] chain inside the [try]. *)
Definition read_by_ext (ext path : string) : M DataFrame :=
  if bool_decide (ext = "csv") then pd_read (pd_read_csv E "," path)
  else if bool_decide (ext = "parquet") then pd_read (pd_read_parquet E path)
  else if bool_decide (ext ∈ ["pickle"; "pkl"])
       then pd_read (pd_read_pickle E path)
  else if bool_decide (ext ∈ ["xlsx"; "xls"])
       then pd_read (pd_read_excel E path)
  else if bool_decide (ext = "json") then pd_read (pd_read_json E path)
  else if bool_decide (ext = "html") then
    let! tables := pd_read (pd_read_html E path) in
    ret (match tables with t :: _ => t | [] => empty_DataFrame end)
  else raise (Exn "ValueError" ("Unsupported file type: " +:+ ext)).

(** The [for attempt in range(max_retries)] loop; falling out of the loop
    returns [None]. *)
Fixpoint load_dataset_attempts (path ext : string) (max_retries : Z)
    (attempts : list nat) : M (option DataFrame) :=
  match attempts with
  | [] => ret None
  | attempt :: rest =>
      try_except
        (let! df := read_by_ext ext path in ret (Some df))
        (fun e =>
           if (Z.of_nat attempt <? max_retries - 1)%Z then
             let wait_time := 2 ^ attempt in
             do! log_validation E "EXTRACT" (OsPath.basename path)
                   "RETRY_EXTRACT"
                   ("Attempt " +:+ PyStr.str_of_nat (attempt + 1) +:+ "/"
                    +:+ PyStr.str_of_Z max_retries +:+ " failed: "
                    +:+ py_str e +:+ ". Retrying in "
                    +:+ PyStr.str_of_nat wait_time +:+ "s...")
                   "WARNING" in
             do! sleep wait_time in
             load_dataset_attempts path ext max_retries rest
           else
             do! log_validation E "EXTRACT" (OsPath.basename path)
                   "EXTRACTION_FAILED"
                   ("All " +:+ PyStr.str_of_Z max_retries
                    +:+ " attempts exhausted: " +:+ py_str e)
                   "ERROR" in
             raise e)
  end.

Definition load_dataset (path : string) (max_retries : Z)
    : M (option DataFrame) :=
  let ext := PyStr.lower (PyStr.suffix_after_last_dot path) in
  load_dataset_attempts path ext max_retries (seq 0 (Z.to_nat max_retries)).

(** *** The first validation checkpoint *)

Definition first_validation (df : option DataFrame) (file file_path : string)
    : M bool :=
  if negb (os_path_exists E file_path) then
    do! log_validation E "FIRST_VALIDATION" file "FILE_NOT_FOUND"
          ("File does not exist: " +:+ file_path) "ERROR" in
    ret false
  else
    let! size := os_path_getsize E file_path in
    if (size <? 10)%nat then
      do! log_validation E "FIRST_VALIDATION" file "EMPTY_FILE"
            ("File size is " +:+ PyStr.str_of_nat size
             +:+ " bytes (too small)") "ERROR" in
      ret false
    else
      match df with
      | None =>
          do! log_validation E "FIRST_VALIDATION" file "NULL_DATAFRAME"
                "Extraction returned None" "ERROR" in
          ret false
      | Some df =>
          do! (if df_empty df then
                 log_validation E "FIRST_VALIDATION" file "EMPTY_DATAFRAME"
                   "DataFrame has no rows" "WARNING"
               else ret tt) in
          if (length (df_columns df) =? 0)%nat then
            do! log_validation E "FIRST_VALIDATION" file "NO_COLUMNS"
                  "DataFrame has no columns" "ERROR" in
            ret false
          else ret true
      end.

(** *** Stage 3: [standardize_filename] and [raw_loading_zone] *)

Definition standardize_filename (file_name department : string) : string :=
  let base := PyStr.rsplit1_head file_name in
  let base := PyStr.lower (PyStr.re_sub PyStr.cls_space_hyphen_dot "_" base) in
  let dept := PyStr.lower (PyStr.replace_char " " "_" department) in
  dept +:+ "_" +:+ base +:+ ".parquet".

(** The four assignments under "Add audit metadata". *)
Definition add_audit_metadata (df : DataFrame) (ingest_ts : Time)
    (batch_id department file : string) : DataFrame :=
  let df := df_setitem df "ingest_ts" (CTime ingest_ts) in
  let df := df_setitem df "batch_id" (CStr batch_id) in
  let df := df_setitem df "source_department" (CStr department) in
  df_setitem df "source_filename" (CStr file).

(** The counters [successful] and [failed] of [raw_loading_zone]. *)
Record Counters := mkCounters { successful : nat; failed : nat }.

(** The body of the inner loop: one file, inside its [try]. *)
Definition process_file (bronze_folder batch_id : string) (ingest_ts : Time)
    (department : string) (file_info : FileInfo) (c : Counters)
    : M Counters :=
  let file := filename file_info in
  let file_path := path file_info in
  try_except
    (let! df := load_dataset file_path 3 in
     let! ok := first_validation df file file_path in
     if negb ok then ret (mkCounters (successful c) (failed c + 1))
     else
       match df with
       | None =>
           raise (Exn "TypeError"
                    "'NoneType' object does not support item assignment")
       | Some df =>
           let df := add_audit_metadata df ingest_ts batch_id department
                       file in
           let output_name := standardize_filename file department in
           let output_path := OsPath.join bronze_folder output_name in
           do! to_parquet E df output_path in
           ret (mkCounters (successful c + 1) (failed c))
       end)
    (fun e =>
       do! log_validation E "RAW_LOADING" file "PROCESSING_ERROR"
             ("Unexpected error: " +:+ py_str e) "ERROR" in
       ret (mkCounters (successful c) (failed c + 1))).

Definition process_department (bronze_folder batch_id : string)
    (ingest_ts : Time) (dept_files : string * list FileInfo) (c : Counters)
    : M Counters :=
  for_each dept_files.2
    (process_file bronze_folder batch_id ingest_ts dept_files.1) c.

(** [raw_loading_zone]; the source prints the two counters in its closing
    line, the model returns them.  [os.makedirs(bronze_folder,
    exist_ok=True)] leaves no trace in the [World]. *)
Definition raw_loading_zone (sources : dict (list FileInfo))
    (bronze_folder batch_id : string) (ingest_ts : Time) : M Counters :=
  for_each sources (process_department bronze_folder batch_id ingest_ts)
    (mkCounters 0 0).

(** *** [ingestion] *)

Definition ingestion (raw_folder bronze_folder : string) : M Counters :=
  let! batch_id := new_uuid E in
  let! ingest_ts := now E in
  let! sources := identify_sources raw_folder in
  let! c := raw_loading_zone sources bronze_folder batch_id ingest_ts in
  let! log := (fun w => (inr (validation_log w), w)) in
  do! (if bool_decide (log = []) then ret tt
       else log_to_csv
              (OsPath.join bronze_folder "_bronze_validation_log.csv")) in
  ret c.

End WithEnv.

End IngestToBronze.

(** ** scripts/bronze/modded_bronzeval.py *)

Module ModdedBronzeval.

(** An entry of [sources[department]]. *)
Record FileMeta := mkFileMeta {
  filename : string;
  path : string;
  format : string
}.

(** The tab character, ['\t']. *)
Definition TAB : ascii := "009"%char.

Section WithEnv.
Context (E : Env).

(** *** Stage 1: [discover_sources] *)

Definition discover_file (dept_path : string) (file : string)
    (dept_files : list FileMeta) : M (list FileMeta) :=
  let file_path := OsPath.join dept_path file in
  if os_path_isfile E file_path then
    let ext := PyStr.lower (PyStr.suffix_after_last_dot file) in
    ret (dept_files ++ [mkFileMeta file file_path ext])
  else ret dept_files.

Definition discover_department (raw_folder : string) (department : string)
    (sources : dict (list FileMeta)) : M (dict (list FileMeta)) :=
  let dept_path := OsPath.join raw_folder department in
  if negb (os_path_isdir E dept_path) then ret sources
  else
    let! files := os_listdir E dept_path in
    let! dept_files := for_each files (discover_file dept_path) [] in
    match dept_files with
    | [] => ret sources
    | _ => ret (dict_set sources department dept_files)
    end.

Definition discover_sources (raw_folder : string)
    : M (dict (list FileMeta)) :=
  if negb (os_path_exists E raw_folder) then ret []
  else
    let! departments := os_listdir E raw_folder in
    for_each departments (discover_department raw_folder) [].

(** *** Stage 2: [load_dataset] *)

Definition load_dataset (path : string) : M DataFrame :=
  let ext := PyStr.lower (PyStr.suffix_after_last_dot path) in
  let file_name := PyStr.lower (OsPath.basename path) in
  try_except
    (if bool_decide (ext = "csv") then
       if PyStr.contains "campaign" file_name
       then pd_read (pd_read_csv E TAB path)
       else pd_read (pd_read_csv E "," path)
     else if bool_decide (ext = "parquet")
          then pd_read (pd_read_parquet E path)
     else if bool_decide (ext ∈ ["pickle"; "pkl"])
          then pd_read (pd_read_pickle E path)
     else if bool_decide (ext ∈ ["xlsx"; "xls"])
          then pd_read (pd_read_excel E path)
     else if bool_decide (ext = "json") then pd_read (pd_read_json E path)
     else if bool_decide (ext = "html") then
       let! tables := pd_read (pd_read_html E path) in
       ret (match tables with t :: _ => t | [] => empty_DataFrame end)
     else raise (Exn "ValueError" ("Unknown type: " +:+ ext)))
    (fun e => raise e).

(** *** Stage 3: [raw_loading_zone] *)

(** The name computed under "Standardize Bronze Name". *)
Definition bronze_name (file department : string) : string :=
  let clean_name :=
    PyStr.re_sub PyStr.cls_space_hyphen "_"
      (PyStr.lower (OsPath.splitext_root file)) in
  PyStr.lower department +:+ "_" +:+ clean_name +:+ "_bronze.parquet".

(** The body of the inner loop: one file, inside its [try]. *)
Definition load_file (bronze_folder department : string) (meta : FileMeta)
    (u : unit) : M unit :=
  let file := filename meta in
  let path := path meta in
  try_except
    (let! df := load_dataset path in
     let! t := now E in
     let df := df_setitem df "_loaded_ts" (CIso t) in
     let df := df_setitem df "_src_dept" (CStr department) in
     let out_name := bronze_name file department in
     let out_path := OsPath.join bronze_folder out_name in
     to_parquet E df out_path)
    (fun e => log_validation E "BRONZE_LOAD" file "FAILED" (py_str e) "ERROR").

Definition load_department (bronze_folder : string)
    (dept_files : string * list FileMeta) (u : unit) : M unit :=
  for_each dept_files.2 (load_file bronze_folder dept_files.1) u.

(** The loop of [raw_loading_zone] over the discovered sources. *)
Definition load_sources (sources : dict (list FileMeta))
    (bronze_folder : string) : M unit :=
  for_each sources (load_department bronze_folder) tt.

(** [raw_loading_zone]; creating [bronze_folder] leaves no trace in the
    [World]. *)
Definition raw_loading_zone (raw_folder bronze_folder : string) : M unit :=
  let! sources := discover_sources raw_folder in
  load_sources sources bronze_folder.

(** *** [save_validation_log] and [run_bronze_pipeline] *)

Definition save_validation_log (bronze_folder : string) : M unit :=
  let! log := (fun w => (inr (validation_log w), w)) in
  if bool_decide (log = []) then ret tt
  else
    let log_path := OsPath.join (OsPath.dirname bronze_folder)
                      "_bronze_validation_log.csv" in
    log_to_csv log_path.

Definition run_bronze_pipeline (source_data data_zone : string) : M unit :=
  let bronze_subfolder := OsPath.join data_zone "bronze_files" in
  do! raw_loading_zone source_data bronze_subfolder in
  save_validation_log bronze_subfolder.

End WithEnv.

End ModdedBronzeval.

(** ** Vocabulary for the statements *)

(** The format tags [load_dataset] dispatches on. *)
Definition recognized_formats : list string :=
  ["csv"; "parquet"; "pickle"; "pkl"; "xlsx"; "xls"; "json"; "html"].

(** The format tag of a path: [path.split(".")[-1].lower()]. *)
Definition format_tag (path : string) : string :=
  PyStr.lower (PyStr.suffix_after_last_dot path).

(** The four audit columns of [ingest_to_bronze]. *)
Definition audit_columns : list Label :=
  [LStr "ingest_ts"; LStr "batch_id"; LStr "source_department";
   LStr "source_filename"].

Definition add_reads (k : nat) (w : World) : World :=
  mkWorld (validation_log w) (slept w) (written w) (saved_logs w)
          (clock_calls w) (uuid_calls w) (read_calls w + k) (write_calls w).

Definition add_clock (k : nat) (w : World) : World :=
  mkWorld (validation_log w) (slept w) (written w) (saved_logs w)
          (clock_calls w + k) (uuid_calls w) (read_calls w) (write_calls w).

(** What the extraction attempt made after [r] earlier reader calls gives. *)
Definition attempt_outcome (E : Env) (path : string) (r : nat)
    : exn + DataFrame :=
  (IngestToBronze.read_by_ext E (format_tag path) path
     (add_reads r initial_world)).1.

(** Events of a given issue type and severity in a log. *)
Definition events_of (issue sev : string) (log : list ValidationEvent)
    : list ValidationEvent :=
  filter (fun ev => issue_type ev = issue ∧ severity ev = sev) log.

Definition count_events (issue sev : string) (log : list ValidationEvent) : nat :=
  length (events_of issue sev log).

Definition count_issue (issue : string) (log : list ValidationEvent) : nat :=
  length (filter (fun ev => issue_type ev = issue) log).

Definition count_severity (sev : string) (log : list ValidationEvent) : nat :=
  length (filter (fun ev => severity ev = sev) log).

(** The event [load_dataset] logs when attempt number [attempt] (from 0) of
    [max_retries] fails with [e] and another attempt follows. *)
Definition retry_event (path : string) (max_retries : Z) (t : Time) (e : exn)
    (attempt : nat) : ValidationEvent :=
  mkEvent t "EXTRACT" (OsPath.basename path) "RETRY_EXTRACT"
    ("Attempt " +:+ PyStr.str_of_nat (attempt + 1) +:+ "/"
     +:+ PyStr.str_of_Z max_retries +:+ " failed: " +:+ py_str e
     +:+ ". Retrying in " +:+ PyStr.str_of_nat (2 ^ attempt) +:+ "s...")
    "WARNING".

(** The event it logs when the last attempt fails with [e]. *)
Definition exhausted_event (path : string) (max_retries : Z) (t : Time)
    (e : exn) : ValidationEvent :=
  mkEvent t "EXTRACT" (OsPath.basename path) "EXTRACTION_FAILED"
    ("All " +:+ PyStr.str_of_Z max_retries +:+ " attempts exhausted: "
     +:+ py_str e)
    "ERROR".

(** The retry events of attempts [a], ..., [a + k - 1], the first of them
    stamped with clock reading number [c0]. *)
Definition retry_events (E : Env) (path : string) (max_retries : Z)
    (c0 : nat) (errs : nat -> exn) (a k : nat) : list ValidationEvent :=
  map (fun j => retry_event path max_retries (datetime_now E (c0 + j))
                  (errs (a + j)) (a + j))
      (seq 0 k).

(** The back-off delays before attempts [a + 1], ..., [a + k]. *)
Definition backoff_delays (a k : nat) : list nat :=
  map (fun j => 2 ^ (a + j)) (seq 0 k).

(** The size [os.path.getsize] reports for a path of the tree, if it exists. *)
Definition stat_size (E : Env) (p : string) : option nat :=
  match fs E !! p with
  | Some (File n) | Some (Dir n _) => Some n
  | None => None
  end.

(** An event of the first validation checkpoint. *)
Definition validation_event (E : Env) (w : World) (file issue details sev : string)
    : ValidationEvent :=
  mkEvent (datetime_now E (clock_calls w)) "FIRST_VALIDATION" file issue
    details sev.

(** The world after one more event has been logged. *)
Definition logged (ev : ValidationEvent) (w : World) : World :=
  with_log (validation_log w ++ [ev]) (tick_clock w).

(** The event [raw_loading_zone] logs in its [except] branch. *)
Definition processing_error_event (E : Env) (w : World) (file : string) (e : exn)
    : ValidationEvent :=
  mkEvent (datetime_now E (clock_calls w)) "RAW_LOADING" file
    "PROCESSING_ERROR" ("Unexpected error: " +:+ py_str e) "ERROR".

(** The counters after [successful += 1], and after [failed += 1]. *)
Definition counted_success (c : IngestToBronze.Counters)
    : IngestToBronze.Counters :=
  IngestToBronze.mkCounters (IngestToBronze.successful c + 1)
    (IngestToBronze.failed c).

Definition counted_failure (c : IngestToBronze.Counters)
    : IngestToBronze.Counters :=
  IngestToBronze.mkCounters (IngestToBronze.successful c)
    (IngestToBronze.failed c + 1).

(** Where [raw_loading_zone] of [ingest_to_bronze] writes a file. *)
Definition output_path (bronze_folder department file : string) : string :=
  OsPath.join bronze_folder (IngestToBronze.standardize_filename file department).

(** [w'] is reached from [w] without touching any written table: the log has
    only grown, and [to_parquet] was not called. *)
Definition quiet_step (w w' : World) : Prop :=
  written w' = written w ∧ write_calls w' = write_calls w ∧
  exists new, validation_log w' = validation_log w ++ new.

(** The number of files of a discovered batch. *)
Definition batch_size {A} (sources : dict (list A)) : nat :=
  sum_list (map (fun d => length d.2) sources).

(** The delimiter expected for a delimited-text source: the tab
    for a file whose lower-cased name contains ["campaign"], the comma
    otherwise. *)
Definition chosen_delimiter (file_name : string) : ascii :=
  if PyStr.contains "campaign" file_name then ModdedBronzeval.TAB else ","%char.

(** No character of [s] is in the class. *)
Fixpoint none_in_class (cls : ascii -> bool) (s : string) : bool :=
  match s with
  | EmptyString => true
  | String c s' => negb (cls c) && none_in_class cls s'
  end.

(** The output name in the words of the specification: a name part is
    lower-cased and its runs of whitespace, hyphens and dots are collapsed to
    a single underscore; department and base filename are concatenated with a
    fixed suffix tag and the fixed columnar extension. *)
Definition spec_clean (s : string) : string :=
  PyStr.re_sub PyStr.cls_space_hyphen_dot "_" (PyStr.lower s).

Definition spec_output_name (tag department file_name : string) : string :=
  spec_clean department +:+ "_" +:+ spec_clean (PyStr.rsplit1_head file_name)
  +:+ tag +:+ ".parquet".

(** The event [raw_loading_zone] of [modded_bronzeval] logs in its [except]
    branch. *)
Definition bronze_load_failed_event (E : Env) (w : World) (file : string)
    (e : exn) : ValidationEvent :=
  mkEvent (datetime_now E (clock_calls w)) "BRONZE_LOAD" file "FAILED"
    (py_str e) "ERROR".

(** The descriptors that discovery makes of the entries [files] of the
    department directory [dept_path]: one per entry that is a regular file, in
    the order of the listing. *)
Fixpoint catalog_files (E : Env) (dept_path : string) (files : list string)
    : list IngestToBronze.FileInfo :=
  match files with
  | [] => []
  | file :: rest =>
      match fs E !! OsPath.join dept_path file with
      | Some (File size) =>
          IngestToBronze.mkFileInfo file (OsPath.join dept_path file)
            (format_tag file) size
          :: catalog_files E dept_path rest
      | _ => catalog_files E dept_path rest
      end
  end.

Fixpoint catalog_metas (E : Env) (dept_path : string) (files : list string)
    : list ModdedBronzeval.FileMeta :=
  match files with
  | [] => []
  | file :: rest =>
      match fs E !! OsPath.join dept_path file with
      | Some (File _) =>
          ModdedBronzeval.mkFileMeta file (OsPath.join dept_path file)
            (format_tag file)
          :: catalog_metas E dept_path rest
      | _ => catalog_metas E dept_path rest
      end
  end.

(** The mapping built from the entries seen so far: its keys are the seen
    entries that are directories, each once, and each key holds the catalogue
    of its directory. *)
Definition catalogue_of (E : Env) (raw_folder : string) (seen : list string)
    (sources : dict (list IngestToBronze.FileInfo)) : Prop :=
  NoDup sources.*1 ∧
  (forall dept, dept ∈ sources.*1 <->
                dept ∈ seen ∧ os_path_isdir E (OsPath.join raw_folder dept) = true) ∧
  (forall dept infos, (dept, infos) ∈ sources ->
     exists dsz files,
       fs E !! OsPath.join raw_folder dept = Some (Dir dsz files) ∧
       infos = catalog_files E (OsPath.join raw_folder dept) files).

(** The same for [discover_sources], which keeps a department only when its
    catalogue is not empty. *)
Definition catalogue_of_metas (E : Env) (raw_folder : string)
    (seen : list string) (sources : dict (list ModdedBronzeval.FileMeta))
    : Prop :=
  NoDup sources.*1 ∧
  (forall dept, dept ∈ sources.*1 <->
     dept ∈ seen ∧
     exists dsz files,
       fs E !! OsPath.join raw_folder dept = Some (Dir dsz files) ∧
       catalog_metas E (OsPath.join raw_folder dept) files ≠ []) ∧
  (forall dept metas, (dept, metas) ∈ sources ->
     exists dsz files,
       fs E !! OsPath.join raw_folder dept = Some (Dir dsz files) ∧
       metas = catalog_metas E (OsPath.join raw_folder dept) files).

(** ** A small source tree, used to run the scripts on concrete inputs *)

Module Demo.

Definition q1_report : DataFrame :=
  mkDataFrame 2 [(LStr "id", [CNum 1; CNum 2]);
                 (LStr "region", [CStr "north"; CStr "south"])].

Definition no_rows : DataFrame :=
  mkDataFrame 0 [(LStr "id", []); (LStr "name", [])].

(** The frame a delimited-text reader makes of a file that holds only a
    header line. *)
Definition header_only (sep : ascii) (header : string) : DataFrame :=
  mkDataFrame 0 (map (fun h => (LStr h, [])) (PyStr.split sep header)).

Definition campaign_header : string :=
  "id" +:+ String ModdedBronzeval.TAB ("name" +:+
  String ModdedBronzeval.TAB "budget").

Definition root : string := "/app/source_data".
Definition q1_path : string := "/app/source_data/Sales/Q1 Report.csv".
Definition flaky_path : string := "/app/source_data/Sales/flaky.csv".
Definition campaign_path : string :=
  "/app/source_data/Marketing/campaign_launch.csv".
Definition norows_path : string := "/app/source_data/Ops/norows.csv".
Definition empty_json_path : string := "/app/source_data/Ops/empty.json".
Definition blank_json_path : string := "/app/source_data/Ops/blank.json".
Definition notes_path : string := "/app/source_data/Ops/notes.txt".

Definition tree : gmap string Node :=
  list_to_map
    [(root, Dir 4096 ["Sales"; "Marketing"; "Ops"]);
     ("/app/source_data/Sales", Dir 4096 ["Q1 Report.csv"; "flaky.csv"]);
     ("/app/source_data/Marketing", Dir 4096 ["campaign_launch.csv"]);
     ("/app/source_data/Ops",
      Dir 4096 ["norows.csv"; "empty.json"; "blank.json"; "notes.txt"]);
     (q1_path, File 64);
     (flaky_path, File 64);
     (campaign_path, File 15);
     (norows_path, File 11);
     (empty_json_path, File 2);      (* the two characters of an empty JSON object *)
     (blank_json_path, File 12);     (* the same, padded with blanks *)
     (notes_path, File 120)].

Definition no_such_file {A} (path : string) : exn + A :=
  inl (Exn "FileNotFoundError" ("No such file or directory: " +:+ path)).

Definition read_csv (sep : ascii) (path : string) (k : nat)
    : exn + DataFrame :=
  if bool_decide (path = q1_path) then inr q1_report
  else if bool_decide (path = flaky_path) then
    if (k <? 2)%nat then inl (Exn "ParserError" "Error tokenizing data")
    else inr q1_report
  else if bool_decide (path = campaign_path)
       then inr (header_only sep campaign_header)
  else if bool_decide (path = norows_path) then inr no_rows
  else no_such_file path.

Definition read_json (path : string) (k : nat) : exn + DataFrame :=
  if bool_decide (path = empty_json_path) then inr empty_DataFrame
  else if bool_decide (path = blank_json_path) then inr empty_DataFrame
  else no_such_file path.

Definition env : Env :=
  mkEnv tree
    (fun k => 1000 + k)
    (fun k => "batch-" +:+ PyStr.str_of_nat k)
    read_csv
    (fun path _ => no_such_file path)
    (fun path _ => no_such_file path)
    (fun path _ => no_such_file path)
    read_json
    (fun path _ => no_such_file path)
    (fun _ _ _ => None).

End Demo.

(** ** A department with two files of one stem *)

Module Clash.

Definition orders_csv : string := "/data/Sales/orders.csv".
Definition orders_json : string := "/data/Sales/orders.json".

Definition json_orders : DataFrame :=
  mkDataFrame 1 [(LStr "order", [CNum 7])].

Definition tree : gmap string Node :=
  list_to_map
    [("/data", Dir 4096 ["Sales"]);
     ("/data/Sales", Dir 4096 ["orders.csv"; "orders.json"]);
     (orders_csv, File 64);
     (orders_json, File 80)].

Definition env : Env :=
  mkEnv tree
    (fun k => 500 + k)
    (fun _ => "batch-c")
    (fun _ _ _ => inr Demo.q1_report)
    (fun path _ => Demo.no_such_file path)
    (fun path _ => Demo.no_such_file path)
    (fun path _ => Demo.no_such_file path)
    (fun _ _ => inr json_orders)
    (fun path _ => Demo.no_such_file path)
    (fun _ _ _ => None).

Definition csv_info : IngestToBronze.FileInfo :=
  IngestToBronze.mkFileInfo "orders.csv" orders_csv "csv" 64.

Definition json_info : IngestToBronze.FileInfo :=
  IngestToBronze.mkFileInfo "orders.json" orders_json "json" 80.

End Clash.

(** * Properties *)

(** ** Running the primitives *)

Ltac unfold_world :=
  unfold with_log, with_slept, with_written, with_saved_logs, tick_clock,
    tick_uuid, tick_read, tick_write, add_reads, add_clock in *;
  simpl in *.

Lemma world_eta (w : World) :
  mkWorld (validation_log w) (slept w) (written w) (saved_logs w)
          (clock_calls w) (uuid_calls w) (read_calls w) (write_calls w) = w.
Proof. by destruct w. Qed.

Lemma add_reads_0 (w : World) : add_reads 0 w = w.
Proof. destruct w; unfold add_reads; simpl; f_equal; lia. Qed.

Lemma add_reads_1 (w : World) : add_reads 1 w = tick_read w.
Proof. destruct w; unfold add_reads, tick_read; simpl; f_equal; lia. Qed.

Lemma log_validation_run (E : Env) (st f it d sev : string) (w : World) :
  log_validation E st f it d sev w =
  (inr tt,
   with_log (validation_log w
             ++ [mkEvent (datetime_now E (clock_calls w)) st f it d sev])
            (tick_clock w)).
Proof. reflexivity. Qed.

Lemma bind_run_ok {A B} (m : M A) (k : A -> M B) (w w' : World) (a : A) :
  m w = (inr a, w') -> bind m k w = k a w'.
Proof. intros H. unfold bind. by rewrite H. Qed.

Lemma bind_run_raise {A B} (m : M A) (k : A -> M B) (w w' : World) (e : exn) :
  m w = (inl e, w') -> bind m k w = (inl e, w').
Proof. intros H. unfold bind. by rewrite H. Qed.

(** ** The retry loop of [load_dataset] *)

Lemma retry_events_S (E : Env) (path : string) (N : Z) (c0 : nat)
    (errs : nat -> exn) (a k : nat) :
  retry_events E path N c0 errs a (S k) =
  retry_event path N (datetime_now E c0) (errs a) a
  :: retry_events E path N (S c0) errs (S a) k.
Proof.
  unfold retry_events. cbn [seq map].
  rewrite !Nat.add_0_r. f_equal.
  rewrite <- seq_shift, map_map.
  apply map_ext. intros j. by rewrite !Nat.add_succ_r.
Qed.

Lemma backoff_delays_S (a k : nat) :
  backoff_delays a (S k) = 2 ^ a :: backoff_delays (S a) k.
Proof.
  unfold backoff_delays. cbn [seq map].
  rewrite Nat.add_0_r. f_equal.
  rewrite <- seq_shift, map_map.
  apply map_ext. intros j. by rewrite Nat.add_succ_r.
Qed.

Lemma retry_events_length (E : Env) (path : string) (N : Z) (c0 : nat)
    (errs : nat -> exn) (a k : nat) :
  length (retry_events E path N c0 errs a k) = k.
Proof. unfold retry_events. by rewrite length_map, length_seq. Qed.

Lemma retry_events_all_retry (E : Env) (path : string) (N : Z) (c0 : nat)
    (errs : nat -> exn) (a k : nat) (ev : ValidationEvent) :
  ev ∈ retry_events E path N c0 errs a k ->
  issue_type ev = "RETRY_EXTRACT" ∧ severity ev = "WARNING".
Proof.
  unfold retry_events. intros Hin.
  apply list_elem_of_fmap in Hin as (j & -> & _). done.
Qed.

Lemma count_retry_events (E : Env) (path : string) (N : Z) (c0 : nat)
    (errs : nat -> exn) (a k : nat) :
  count_events "RETRY_EXTRACT" "WARNING" (retry_events E path N c0 errs a k) = k
  ∧ count_issue "EXTRACTION_FAILED" (retry_events E path N c0 errs a k) = 0.
Proof.
  revert c0 a. induction k as [|k IH]; intros c0 a; [done|].
  rewrite retry_events_S. destruct (IH (S c0) (S a)) as [IH1 IH2].
  unfold count_events, events_of, count_issue in *.
  split.
  - rewrite filter_cons_True by done. simpl. by rewrite IH1.
  - rewrite filter_cons_False by done. done.
Qed.

Section RetryLoop.
Context (E : Env) (path ext : string) (N : Z).
(** Every attempt consults the readers [step] times and its outcome depends
    on the number of earlier reader calls only. *)
Context (step : nat) (out : nat -> exn + DataFrame).
Hypothesis read_by_ext_run : forall w,
  IngestToBronze.read_by_ext E ext path w = (out (read_calls w), add_reads step w).

Lemma attempts_until_success (k : nat) : forall (a len : nat) (w : World)
    (errs : nat -> exn) (df : DataFrame),
  k < len ->
  Z.of_nat (a + len) = N ->
  (forall j, j < k -> out (read_calls w + j * step) = inl (errs (a + j))) ->
  out (read_calls w + k * step) = inr df ->
  IngestToBronze.load_dataset_attempts E path ext N (seq a len) w =
  (inr (Some df),
   mkWorld (validation_log w ++ retry_events E path N (clock_calls w) errs a k)
           (slept w ++ backoff_delays a k) (written w) (saved_logs w)
           (clock_calls w + k) (uuid_calls w)
           (read_calls w + (k + 1) * step) (write_calls w)).
Proof.
  induction k as [|k IH]; intros a len w errs df Hlt HN Hfail Hok.
  - destruct len as [|len]; [lia|]. cbn [seq IngestToBronze.load_dataset_attempts].
    unfold try_except, bind. rewrite read_by_ext_run.
    simpl in Hok. rewrite Nat.add_0_r in Hok. rewrite Hok. simpl.
    f_equal. unfold add_reads. destruct w; simpl.
    rewrite !app_nil_r. f_equal; lia.
  - destruct len as [|len]; [lia|]. cbn [seq IngestToBronze.load_dataset_attempts].
    unfold try_except at 1. unfold bind at 1. rewrite read_by_ext_run.
    pose proof (Hfail 0 ltac:(lia)) as H0.
    simpl in H0. rewrite !Nat.add_0_r in H0. rewrite H0.
    replace (Z.of_nat a <? N - 1)%Z with true
      by (symmetry; apply Z.ltb_lt; lia).
    unfold bind. rewrite log_validation_run. cbn [sleep].
    erewrite (IH (S a) len _ errs df); try lia.
    + f_equal. rewrite retry_events_S, backoff_delays_S.
      destruct w; simpl. rewrite <- !app_assoc. simpl. f_equal; lia.
    + intros j Hj. specialize (Hfail (S j) ltac:(lia)).
      replace (S a + j) with (a + S j) by lia.
      rewrite <- Hfail. f_equal. simpl. lia.
    + rewrite <- Hok. f_equal. simpl. lia.
Qed.

Lemma attempts_exhausted (len : nat) : forall (a : nat) (w : World)
    (errs : nat -> exn),
  Z.of_nat (a + S len) = N ->
  (forall j, j < S len -> out (read_calls w + j * step) = inl (errs (a + j))) ->
  IngestToBronze.load_dataset_attempts E path ext N (seq a (S len)) w =
  (inl (errs (a + len)),
   mkWorld (validation_log w ++ retry_events E path N (clock_calls w) errs a len
            ++ [exhausted_event path N (datetime_now E (clock_calls w + len))
                  (errs (a + len))])
           (slept w ++ backoff_delays a len) (written w) (saved_logs w)
           (clock_calls w + S len) (uuid_calls w)
           (read_calls w + S len * step) (write_calls w)).
Proof.
  induction len as [|len IH]; intros a w errs HN Hfail.
  - cbn [seq IngestToBronze.load_dataset_attempts].
    unfold try_except, bind. rewrite read_by_ext_run.
    pose proof (Hfail 0 ltac:(lia)) as H0.
    simpl in H0. rewrite !Nat.add_0_r in H0. rewrite H0.
    replace (Z.of_nat a <? N - 1)%Z with false
      by (symmetry; apply Z.ltb_ge; lia).
    rewrite log_validation_run. simpl. rewrite !Nat.add_0_r.
    f_equal. destruct w; unfold_world. rewrite !app_nil_r. f_equal; lia.
  - remember (S len) as len1 eqn:Hlen1.
    cbn [seq IngestToBronze.load_dataset_attempts].
    unfold try_except at 1. unfold bind at 1. rewrite read_by_ext_run.
    pose proof (Hfail 0 ltac:(lia)) as H0.
    simpl in H0. rewrite !Nat.add_0_r in H0. rewrite H0.
    replace (Z.of_nat a <? N - 1)%Z with true
      by (symmetry; apply Z.ltb_lt; lia).
    unfold bind. rewrite log_validation_run. cbn [sleep].
    subst len1.
    erewrite (IH (S a) _ errs); try lia.
    + rewrite retry_events_S, backoff_delays_S.
      replace (S a + len) with (a + S len) by lia.
      f_equal. destruct w; simpl. rewrite <- !app_assoc. simpl.
      replace (S (clock_calls0 + len)) with (clock_calls0 + S len) by lia.
      f_equal; lia.
    + intros j Hj. specialize (Hfail (S j) ltac:(lia)).
      replace (S a + j) with (a + S j) by lia.
      rewrite <- Hfail. f_equal. simpl. lia.
Qed.

End RetryLoop.

Lemma read_by_ext_recognized (E : Env) (path : string) (w : World) :
  format_tag path ∈ recognized_formats ->
  IngestToBronze.read_by_ext E (format_tag path) path w =
  (attempt_outcome E path (read_calls w), add_reads 1 w).
Proof.
  intros Hfmt. unfold attempt_outcome, IngestToBronze.read_by_ext.
  rewrite add_reads_1.
  repeat case_bool_decide; try reflexivity.
  - unfold bind, pd_read. simpl.
    by destruct (pd_read_html E path (read_calls w)).
  - exfalso. unfold recognized_formats in Hfmt.
    repeat (apply elem_of_cons in Hfmt as [Hfmt|Hfmt];
            [rewrite Hfmt in *;
             match goal with
             | H : ¬ _ |- _ => solve [apply H; repeat constructor]
             end|]).
    by apply elem_of_nil in Hfmt.
Qed.

Lemma read_by_ext_unrecognized (E : Env) (ext path : string) (w : World) :
  ext ∉ recognized_formats ->
  IngestToBronze.read_by_ext E ext path w =
  (inl (Exn "ValueError" ("Unsupported file type: " +:+ ext)), add_reads 0 w).
Proof.
  intros Hfmt. unfold IngestToBronze.read_by_ext. rewrite add_reads_0.
  unfold recognized_formats in Hfmt.
  repeat case_bool_decide; try reflexivity; exfalso; apply Hfmt;
    repeat match goal with
           | H : _ ∈ _ :: _ |- _ => apply elem_of_cons in H as [H|H]
           | H : _ ∈ [] |- _ => by apply elem_of_nil in H
           | H : ext = _ |- _ => rewrite H; repeat constructor
           end.
Qed.

(** C2.  [load_dataset] makes at most [max_retries] attempts.  When the first
    [k] attempts on a source of a recognized format fail, each failure is
    followed by one WARNING [RETRY_EXTRACT] event that carries the attempt
    number ([j + 1] of [max_retries]) and by a sleep of [2 ^ j] (so 1, 2,
    4, ...).  If attempt [k] then succeeds, the table is returned and the log
    holds exactly [k] RETRY_EXTRACT warnings and no EXTRACTION_FAILED event
    (two and none for a source that fails twice and succeeds on the third of
    three attempts).  If attempt [k] is the last one and fails as well, one
    ERROR [EXTRACTION_FAILED] event is logged and the exception is raised
    again. *)
Theorem load_dataset_retry_policy (E : Env) (path : string) (n k : nat)
    (errs : nat -> exn) (w : World) :
  format_tag path ∈ recognized_formats ->
  (forall j, j < k -> attempt_outcome E path (read_calls w + j) = inl (errs j)) ->
  let r := IngestToBronze.load_dataset E path (Z.of_nat n) w in
  let retries := retry_events E path (Z.of_nat n) (clock_calls w) errs 0 k in
  backoff_delays 0 k = map (fun j => 2 ^ j) (seq 0 k) ∧
  count_events "RETRY_EXTRACT" "WARNING" retries = k ∧
  count_issue "EXTRACTION_FAILED" retries = 0 ∧
  (forall df, k < n ->
     attempt_outcome E path (read_calls w + k) = inr df ->
     r.1 = inr (Some df) ∧
     validation_log r.2 = validation_log w ++ retries ∧
     slept r.2 = slept w ++ backoff_delays 0 k ∧
     read_calls r.2 = read_calls w + k + 1) ∧
  (forall e, k + 1 = n ->
     attempt_outcome E path (read_calls w + k) = inl e ->
     r.1 = inl e ∧
     validation_log r.2 =
       validation_log w ++ retries
       ++ [exhausted_event path (Z.of_nat n)
             (datetime_now E (clock_calls w + k)) e] ∧
     severity (exhausted_event path (Z.of_nat n)
                 (datetime_now E (clock_calls w + k)) e) = "ERROR" ∧
     slept r.2 = slept w ++ backoff_delays 0 k ∧
     read_calls r.2 = read_calls w + n).
Proof.
  intros Hfmt Hfail r retries.
  pose proof (count_retry_events E path (Z.of_nat n) (clock_calls w) errs 0 k)
    as [Hc1 Hc2].
  pose proof (fun w => read_by_ext_recognized E path w Hfmt) as Hread.
  split; [done|]. split; [done|]. split; [done|]. split.
  - intros df Hk Hok.
    assert (r = (inr (Some df),
                 mkWorld (validation_log w ++ retries)
                   (slept w ++ backoff_delays 0 k) (written w) (saved_logs w)
                   (clock_calls w + k) (uuid_calls w)
                   (read_calls w + (k + 1) * 1) (write_calls w))) as ->.
    { subst r. unfold IngestToBronze.load_dataset. rewrite Nat2Z.id.
      apply (attempts_until_success E path (format_tag path) (Z.of_nat n) 1
               (attempt_outcome E path) Hread k 0 n w errs df); try done.
      - intros j Hj. rewrite Nat.mul_1_r. by apply Hfail.
      - by rewrite Nat.mul_1_r. }
    simpl. repeat split; try done. lia.
  - intros e Hn Hbad. subst n.
    set (errs' := fun j => if decide (j < k) then errs j else e).
    assert (errs' k = e) as Hk by (unfold errs'; case_decide; [lia|done]).
    assert (retry_events E path (Z.of_nat (k + 1)) (clock_calls w) errs' 0 k
            = retries) as Hretries.
    { unfold retries, retry_events.
      apply map_ext_in. intros j Hj%in_seq. simpl.
      unfold errs'. case_decide; [done|lia]. }
    assert (r = (inl (errs' (0 + k)),
                 mkWorld (validation_log w
                          ++ retry_events E path (Z.of_nat (k + 1))
                               (clock_calls w) errs' 0 k
                          ++ [exhausted_event path (Z.of_nat (k + 1))
                                (datetime_now E (clock_calls w + k))
                                (errs' (0 + k))])
                   (slept w ++ backoff_delays 0 k) (written w) (saved_logs w)
                   (clock_calls w + S k) (uuid_calls w)
                   (read_calls w + S k * 1) (write_calls w))) as ->.
    { subst r. unfold IngestToBronze.load_dataset. rewrite Nat2Z.id.
      replace (k + 1) with (S k) by lia.
      apply (attempts_exhausted E path (format_tag path) (Z.of_nat (S k)) 1
               (attempt_outcome E path) Hread k 0 w errs'); try done.
      intros j Hj. rewrite Nat.mul_1_r. simpl. unfold errs'.
      case_decide; [by apply Hfail|]. by replace j with k by lia. }
    simpl. rewrite Hk, Hretries. repeat split; try done. lia.
Qed.

Lemma load_dataset_retry_policy_witness :
  let r := IngestToBronze.load_dataset Demo.env Demo.flaky_path 3
             initial_world in
  r.1 = inr (Some Demo.q1_report) ∧
  map issue_type (validation_log r.2) = ["RETRY_EXTRACT"; "RETRY_EXTRACT"] ∧
  slept r.2 = [1; 2].
Proof.
  pose proof (load_dataset_retry_policy Demo.env Demo.flaky_path 3 2
                (fun _ => Exn "ParserError" "Error tokenizing data")
                initial_world) as H.
  destruct H as (_ & _ & _ & Hok & _).
  - apply (bool_decide_unpack _). vm_compute. exact I.
  - intros j Hj. destruct j as [|[|j]]; [reflexivity|reflexivity|lia].
  - destruct (Hok Demo.q1_report) as (H1 & H2 & H3 & _);
      [lia|reflexivity|].
    split; [exact H1|]. split.
    + exact (eq_trans (f_equal (map issue_type) H2) eq_refl).
    + exact (eq_trans H3 eq_refl).
Defined.

(** ** Unrecognized format tags *)

Lemma modded_load_dataset_unrecognized (E : Env) (path : string) (w : World) :
  format_tag path ∉ recognized_formats ->
  ModdedBronzeval.load_dataset E path w =
  (inl (Exn "ValueError" ("Unknown type: " +:+ format_tag path)), w).
Proof.
  intros Hfmt. unfold ModdedBronzeval.load_dataset, try_except.
  fold (format_tag path). unfold recognized_formats in Hfmt.
  repeat case_bool_decide; try reflexivity; exfalso; apply Hfmt;
    repeat match goal with
           | H : _ ∈ _ :: _ |- _ => apply elem_of_cons in H as [H|H]
           | H : _ ∈ [] |- _ => by apply elem_of_nil in H
           | H : format_tag path = _ |- _ => rewrite H; repeat constructor
           end.
Qed.

(** C8, as the code has it.  In [ingest_to_bronze] an unrecognized format
    tag raises [ValueError] inside the [try] of the retry loop, so it is
    retried like every other failure: no reader is called, but with
    [max_retries = n >= 1] the loop logs [n - 1] RETRY_EXTRACT warnings,
    sleeps [1, 2, ..., 2 ^ (n - 2)], logs EXTRACTION_FAILED and only then
    raises the [ValueError] again.  [modded_bronzeval], which has no retry
    loop, raises at once and leaves the world as it was. *)
Theorem unsupported_format_goes_through_retry_loop (E : Env) (path : string)
    (n : nat) (w : World) :
  format_tag path ∉ recognized_formats ->
  0 < n ->
  let e := Exn "ValueError" ("Unsupported file type: " +:+ format_tag path) in
  let r := IngestToBronze.load_dataset E path (Z.of_nat n) w in
  let retries :=
    retry_events E path (Z.of_nat n) (clock_calls w) (fun _ => e) 0 (n - 1) in
  (r.1 = inl e ∧
   read_calls r.2 = read_calls w ∧
   validation_log r.2 =
     validation_log w ++ retries
     ++ [exhausted_event path (Z.of_nat n)
           (datetime_now E (clock_calls w + (n - 1))) e] ∧
   count_events "RETRY_EXTRACT" "WARNING" retries = n - 1 ∧
   slept r.2 = slept w ++ map (fun j => 2 ^ j) (seq 0 (n - 1))) ∧
  ModdedBronzeval.load_dataset E path w =
    (inl (Exn "ValueError" ("Unknown type: " +:+ format_tag path)), w).
Proof.
  intros Hfmt Hn e r retries.
  split; [|by apply modded_load_dataset_unrecognized].
  destruct n as [|m]; [lia|].
  subst retries. replace (S m - 1) with m by lia.
  set (retries := retry_events E path (Z.of_nat (S m)) (clock_calls w)
                    (fun _ => e) 0 m).
  assert (r = (inl e,
               mkWorld (validation_log w ++ retries
                        ++ [exhausted_event path (Z.of_nat (S m))
                              (datetime_now E (clock_calls w + m)) e])
                 (slept w ++ backoff_delays 0 m) (written w) (saved_logs w)
                 (clock_calls w + S m) (uuid_calls w)
                 (read_calls w + S m * 0) (write_calls w))) as ->.
  { subst r. unfold IngestToBronze.load_dataset. rewrite Nat2Z.id.
    apply (attempts_exhausted E path (format_tag path) (Z.of_nat (S m)) 0
             (fun _ => inl e)
             (fun w => read_by_ext_unrecognized E _ path w Hfmt)
             m 0 w (fun _ => e)); done. }
  simpl. repeat split; try done.
  - lia.
  - apply count_retry_events.
Qed.

Lemma unsupported_format_goes_through_retry_loop_witness :
  let r := IngestToBronze.load_dataset Demo.env Demo.notes_path 3
             initial_world in
  r.1 = inl (Exn "ValueError" "Unsupported file type: txt") ∧
  read_calls r.2 = 0 ∧
  slept r.2 = [1; 2].
Proof.
  pose proof (unsupported_format_goes_through_retry_loop Demo.env
                Demo.notes_path 3 initial_world) as H.
  destruct H as [(H1 & H2 & _ & _ & H3) _].
  - apply (bool_decide_unpack _). vm_compute. exact I.
  - lia.
  - split; [exact H1|]. split; [exact H2|exact H3].
Defined.

(** C8, as the claim states it, fails on [ingest_to_bronze]: the three
    attempts on [notes.txt] call no reader, yet two RETRY_EXTRACT warnings are
    logged and the loop sleeps 1 and 2 before the error is raised. *)
Lemma unsupported_format_no_retry_counterexample :
  let r := IngestToBronze.load_dataset Demo.env Demo.notes_path 3
             initial_world in
  (format_tag Demo.notes_path ∉ recognized_formats) ∧
  r.1 = inl (Exn "ValueError" "Unsupported file type: txt") ∧
  count_events "RETRY_EXTRACT" "WARNING" (validation_log r.2) = 2 ∧
  slept r.2 = [1; 2] ∧
  slept r.2 ≠ slept initial_world.
Proof.
  split; [apply (bool_decide_unpack _); vm_compute; exact I|].
  split; [vm_compute; reflexivity|].
  split; [vm_compute; reflexivity|].
  split; [vm_compute; reflexivity|].
  vm_compute. discriminate.
Qed.

(** ** The first validation checkpoint *)

Lemma stat_size_Some (E : Env) (p : string) (n : nat) :
  stat_size E p = Some n ->
  os_path_exists E p = true ∧ os_path_getsize E p = ret n.
Proof.
  unfold stat_size, os_path_exists, os_path_getsize.
  destruct (fs E !! p) as [[m|m l]|]; intros [= ->]; split; try done;
    by apply bool_decide_eq_true_2.
Qed.

Lemma stat_size_None (E : Env) (p : string) :
  stat_size E p = None -> os_path_exists E p = false.
Proof.
  unfold stat_size, os_path_exists.
  destruct (fs E !! p) as [[m|m l]|]; intros [=].
  apply bool_decide_eq_false_2. by intros [? ?].
Qed.

Section FirstValidation.
Context (E : Env) (file file_path : string) (w : World).

Lemma first_validation_missing (df : option DataFrame) :
  stat_size E file_path = None ->
  IngestToBronze.first_validation E df file file_path w =
  (inr false,
   logged (validation_event E w file "FILE_NOT_FOUND"
             ("File does not exist: " +:+ file_path) "ERROR") w).
Proof.
  intros H%stat_size_None. unfold IngestToBronze.first_validation.
  by rewrite H.
Qed.

Lemma first_validation_small (df : option DataFrame) (size : nat) :
  stat_size E file_path = Some size ->
  size < 10 ->
  IngestToBronze.first_validation E df file file_path w =
  (inr false,
   logged (validation_event E w file "EMPTY_FILE"
             ("File size is " +:+ PyStr.str_of_nat size
              +:+ " bytes (too small)") "ERROR") w).
Proof.
  intros [Hex Hsz]%stat_size_Some Hlt. unfold IngestToBronze.first_validation.
  rewrite Hex, Hsz. simpl. unfold bind at 1, ret at 1.
  by replace (size <? 10)%nat with true by (symmetry; apply Nat.ltb_lt; lia).
Qed.

Lemma first_validation_none (size : nat) :
  stat_size E file_path = Some size ->
  10 <= size ->
  IngestToBronze.first_validation E None file file_path w =
  (inr false,
   logged (validation_event E w file "NULL_DATAFRAME"
             "Extraction returned None" "ERROR") w).
Proof.
  intros [Hex Hsz]%stat_size_Some Hge. unfold IngestToBronze.first_validation.
  rewrite Hex, Hsz. simpl. unfold bind at 1, ret at 1.
  by replace (size <? 10)%nat with false by (symmetry; apply Nat.ltb_ge; lia).
Qed.

Lemma first_validation_no_columns (df : DataFrame) (size : nat) :
  stat_size E file_path = Some size ->
  10 <= size ->
  columns df = [] ->
  let w1 := logged (validation_event E w file "EMPTY_DATAFRAME"
                      "DataFrame has no rows" "WARNING") w in
  IngestToBronze.first_validation E (Some df) file file_path w =
  (inr false,
   logged (validation_event E w1 file "NO_COLUMNS"
             "DataFrame has no columns" "ERROR") w1).
Proof.
  intros [Hex Hsz]%stat_size_Some Hge Hcols w1.
  unfold IngestToBronze.first_validation.
  rewrite Hex, Hsz. simpl. unfold bind at 1, ret at 1.
  replace (size <? 10)%nat with false by (symmetry; apply Nat.ltb_ge; lia).
  unfold df_empty, df_columns. rewrite Hcols. simpl.
  by rewrite orb_true_r.
Qed.

Lemma first_validation_no_rows (df : DataFrame) (size : nat) :
  stat_size E file_path = Some size ->
  10 <= size ->
  columns df ≠ [] ->
  index_len df = 0 ->
  IngestToBronze.first_validation E (Some df) file file_path w =
  (inr true,
   logged (validation_event E w file "EMPTY_DATAFRAME"
             "DataFrame has no rows" "WARNING") w).
Proof.
  intros [Hex Hsz]%stat_size_Some Hge Hcols Hrows.
  unfold IngestToBronze.first_validation.
  rewrite Hex, Hsz. simpl. unfold bind at 1, ret at 1.
  replace (size <? 10)%nat with false by (symmetry; apply Nat.ltb_ge; lia).
  unfold df_empty, df_columns. rewrite Hrows. simpl.
  destruct (columns df) as [|c cs]; done.
Qed.

Lemma first_validation_passes (df : DataFrame) (size : nat) :
  stat_size E file_path = Some size ->
  10 <= size ->
  columns df ≠ [] ->
  index_len df ≠ 0 ->
  IngestToBronze.first_validation E (Some df) file file_path w = (inr true, w).
Proof.
  intros [Hex Hsz]%stat_size_Some Hge Hcols Hrows.
  unfold IngestToBronze.first_validation.
  rewrite Hex, Hsz. simpl. unfold bind at 1, ret at 1.
  replace (size <? 10)%nat with false by (symmetry; apply Nat.ltb_ge; lia).
  unfold df_empty, df_columns.
  destruct (index_len df) as [|n]; [done|].
  destruct (columns df) as [|c cs]; done.
Qed.

End FirstValidation.

(** C10.  With [max_retries <= 0] the loop of [load_dataset] has no
    iteration: no reader is called, nothing is logged, nothing is raised, and
    the call returns [None] in an unchanged world.  Downstream,
    [first_validation] never lets a [None] pass: it answers [False] without
    raising, and once the file exists and has at least 10 bytes it is the
    null-table check that rejects it, with one ERROR [NULL_DATAFRAME]
    event. *)
Theorem load_dataset_without_attempts_returns_None (E : Env) (path : string)
    (max_retries : Z) (w : World) :
  (max_retries <= 0)%Z ->
  IngestToBronze.load_dataset E path max_retries w = (inr None, w) ∧
  (forall file file_path w0, exists w1,
     IngestToBronze.first_validation E None file file_path w0 = (inr false, w1)) ∧
  (forall file file_path size w0,
     stat_size E file_path = Some size ->
     10 <= size ->
     IngestToBronze.first_validation E None file file_path w0 =
     (inr false,
      logged (validation_event E w0 file "NULL_DATAFRAME"
                "Extraction returned None" "ERROR") w0)).
Proof.
  intros Hle. split; [|split].
  - unfold IngestToBronze.load_dataset.
    replace (Z.to_nat max_retries) with 0 by lia. reflexivity.
  - intros file file_path w0.
    destruct (stat_size E file_path) as [size|] eqn:Hsz.
    + destruct (decide (size < 10)) as [Hlt|Hge].
      * eexists. by eapply first_validation_small.
      * eexists. eapply first_validation_none; [done|lia].
    + eexists. by apply first_validation_missing.
  - intros file file_path size w0 Hsz Hge. by eapply first_validation_none.
Qed.

Lemma load_dataset_without_attempts_returns_None_witness :
  IngestToBronze.load_dataset Demo.env Demo.q1_path (-1) initial_world
  = (inr None, initial_world).
Proof.
  apply (load_dataset_without_attempts_returns_None Demo.env
           Demo.q1_path (-1) initial_world).
  lia.
Defined.

(** ** Column assignment *)

Lemma df_setitem_index_len (df : DataFrame) (name : string) (v : Cell) :
  index_len (df_setitem df name v) = index_len df.
Proof. unfold df_setitem. by case_bool_decide. Qed.

Lemma df_setitem_elem (df : DataFrame) (name : string) (v : Cell)
    (l : Label) (cells : list Cell) :
  (l, cells) ∈ columns (df_setitem df name v) <->
  (l ≠ LStr name ∧ (l, cells) ∈ columns df) ∨
  (l = LStr name ∧ cells = repeat v (index_len df)).
Proof.
  unfold df_setitem. case_bool_decide as Hin; simpl.
  - rewrite list_elem_of_fmap. split.
    + intros ([l' c'] & Heq & Hel). simpl in Heq.
      case_bool_decide as Hl; simplify_eq; [by right|by left].
    + intros [[Hne Hel]|[-> ->]].
      * exists (l, cells). simpl. by rewrite bool_decide_eq_false_2.
      * unfold df_columns in Hin. apply list_elem_of_fmap in Hin as ([l' c'] & Heq & Hel).
        simpl in Heq. subst l'. exists (LStr name, c'). simpl.
        by rewrite bool_decide_eq_true_2.
  - rewrite elem_of_app, list_elem_of_singleton. split.
    + intros [Hel|[= -> ->]]; [left|by right].
      split; [|done]. intros ->. apply Hin. unfold df_columns.
      apply list_elem_of_fmap. by exists (LStr name, cells).
    + intros [[Hne Hel]|[-> ->]]; [by left|by right].
Qed.

Lemma df_setitem_labels (df : DataFrame) (name : string) (v : Cell) (l : Label) :
  l ∈ df_columns (df_setitem df name v) <-> l ∈ df_columns df ∨ l = LStr name.
Proof.
  unfold df_columns. rewrite !list_elem_of_fmap. split.
  - intros ([l' c'] & -> & Hel). simpl.
    apply df_setitem_elem in Hel as [[Hne Hel]|[-> _]]; [left|by right].
    by exists (l', c').
  - intros [([l' c'] & -> & Hel)| ->].
    + simpl. destruct (decide (l' = LStr name)) as [->|Hne].
      * exists (LStr name, repeat v (index_len df)). split; [done|].
        apply df_setitem_elem. by right.
      * exists (l', c'). split; [done|]. apply df_setitem_elem. by left.
    + exists (LStr name, repeat v (index_len df)). split; [done|].
      apply df_setitem_elem. by right.
Qed.

Lemma df_setitem_fresh (df : DataFrame) (name : string) (v : Cell) :
  LStr name ∉ df_columns df ->
  df_columns (df_setitem df name v) = df_columns df ++ [LStr name].
Proof.
  intros Hfresh. unfold df_setitem. rewrite bool_decide_eq_false_2 by done.
  unfold df_columns. simpl. by rewrite fmap_app.
Qed.

(** ** Steps that leave the written tables alone *)

Lemma quiet_step_refl (w : World) : quiet_step w w.
Proof. repeat split. exists []. by rewrite app_nil_r. Qed.

Lemma quiet_step_trans (w1 w2 w3 : World) :
  quiet_step w1 w2 -> quiet_step w2 w3 -> quiet_step w1 w3.
Proof.
  intros (Hw & Hc & new1 & Hl1) (Hw' & Hc' & new2 & Hl2).
  repeat split; [congruence|congruence|].
  exists (new1 ++ new2). by rewrite Hl2, Hl1, app_assoc.
Qed.

Lemma quiet_step_logged (ev : ValidationEvent) (w : World) :
  quiet_step w (logged ev w).
Proof. repeat split. by exists [ev]. Qed.

Lemma quiet_step_tick_read (w : World) : quiet_step w (tick_read w).
Proof. repeat split. exists []. simpl. by rewrite app_nil_r. Qed.

Lemma read_by_ext_quiet (E : Env) (ext path : string) (w : World) :
  quiet_step w (IngestToBronze.read_by_ext E ext path w).2.
Proof.
  unfold IngestToBronze.read_by_ext.
  repeat case_bool_decide; try apply quiet_step_tick_read;
    try apply quiet_step_refl.
  unfold bind, pd_read.
  destruct (pd_read_html E path (read_calls w)); apply quiet_step_tick_read.
Qed.

Lemma load_dataset_attempts_quiet (E : Env) (path ext : string) (N : Z)
    (attempts : list nat) :
  forall w, quiet_step w
              (IngestToBronze.load_dataset_attempts E path ext N attempts w).2.
Proof.
  induction attempts as [|attempt rest IH]; intros w; [apply quiet_step_refl|].
  cbn [IngestToBronze.load_dataset_attempts]. unfold try_except, bind at 1.
  pose proof (read_by_ext_quiet E ext path w) as Hq.
  destruct (IngestToBronze.read_by_ext E ext path w) as [[e|df] w1]; simpl in *;
    [|done].
  destruct (Z.of_nat attempt <? N - 1)%Z.
  - unfold bind. rewrite log_validation_run. cbn [sleep].
    eapply quiet_step_trans; [exact Hq|].
    eapply quiet_step_trans; [apply quiet_step_logged|].
    eapply quiet_step_trans; [|apply IH].
    repeat split. exists []. simpl. by rewrite app_nil_r.
  - unfold bind. rewrite log_validation_run. simpl.
    eapply quiet_step_trans; [exact Hq|]. apply quiet_step_logged.
Qed.

Lemma load_dataset_quiet (E : Env) (path : string) (N : Z) (w : World) :
  quiet_step w (IngestToBronze.load_dataset E path N w).2.
Proof. apply load_dataset_attempts_quiet. Qed.

(** [first_validation] always answers, and a rejection ends with an ERROR
    event of the checkpoint for that file. *)
Lemma first_validation_total (E : Env) (odf : option DataFrame)
    (fname file_path : string) (w : World) :
  exists b w',
    IngestToBronze.first_validation E odf fname file_path w = (inr b, w') ∧
    quiet_step w w' ∧
    (b = false ->
     exists earlier ev,
       validation_log w' = validation_log w ++ earlier ++ [ev] ∧
       severity ev = "ERROR" ∧ file ev = fname ∧
       stage ev = "FIRST_VALIDATION") ∧
    (b = true -> exists df, odf = Some df ∧ columns df ≠ []).
Proof.
  destruct (stat_size E file_path) as [size|] eqn:Hsz.
  - destruct (decide (size < 10)) as [Hlt|Hge].
    + eexists _, _. split; [by eapply first_validation_small|].
      split; [apply quiet_step_logged|]. split; [|done].
      intros _. by eexists [], _.
    + destruct odf as [df|].
      * destruct (decide (columns df = [])) as [Hcols|Hcols].
        -- eexists _, _. split; [eapply first_validation_no_columns; [done|lia|done]|].
           split.
           { eapply quiet_step_trans; apply quiet_step_logged. }
           split; [|done]. intros _. eexists [_], _. simpl.
           rewrite <- app_assoc. done.
        -- destruct (decide (index_len df = 0)) as [Hrows|Hrows].
           ++ eexists _, _.
              split; [eapply first_validation_no_rows; [done|lia|done|done]|].
              split; [apply quiet_step_logged|]. split; [done|]. eauto.
           ++ eexists _, _.
              split; [eapply first_validation_passes; [done|lia|done|done]|].
              split; [apply quiet_step_refl|]. split; [done|]. eauto.
      * eexists _, _. split; [eapply first_validation_none; [done|lia]|].
        split; [apply quiet_step_logged|]. split; [|done].
        intros _. by eexists [], _.
  - eexists _, _. split; [by eapply first_validation_missing|].
    split; [apply quiet_step_logged|]. split; [|done].
    intros _. by eexists [], _.
Qed.

(** ** One file of [raw_loading_zone] *)

Section ProcessFile.
Context (E : Env) (bronze_folder batch_id : string) (ingest_ts : Time).
Context (department : string) (file_info : IngestToBronze.FileInfo).
Context (c : IngestToBronze.Counters) (w : World).

Local Abbreviation file := (IngestToBronze.filename file_info).
Local Abbreviation file_path := (IngestToBronze.path file_info).

Lemma process_file_extraction_fails (e : exn) (w1 : World) :
  IngestToBronze.load_dataset E file_path 3 w = (inl e, w1) ->
  IngestToBronze.process_file E bronze_folder batch_id ingest_ts department
    file_info c w =
  (inr (counted_failure c), logged (processing_error_event E w1 file e) w1).
Proof.
  intros Hload. unfold IngestToBronze.process_file, try_except.
  erewrite bind_run_raise by exact Hload. reflexivity.
Qed.

Lemma process_file_rejected (odf : option DataFrame) (w1 w2 : World) :
  IngestToBronze.load_dataset E file_path 3 w = (inr odf, w1) ->
  IngestToBronze.first_validation E odf file file_path w1 = (inr false, w2) ->
  IngestToBronze.process_file E bronze_folder batch_id ingest_ts department
    file_info c w =
  (inr (counted_failure c), w2).
Proof.
  intros Hload Hval. unfold IngestToBronze.process_file, try_except.
  erewrite bind_run_ok by exact Hload.
  erewrite bind_run_ok by exact Hval. reflexivity.
Qed.

Lemma process_file_accepted (df : DataFrame) (w1 w2 : World) :
  IngestToBronze.load_dataset E file_path 3 w = (inr (Some df), w1) ->
  IngestToBronze.first_validation E (Some df) file file_path w1
    = (inr true, w2) ->
  let tagged := IngestToBronze.add_audit_metadata df ingest_ts batch_id
                  department file in
  let out := output_path bronze_folder department file in
  IngestToBronze.process_file E bronze_folder batch_id ingest_ts department
    file_info c w =
  match to_parquet_error E out tagged (write_calls w2) with
  | None =>
      (inr (counted_success c),
       with_written (<[out := tagged]> (written w2)) (tick_write w2))
  | Some e =>
      (inr (counted_failure c),
       logged (processing_error_event E (tick_write w2) file e) (tick_write w2))
  end.
Proof.
  intros Hload Hval tagged out.
  unfold IngestToBronze.process_file, try_except.
  erewrite bind_run_ok by exact Hload.
  erewrite bind_run_ok by exact Hval. simpl.
  unfold bind, to_parquet. fold tagged.
  fold (output_path bronze_folder department file). fold out. by destruct (to_parquet_error E out tagged (write_calls w2)).
Qed.

End ProcessFile.

(** ** The audit columns *)

Lemma audit_metadata_index_len (df : DataFrame) (ts : Time)
    (batch_id department fname : string) :
  df_len (IngestToBronze.add_audit_metadata df ts batch_id department fname)
  = df_len df.
Proof.
  unfold IngestToBronze.add_audit_metadata, df_len.
  by rewrite !df_setitem_index_len.
Qed.

Lemma audit_metadata_labels (df : DataFrame) (ts : Time)
    (batch_id department fname : string) (l : Label) :
  l ∈ df_columns (IngestToBronze.add_audit_metadata df ts batch_id department
                    fname)
  <-> l ∈ df_columns df ∨ l ∈ audit_columns.
Proof.
  unfold IngestToBronze.add_audit_metadata, audit_columns.
  rewrite !df_setitem_labels, !elem_of_cons, elem_of_nil. tauto.
Qed.

Lemma audit_metadata_fresh (df : DataFrame) (ts : Time)
    (batch_id department fname : string) :
  (forall l, l ∈ audit_columns -> l ∉ df_columns df) ->
  df_columns (IngestToBronze.add_audit_metadata df ts batch_id department fname)
  = df_columns df ++ audit_columns.
Proof.
  intros Hfresh. unfold IngestToBronze.add_audit_metadata.
  assert (forall l, l ∈ audit_columns -> l ∉ df_columns df) as H by done.
  unfold audit_columns in H.
  rewrite !df_setitem_fresh.
  - unfold audit_columns. by rewrite <- !app_assoc.
  - apply H. repeat constructor.
  - rewrite df_setitem_labels. intros [Hin|[=]]. revert Hin. apply H.
    repeat constructor.
  - rewrite !df_setitem_labels. intros [[Hin|[=]]|[=]]. revert Hin. apply H.
    repeat constructor.
  - rewrite !df_setitem_labels. intros [[[Hin|[=]]|[=]]|[=]]. revert Hin.
    apply H. repeat constructor.
Qed.

Lemma audit_metadata_columns (df : DataFrame) (ts : Time)
    (batch_id department fname : string) (l : Label) (cells : list Cell) :
  (l, cells) ∈ columns (IngestToBronze.add_audit_metadata df ts batch_id
                          department fname)
  <->
  ((l ∉ audit_columns) ∧ (l, cells) ∈ columns df) ∨
  (l, cells) ∈ [(LStr "ingest_ts", repeat (CTime ts) (df_len df));
                (LStr "batch_id", repeat (CStr batch_id) (df_len df));
                (LStr "source_department", repeat (CStr department) (df_len df));
                (LStr "source_filename", repeat (CStr fname) (df_len df))].
Proof.
  unfold IngestToBronze.add_audit_metadata, audit_columns, df_len.
  rewrite !df_setitem_elem, !df_setitem_index_len, !elem_of_cons, !elem_of_nil.
  split.
  - intros [[Hn4 [[Hn3 [[Hn2 [[Hn1 Hel]|[-> ->]]]|[-> ->]]]|[-> ->]]]|[-> ->]];
      [left|right..]; [|tauto..].
    split; [|done]. intros Hl. tauto.
  - intros [[Hn Hel]|[Heq|[Heq|[Heq|[Heq|[]]]]]].
    + left. split; [tauto|]. left. split; [tauto|]. left. split; [tauto|].
      left. split; [tauto|done].
    + injection Heq as -> ->. left. split; [done|]. left. split; [done|].
      left. split; [done|]. by right.
    + injection Heq as -> ->. left. split; [done|]. left. split; [done|].
      by right.
    + injection Heq as -> ->. left. split; [done|]. by right.
    + injection Heq as -> ->. by right.
Qed.

(** C1.  When [load_dataset] returned a table, [first_validation] accepted it
    and [to_parquet] did not fail, the table persisted by [raw_loading_zone] at
    the output path has the row count of the extracted table; its column
    labels are those of the source together with the four audit labels
    [ingest_ts], [batch_id], [source_department], [source_filename] (appended
    in that order when the source has none of them); the source columns are
    kept as they were, and each audit column repeats on every row one value
    handed to [raw_loading_zone] for the run ([ingest_ts], [batch_id]) or
    taken from the source descriptor (department, file name). *)
Theorem persisted_table_keeps_rows_and_gets_audit_columns (E : Env)
    (bronze_folder batch_id : string) (ingest_ts : Time) (department : string)
    (file_info : IngestToBronze.FileInfo) (c : IngestToBronze.Counters)
    (w w1 w2 : World) (df : DataFrame) :
  let fname := IngestToBronze.filename file_info in
  let file_path := IngestToBronze.path file_info in
  let tagged :=
    IngestToBronze.add_audit_metadata df ingest_ts batch_id department fname in
  let out := output_path bronze_folder department fname in
  IngestToBronze.load_dataset E file_path 3 w = (inr (Some df), w1) ->
  IngestToBronze.first_validation E (Some df) fname file_path w1
    = (inr true, w2) ->
  to_parquet_error E out tagged (write_calls w2) = None ->
  let r := IngestToBronze.process_file E bronze_folder batch_id ingest_ts
             department file_info c w in
  r.1 = inr (counted_success c) ∧
  written r.2 !! out = Some tagged ∧
  df_len tagged = df_len df ∧
  (forall l, l ∈ df_columns tagged <-> l ∈ df_columns df ∨ l ∈ audit_columns) ∧
  ((forall l, l ∈ audit_columns -> l ∉ df_columns df) ->
   df_columns tagged = df_columns df ++ audit_columns) ∧
  (forall l cells,
     (l, cells) ∈ columns tagged <->
     ((l ∉ audit_columns) ∧ (l, cells) ∈ columns df) ∨
     (l, cells) ∈
       [(LStr "ingest_ts", repeat (CTime ingest_ts) (df_len df));
        (LStr "batch_id", repeat (CStr batch_id) (df_len df));
        (LStr "source_department", repeat (CStr department) (df_len df));
        (LStr "source_filename", repeat (CStr fname) (df_len df))]).
Proof.
  intros fname file_path tagged out Hload Hval Hwrite r.
  assert (r = (inr (counted_success c),
               with_written (<[out := tagged]> (written w2)) (tick_write w2)))
    as ->.
  { subst r. erewrite process_file_accepted by done.
    fold fname tagged out. by rewrite Hwrite. }
  split; [done|]. split; [apply lookup_insert_eq|].
  split; [apply audit_metadata_index_len|].
  split; [apply audit_metadata_labels|].
  split; [apply audit_metadata_fresh|].
  apply audit_metadata_columns.
Qed.

Lemma persisted_table_keeps_rows_and_gets_audit_columns_witness :
  let r := IngestToBronze.process_file Demo.env "/app/data_zone" "batch-0"
             1000 "Sales"
             (IngestToBronze.mkFileInfo "Q1 Report.csv" Demo.q1_path "csv" 64)
             (IngestToBronze.mkCounters 0 0) initial_world in
  written r.2 !! "/app/data_zone/sales_q1_report.parquet" =
  Some (mkDataFrame 2
          [(LStr "id", [CNum 1; CNum 2]);
           (LStr "region", [CStr "north"; CStr "south"]);
           (LStr "ingest_ts", [CTime 1000; CTime 1000]);
           (LStr "batch_id", [CStr "batch-0"; CStr "batch-0"]);
           (LStr "source_department", [CStr "Sales"; CStr "Sales"]);
           (LStr "source_filename", [CStr "Q1 Report.csv"; CStr "Q1 Report.csv"])]).
Proof.
  pose proof (persisted_table_keeps_rows_and_gets_audit_columns Demo.env
                "/app/data_zone" "batch-0" 1000 "Sales"
                (IngestToBronze.mkFileInfo "Q1 Report.csv" Demo.q1_path
                   "csv" 64)
                (IngestToBronze.mkCounters 0 0) initial_world
                (tick_read initial_world) (tick_read initial_world)
                Demo.q1_report) as H.
  destruct H as (_ & Hw & _); [by vm_compute..|].
  exact Hw.
Defined.

(** ** Column-less and row-less tables *)

(** C4, as the code has it.  A table without columns never reaches the
    writer: whatever the state of its source file, [first_validation] rejects
    it, the file is counted as failed, [to_parquet] is not called and no
    written table changes.  The rejection is the NO_COLUMNS one only when the
    source file exists and has at least 10 bytes: then the checkpoint logs one
    WARNING [EMPTY_DATAFRAME] event (a frame without columns is empty)
    followed by exactly one ERROR event, [NO_COLUMNS]. *)
Theorem column_less_table_is_rejected (E : Env)
    (bronze_folder batch_id : string) (ingest_ts : Time) (department : string)
    (file_info : IngestToBronze.FileInfo) (c : IngestToBronze.Counters)
    (w w1 : World) (df : DataFrame) :
  let fname := IngestToBronze.filename file_info in
  let file_path := IngestToBronze.path file_info in
  IngestToBronze.load_dataset E file_path 3 w = (inr (Some df), w1) ->
  columns df = [] ->
  let r := IngestToBronze.process_file E bronze_folder batch_id ingest_ts
             department file_info c w in
  r.1 = inr (counted_failure c) ∧
  written r.2 = written w ∧
  write_calls r.2 = write_calls w ∧
  (forall size,
     stat_size E file_path = Some size ->
     10 <= size ->
     let warning := validation_event E w1 fname "EMPTY_DATAFRAME"
                      "DataFrame has no rows" "WARNING" in
     let no_columns := validation_event E (logged warning w1) fname "NO_COLUMNS"
                         "DataFrame has no columns" "ERROR" in
     validation_log r.2 = validation_log w1 ++ [warning; no_columns] ∧
     count_events "NO_COLUMNS" "ERROR" [warning; no_columns] = 1 ∧
     count_severity "ERROR" [warning; no_columns] = 1).
Proof.
  intros fname file_path Hload Hcols r.
  pose proof (load_dataset_quiet E file_path 3 w) as Hq1.
  rewrite Hload in Hq1. simpl in Hq1.
  destruct (first_validation_total E (Some df) fname file_path w1)
    as (b & w2 & Hval & Hq2 & _ & Htrue).
  destruct b.
  { destruct Htrue as (df' & [= <-] & Hne); done. }
  assert (r = (inr (counted_failure c), w2)) as Hr
    by (subst r; by eapply process_file_rejected).
  destruct (quiet_step_trans _ _ _ Hq1 Hq2) as (Hw & Hc & _).
  rewrite Hr. simpl. repeat split; try done.
  all: erewrite first_validation_no_columns in Hval by done.
  all: injection Hval as <-; simpl; by rewrite <- app_assoc.
Qed.

Lemma column_less_table_is_rejected_witness :
  let r := IngestToBronze.process_file Demo.env "/app/data_zone" "batch-0"
             1000 "Ops"
             (IngestToBronze.mkFileInfo "blank.json" Demo.blank_json_path
                "json" 12)
             (IngestToBronze.mkCounters 0 0) initial_world in
  r.1 = inr (IngestToBronze.mkCounters 0 1) ∧
  written r.2 = ∅ ∧
  map issue_type (validation_log r.2) = ["EMPTY_DATAFRAME"; "NO_COLUMNS"].
Proof.
  pose proof (column_less_table_is_rejected Demo.env "/app/data_zone"
                "batch-0" 1000 "Ops"
                (IngestToBronze.mkFileInfo "blank.json" Demo.blank_json_path
                   "json" 12)
                (IngestToBronze.mkCounters 0 0) initial_world
                (tick_read initial_world) empty_DataFrame) as H.
  destruct H as (H1 & H2 & _ & H3); [by vm_compute..|].
  destruct (H3 12) as (H4 & _); [by vm_compute|lia|].
  split; [exact H1|]. split; [exact H2|].
  exact (eq_trans (f_equal (map issue_type) H4) eq_refl).
Defined.

(** C4, as the claim states it, fails on an empty JSON object: the two-byte
    file [empty.json] extracts to a table without columns, which is rejected
    by the size check with [EMPTY_FILE]; no [NO_COLUMNS] event is logged. *)
Lemma column_less_table_no_columns_event_counterexample :
  let fi := IngestToBronze.mkFileInfo "empty.json" Demo.empty_json_path
              "json" 2 in
  let loaded := IngestToBronze.load_dataset Demo.env Demo.empty_json_path
                  3 initial_world in
  let r := IngestToBronze.process_file Demo.env "/app/data_zone" "batch-0"
             1000 "Ops" fi (IngestToBronze.mkCounters 0 0) initial_world in
  loaded.1 = inr (Some empty_DataFrame) ∧
  columns empty_DataFrame = [] ∧
  r.1 = inr (IngestToBronze.mkCounters 0 1) ∧
  map issue_type (validation_log r.2) = ["EMPTY_FILE"] ∧
  count_events "NO_COLUMNS" "ERROR" (validation_log r.2) = 0.
Proof. by vm_compute. Qed.

(** C5, as the code has it.  A table with no rows and at least one column,
    whose source file exists and has at least 10 bytes, passes
    [first_validation] with exactly one event, a WARNING whose issue type is
    [EMPTY_DATAFRAME], and goes on to the writer: [to_parquet] is called with
    the audit-tagged table, which is persisted and counted as a success
    unless [to_parquet] itself raises. *)
Theorem row_less_table_passes_with_one_warning (E : Env)
    (bronze_folder batch_id : string) (ingest_ts : Time) (department : string)
    (file_info : IngestToBronze.FileInfo) (c : IngestToBronze.Counters)
    (w w1 : World) (df : DataFrame) (size : nat) :
  let fname := IngestToBronze.filename file_info in
  let file_path := IngestToBronze.path file_info in
  let tagged :=
    IngestToBronze.add_audit_metadata df ingest_ts batch_id department fname in
  let out := output_path bronze_folder department fname in
  IngestToBronze.load_dataset E file_path 3 w = (inr (Some df), w1) ->
  index_len df = 0 ->
  columns df ≠ [] ->
  stat_size E file_path = Some size ->
  10 <= size ->
  let warning := validation_event E w1 fname "EMPTY_DATAFRAME"
                   "DataFrame has no rows" "WARNING" in
  let w2 := logged warning w1 in
  IngestToBronze.first_validation E (Some df) fname file_path w1
    = (inr true, w2) ∧
  validation_log w2 = validation_log w1 ++ [warning] ∧
  issue_type warning = "EMPTY_DATAFRAME" ∧ severity warning = "WARNING" ∧
  IngestToBronze.process_file E bronze_folder batch_id ingest_ts department
    file_info c w =
  match to_parquet_error E out tagged (write_calls w2) with
  | None =>
      (inr (counted_success c),
       with_written (<[out := tagged]> (written w2)) (tick_write w2))
  | Some e =>
      (inr (counted_failure c),
       logged (processing_error_event E (tick_write w2) fname e) (tick_write w2))
  end.
Proof.
  intros fname file_path tagged out Hload Hrows Hcols Hsz Hge warning w2.
  assert (IngestToBronze.first_validation E (Some df) fname file_path w1
          = (inr true, w2)) as Hval
    by (by eapply first_validation_no_rows).
  repeat split; try done.
  by eapply process_file_accepted.
Qed.

Lemma row_less_table_passes_with_one_warning_witness :
  let r := IngestToBronze.process_file Demo.env "/app/data_zone" "batch-0"
             1000 "Ops"
             (IngestToBronze.mkFileInfo "norows.csv" Demo.norows_path
                "csv" 11)
             (IngestToBronze.mkCounters 0 0) initial_world in
  r.1 = inr (IngestToBronze.mkCounters 1 0) ∧
  map issue_type (validation_log r.2) = ["EMPTY_DATAFRAME"] ∧
  is_Some (written r.2 !! "/app/data_zone/ops_norows.parquet").
Proof.
  pose proof (row_less_table_passes_with_one_warning Demo.env
                "/app/data_zone" "batch-0" 1000 "Ops"
                (IngestToBronze.mkFileInfo "norows.csv" Demo.norows_path
                   "csv" 11)
                (IngestToBronze.mkCounters 0 0) initial_world
                (tick_read initial_world) Demo.no_rows 11) as H.
  destruct H as (_ & _ & _ & _ & H); [by vm_compute|done|done|by vm_compute|lia|].
  intros r. assert (r = _) as Hr by exact H. clearbody r. subst r.
  vm_compute. repeat split; eauto.
Defined.

(** C5, as the claim states it, fails on the issue type: the one warning that
    is logged for a table without rows is [EMPTY_DATAFRAME]; no event of
    issue type [EMPTY_TABLE] exists. *)
Lemma row_less_table_empty_table_event_counterexample :
  let r := IngestToBronze.first_validation Demo.env (Some Demo.no_rows)
             "norows.csv" Demo.norows_path initial_world in
  index_len Demo.no_rows = 0 ∧
  length (columns Demo.no_rows) = 2 ∧
  stat_size Demo.env Demo.norows_path = Some 11 ∧
  r.1 = inr true ∧
  map issue_type (validation_log r.2) = ["EMPTY_DATAFRAME"] ∧
  count_events "EMPTY_TABLE" "WARNING" (validation_log r.2) = 0.
Proof. by vm_compute. Qed.

(** ** Failures stay with their file *)

Lemma count_severity_app (sev : string) (l1 l2 : list ValidationEvent) :
  count_severity sev (l1 ++ l2) = count_severity sev l1 + count_severity sev l2.
Proof. unfold count_severity. by rewrite filter_app, length_app. Qed.

Lemma count_severity_last (sev : string) (l : list ValidationEvent)
    (ev : ValidationEvent) :
  severity ev = sev -> 1 <= count_severity sev (l ++ [ev]).
Proof.
  intros Hsev. rewrite count_severity_app. unfold count_severity at 2.
  rewrite filter_cons_True by done. simpl. lia.
Qed.

(** What one pass through the body of the file loop does: it never raises;
    either the file is a success, or it is a failure whose last logged event
    is an ERROR for that file -- PROCESSING_ERROR when an exception was
    caught, the checkpoint's own event when the checkpoint rejected. *)
Lemma process_file_total (E : Env) (bronze_folder batch_id : string)
    (ingest_ts : Time) (department : string)
    (file_info : IngestToBronze.FileInfo) (c : IngestToBronze.Counters)
    (w : World) :
  exists c' w' new,
    IngestToBronze.process_file E bronze_folder batch_id ingest_ts department
      file_info c w = (inr c', w') ∧
    validation_log w' = validation_log w ++ new ∧
    ((c' = counted_success c ∧
      is_Some (written w' !! output_path bronze_folder department
                               (IngestToBronze.filename file_info)))
     ∨
     (c' = counted_failure c ∧ written w' = written w ∧
      exists earlier ev,
        new = earlier ++ [ev] ∧ severity ev = "ERROR" ∧
        file ev = IngestToBronze.filename file_info ∧
        (issue_type ev = "PROCESSING_ERROR" ∨ stage ev = "FIRST_VALIDATION"))).
Proof.
  set (fname := IngestToBronze.filename file_info).
  set (file_path := IngestToBronze.path file_info).
  pose proof (load_dataset_quiet E file_path 3 w) as Hq1.
  destruct (IngestToBronze.load_dataset E file_path 3 w) as [[e|odf] w1] eqn:Hload;
    simpl in Hq1.
  - destruct Hq1 as (Hw & _ & new1 & Hl1).
    eexists _, _, (new1 ++ [processing_error_event E w1 fname e]).
    split; [by eapply process_file_extraction_fails|].
    split; [simpl; by rewrite Hl1, app_assoc|].
    right. split; [done|]. split; [done|]. eexists _, _. split; [done|].
    repeat split. by left.
  - destruct (first_validation_total E odf fname file_path w1)
      as (b & w2 & Hval & Hq2 & Hfalse & Htrue).
    destruct (quiet_step_trans _ _ _ Hq1 Hq2) as (Hw & _ & new & Hl).
    destruct b.
    + destruct (Htrue eq_refl) as (df & -> & _).
      pose proof (process_file_accepted E bronze_folder batch_id ingest_ts
                    department file_info c w df w1 w2 Hload Hval) as Hrun.
      simpl in Hrun. fold fname in Hrun.
      destruct (to_parquet_error E _ _ (write_calls w2)) as [e|].
      * eexists _, _, (new ++ [processing_error_event E (tick_write w2) fname e]).
        split; [exact Hrun|].
        split; [simpl; by rewrite Hl, app_assoc|].
        right. split; [done|]. split; [done|]. eexists _, _. split; [done|].
        repeat split. by left.
      * eexists _, _, new. split; [exact Hrun|]. split; [done|].
        left. split; [done|]. simpl. rewrite lookup_insert_eq. eauto.
    + destruct (Hfalse eq_refl) as (earlier & ev & Hl2 & Hsev & Hfile & Hstage).
      destruct Hq1 as (_ & _ & new1 & Hl1).
      eexists _, _, (new1 ++ earlier ++ [ev]).
      split; [by eapply process_file_rejected|].
      split; [by rewrite Hl2, Hl1, <- !app_assoc|].
      right. split; [done|]. split; [done|].
      exists (new1 ++ earlier), ev. rewrite <- app_assoc.
      repeat split; try done. by right.
Qed.

Lemma process_files_total (E : Env) (bronze_folder batch_id : string)
    (ingest_ts : Time) (department : string)
    (files : list IngestToBronze.FileInfo) :
  forall (c : IngestToBronze.Counters) (w : World),
  exists c' w' new,
    for_each files
      (IngestToBronze.process_file E bronze_folder batch_id ingest_ts department)
      c w = (inr c', w') ∧
    IngestToBronze.successful c' + IngestToBronze.failed c'
      = IngestToBronze.successful c + IngestToBronze.failed c + length files ∧
    validation_log w' = validation_log w ++ new ∧
    IngestToBronze.failed c' <= IngestToBronze.failed c + count_severity "ERROR" new.
Proof.
  induction files as [|fi rest IH]; intros c w.
  - exists c, w, []. rewrite app_nil_r. simpl. repeat split; try done; lia.
  - destruct (process_file_total E bronze_folder batch_id ingest_ts department
                fi c w) as (c1 & w1 & new1 & Hrun & Hl1 & Hcase).
    destruct (IH c1 w1) as (c2 & w2 & new2 & Hrest & Hsum & Hl2 & Hfail).
    exists c2, w2, (new1 ++ new2).
    split; [cbn [for_each]; by erewrite bind_run_ok|].
    split.
    { destruct Hcase as [[-> _]|[-> _]]; simpl in *; lia. }
    split; [by rewrite Hl2, Hl1, app_assoc|].
    rewrite count_severity_app.
    destruct Hcase as [[-> _]|(-> & _ & earlier & ev & -> & Hsev & _)];
      simpl in *; [lia|].
    pose proof (count_severity_last "ERROR" earlier ev Hsev). lia.
Qed.

Lemma raw_loading_zone_loop_total (E : Env) (bronze_folder batch_id : string)
    (ingest_ts : Time) (sources : dict (list IngestToBronze.FileInfo)) :
  forall (c : IngestToBronze.Counters) (w : World),
  exists c' w' new,
    for_each sources
      (IngestToBronze.process_department E bronze_folder batch_id ingest_ts)
      c w = (inr c', w') ∧
    IngestToBronze.successful c' + IngestToBronze.failed c'
      = IngestToBronze.successful c + IngestToBronze.failed c
        + batch_size sources ∧
    validation_log w' = validation_log w ++ new ∧
    IngestToBronze.failed c' <= IngestToBronze.failed c + count_severity "ERROR" new.
Proof.
  induction sources as [|[department files] rest IH]; intros c w.
  - exists c, w, []. rewrite app_nil_r. unfold batch_size. simpl.
    repeat split; try done; lia.
  - destruct (process_files_total E bronze_folder batch_id ingest_ts department
                files c w) as (c1 & w1 & new1 & Hrun & Hsum1 & Hl1 & Hf1).
    destruct (IH c1 w1) as (c2 & w2 & new2 & Hrest & Hsum2 & Hl2 & Hf2).
    exists c2, w2, (new1 ++ new2).
    split.
    { cbn [for_each]. unfold IngestToBronze.process_department at 1. simpl.
      by erewrite bind_run_ok. }
    split; [unfold batch_size in *; simpl; lia|].
    split; [by rewrite Hl2, Hl1, app_assoc|].
    rewrite count_severity_app. lia.
Qed.

(** C3.  In [raw_loading_zone] of [ingest_to_bronze] a failure never leaves
    the body of the file loop.  (1) For every file, [process_file] returns:
    the file is a success, or [failed] is incremented, no written table
    changes, and the last event logged is an ERROR event for that file, which
    is PROCESSING_ERROR whenever an exception was caught (extraction that
    exhausted its attempts, persistence, or anything else) and the
    checkpoint's own ERROR event when the checkpoint rejected the table.
    (2) Whatever happened to a file, the loop goes on with the files after
    it, from the counters and the world that file left.  (3) The run over a
    whole batch returns: every file of every department is counted exactly
    once, as a success or as a failure, and at least one ERROR event is logged
    per failure. *)
Theorem file_failures_are_isolated (E : Env) (bronze_folder batch_id : string)
    (ingest_ts : Time) :
  (forall department file_info c w,
     exists c' w' new,
       IngestToBronze.process_file E bronze_folder batch_id ingest_ts department
         file_info c w = (inr c', w') ∧
       validation_log w' = validation_log w ++ new ∧
       ((c' = counted_success c ∧
         is_Some (written w' !! output_path bronze_folder department
                                  (IngestToBronze.filename file_info)))
        ∨
        (c' = counted_failure c ∧ written w' = written w ∧
         exists earlier ev,
           new = earlier ++ [ev] ∧ severity ev = "ERROR" ∧
           file ev = IngestToBronze.filename file_info ∧
           (issue_type ev = "PROCESSING_ERROR" ∨ stage ev = "FIRST_VALIDATION"))))
  ∧
  (forall department file_info rest c w,
     exists c' w',
       IngestToBronze.process_file E bronze_folder batch_id ingest_ts department
         file_info c w = (inr c', w') ∧
       for_each (file_info :: rest)
         (IngestToBronze.process_file E bronze_folder batch_id ingest_ts
            department) c w
       = for_each rest
           (IngestToBronze.process_file E bronze_folder batch_id ingest_ts
              department) c' w')
  ∧
  (forall sources w,
     exists c w' new,
       IngestToBronze.raw_loading_zone E sources bronze_folder batch_id
         ingest_ts w = (inr c, w') ∧
       IngestToBronze.successful c + IngestToBronze.failed c
         = batch_size sources ∧
       validation_log w' = validation_log w ++ new ∧
       IngestToBronze.failed c <= count_severity "ERROR" new).
Proof.
  split; [|split].
  - intros. apply process_file_total.
  - intros department file_info rest c w.
    destruct (process_file_total E bronze_folder batch_id ingest_ts department
                file_info c w) as (c1 & w1 & new1 & Hrun & _).
    exists c1, w1. split; [done|]. cbn [for_each]. by erewrite bind_run_ok.
  - intros sources w.
    destruct (raw_loading_zone_loop_total E bronze_folder batch_id ingest_ts
                sources (IngestToBronze.mkCounters 0 0) w)
      as (c & w' & new & Hrun & Hsum & Hl & Hf).
    exists c, w', new. simpl in *. repeat split; try done; lia.
Qed.

(** ** The delimiter of delimited-text sources *)

Lemma split_without_separator (sep : ascii) (s : string) :
  none_in_class (Ascii.eqb sep) s = true -> PyStr.split sep s = [s].
Proof.
  induction s as [|c s IH]; [done|]. simpl.
  intros [Hc Hs]%andb_true_iff. rewrite (Ascii.eqb_sym c sep).
  apply negb_true_iff in Hc. rewrite Hc. by rewrite (IH Hs).
Qed.

(** [ingest_to_bronze] hands every csv file to the reader with the comma. *)
Lemma ingest_csv_always_comma (E : Env) (path : string) (w : World) :
  IngestToBronze.read_by_ext E "csv" path w =
  (pd_read_csv E "," path (read_calls w), tick_read w).
Proof. reflexivity. Qed.

(** C6.  For a source whose format tag is [csv], [load_dataset] of
    [modded_bronzeval] calls the delimited-text reader once, with a delimiter
    chosen per file: the tab when the lower-cased file name contains
    ["campaign"], the comma for every other file; nothing else is done and the
    reader's answer is the result.  Hence, with a reader that takes its column
    labels from splitting the header line on the delimiter it is given, a
    campaign file yields the columns of the tab-split header, where a header
    without commas split on the comma would give a single column. *)
Theorem csv_delimiter_override (E : Env) (path : string) (w : World) :
  format_tag path = "csv" ->
  let file_name := PyStr.lower (OsPath.basename path) in
  let sep := chosen_delimiter file_name in
  (PyStr.contains "campaign" file_name = true -> sep = ModdedBronzeval.TAB) ∧
  (PyStr.contains "campaign" file_name = false -> sep = ","%char) ∧
  ModdedBronzeval.load_dataset E path w =
    (pd_read_csv E sep path (read_calls w), tick_read w) ∧
  (forall header,
     (forall sep' k, exists df,
        pd_read_csv E sep' path k = inr df ∧
        df_columns df = map LStr (PyStr.split sep' header)) ->
     PyStr.contains "campaign" file_name = true ->
     exists df,
       (ModdedBronzeval.load_dataset E path w).1 = inr df ∧
       df_columns df = map LStr (PyStr.split ModdedBronzeval.TAB header) ∧
       (none_in_class (Ascii.eqb ",") header = true ->
        map LStr (PyStr.split "," header) = [LStr header])).
Proof.
  intros Hfmt file_name sep.
  assert (ModdedBronzeval.load_dataset E path w =
          (pd_read_csv E sep path (read_calls w), tick_read w)) as Hrun.
  { unfold ModdedBronzeval.load_dataset, try_except.
    fold (format_tag path). fold file_name. rewrite Hfmt. simpl.
    subst sep. unfold chosen_delimiter.
    destruct (PyStr.contains "campaign" file_name); unfold pd_read;
      by destruct (pd_read_csv E _ path (read_calls w)). }
  split; [|split; [|split]]; try done.
  - intros H. subst sep. unfold chosen_delimiter. by rewrite H.
  - intros H. subst sep. unfold chosen_delimiter. by rewrite H.
  - intros header Hreader Hcamp.
    destruct (Hreader sep (read_calls w)) as (df & Hread & Hcols).
    exists df. rewrite Hrun, Hread. split; [done|].
    assert (sep = ModdedBronzeval.TAB) as Hsep
      by (subst sep; unfold chosen_delimiter; by rewrite Hcamp).
    rewrite <- Hsep. split; [done|].
    intros Hnone. by rewrite split_without_separator.
Qed.

Lemma header_only_columns (sep : ascii) (header : string) :
  df_columns (Demo.header_only sep header) = map LStr (PyStr.split sep header).
Proof.
  unfold Demo.header_only, df_columns. cbn [columns].
  induction (PyStr.split sep header) as [|h t IH]; [reflexivity|].
  cbn [map fmap list_fmap fst]. f_equal. exact IH.
Defined.

Lemma csv_delimiter_override_witness :
  exists df,
    (ModdedBronzeval.load_dataset Demo.env Demo.campaign_path
       initial_world).1 = inr df ∧
    df_columns df = [LStr "id"; LStr "name"; LStr "budget"].
Proof.
  pose proof (csv_delimiter_override Demo.env Demo.campaign_path
                initial_world) as H.
  destruct H as (_ & _ & _ & H); [by vm_compute|].
  destruct (H Demo.campaign_header) as (df & H1 & H2 & _).
  - intros sep' k. exists (Demo.header_only sep' Demo.campaign_header).
    split; [reflexivity|]. apply header_only_columns.
  - by vm_compute.
  - exists df. split; [exact H1|]. exact H2.
Defined.

(** ** Discovery under a missing root *)

(** [identify_sources] of [ingest_to_bronze] has no existence test: the
    [os.listdir] of a missing root raises to the caller. *)
Lemma identify_sources_missing_root_raises (E : Env) (raw_folder : string)
    (w : World) :
  fs E !! raw_folder = None ->
  IngestToBronze.identify_sources E raw_folder w =
  (inl (Exn "FileNotFoundError"
          ("No such file or directory: " +:+ raw_folder)), w).
Proof.
  intros H. unfold IngestToBronze.identify_sources, bind, os_listdir.
  by rewrite H.
Qed.

(** C9, as the code has it.  For a root path that does not exist,
    [discover_sources] of [modded_bronzeval] returns the empty mapping without
    raising, and it records nothing: the world, and so the validation log, is
    the one it was called in. *)
Theorem discover_sources_missing_root (E : Env) (raw_folder : string)
    (w : World) :
  fs E !! raw_folder = None ->
  ModdedBronzeval.discover_sources E raw_folder w = (inr [], w) ∧
  validation_log (ModdedBronzeval.discover_sources E raw_folder w).2
    = validation_log w.
Proof.
  intros H.
  assert (ModdedBronzeval.discover_sources E raw_folder w = (inr [], w)) as Hrun.
  { unfold ModdedBronzeval.discover_sources, os_path_exists.
    rewrite bool_decide_eq_false_2; [done|]. rewrite H. by intros [? ?]. }
  by rewrite Hrun.
Qed.

Lemma discover_sources_missing_root_witness :
  ModdedBronzeval.discover_sources Demo.env "/no/such/root" initial_world
  = (inr [], initial_world).
Proof.
  apply (discover_sources_missing_root Demo.env "/no/such/root"
           initial_world).
  by vm_compute.
Defined.

(** C9, as the claim states it, fails: discovery under a missing root leaves
    the validation log empty, so no event of issue type SOURCE_ROOT_NOT_FOUND
    (nor any other) is recorded. *)
Lemma discover_sources_missing_root_event_counterexample :
  let r := ModdedBronzeval.discover_sources Demo.env "/no/such/root"
             initial_world in
  fs Demo.env !! "/no/such/root" = None ∧
  r.1 = inr [] ∧
  validation_log r.2 = [] ∧
  count_issue "SOURCE_ROOT_NOT_FOUND" (validation_log r.2) = 0.
Proof. by vm_compute. Qed.

(** ** The loading loop of [modded_bronzeval] *)

Section ModdedLoadFile.
Context (E : Env) (bronze_folder department : string).
Context (meta : ModdedBronzeval.FileMeta) (w : World).

Local Abbreviation fname := (ModdedBronzeval.filename meta).
Local Abbreviation file_path := (ModdedBronzeval.path meta).

(** A failure of the extraction is caught, and logged with issue type
    FAILED; the script keeps no failure counter. *)
Lemma modded_load_file_extraction_fails (e : exn) (w1 : World) :
  ModdedBronzeval.load_dataset E file_path w = (inl e, w1) ->
  ModdedBronzeval.load_file E bronze_folder department meta tt w =
  (inr tt, logged (bronze_load_failed_event E w1 fname e) w1).
Proof.
  intros Hload. unfold ModdedBronzeval.load_file, try_except.
  erewrite bind_run_raise by exact Hload. reflexivity.
Qed.

(** An extracted table is tagged with two columns, [_loaded_ts] (the clock
    read for this file) and [_src_dept], and written without any
    validation. *)
Lemma modded_load_file_tags_two_columns (df : DataFrame) (w1 : World) :
  ModdedBronzeval.load_dataset E file_path w = (inr df, w1) ->
  let t := datetime_now E (clock_calls w1) in
  let tagged := df_setitem (df_setitem df "_loaded_ts" (CIso t)) "_src_dept"
                  (CStr department) in
  let out := OsPath.join bronze_folder
               (ModdedBronzeval.bronze_name fname department) in
  let w2 := tick_write (tick_clock w1) in
  ModdedBronzeval.load_file E bronze_folder department meta tt w =
  match to_parquet_error E out tagged (write_calls w1) with
  | None => (inr tt, with_written (<[out := tagged]> (written w1)) w2)
  | Some e => (inr tt, logged (bronze_load_failed_event E w2 fname e) w2)
  end ∧
  (forall l, l ∈ df_columns tagged <->
             l ∈ df_columns df ∨ l ∈ [LStr "_loaded_ts"; LStr "_src_dept"]).
Proof.
  intros Hload t tagged out w2. split.
  - unfold ModdedBronzeval.load_file, try_except.
    erewrite bind_run_ok by exact Hload.
    unfold bind, now, to_parquet. simpl.
    fold t tagged out.
    by destruct (to_parquet_error E out tagged (write_calls w1)).
  - intros l. subst tagged.
    rewrite !df_setitem_labels, !elem_of_cons, elem_of_nil. tauto.
Qed.

End ModdedLoadFile.

(** ** Output names *)

Lemma lower_char_keeps_class (c : ascii) :
  PyStr.cls_space_hyphen_dot (PyStr.lower_char c) = PyStr.cls_space_hyphen_dot c.
Proof. destruct c as [[] [] [] [] [] [] [] []]; reflexivity. Qed.

(** Lower-casing and collapsing commute, so the order in which the two
    scripts apply them does not matter. *)
Lemma lower_re_sub_runs (in_run : bool) (s : string) :
  PyStr.lower (PyStr.re_sub_runs PyStr.cls_space_hyphen_dot "_" in_run s) =
  PyStr.re_sub_runs PyStr.cls_space_hyphen_dot "_" in_run (PyStr.lower s).
Proof.
  revert in_run. induction s as [|c s IH]; intros in_run; [done|].
  cbn [PyStr.re_sub_runs PyStr.lower]. rewrite lower_char_keeps_class.
  destruct (PyStr.cls_space_hyphen_dot c).
  - destruct in_run; [apply IH|]. simpl. f_equal. apply IH.
  - cbn [PyStr.lower]. f_equal. apply IH.
Qed.

Lemma re_sub_without_class (cls : ascii -> bool) (repl s : string) :
  none_in_class cls s = true -> PyStr.re_sub cls repl s = s.
Proof.
  unfold PyStr.re_sub. induction s as [|c s IH]; [done|]. simpl.
  intros [Hc Hs]%andb_true_iff. apply negb_true_iff in Hc. rewrite Hc.
  by rewrite (IH Hs).
Qed.

Lemma replace_space_without_class (s : string) :
  none_in_class PyStr.cls_space_hyphen_dot s = true ->
  PyStr.replace_char " " "_" s = s.
Proof.
  induction s as [|c s IH]; [done|]. simpl.
  intros [Hc Hs]%andb_true_iff. rewrite (IH Hs). f_equal.
  destruct (Ascii.eqb c " ") eqn:Heq; [|done].
  apply Ascii.eqb_eq in Heq. subst c. discriminate.
Qed.

Lemma lower_without_class (s : string) :
  none_in_class PyStr.cls_space_hyphen_dot (PyStr.lower s)
  = none_in_class PyStr.cls_space_hyphen_dot s.
Proof.
  induction s as [|c s IH]; [done|]. simpl.
  by rewrite lower_char_keeps_class, IH.
Qed.

Lemma standardize_filename_unfold (file_name department : string) :
  IngestToBronze.standardize_filename file_name department =
  PyStr.lower (PyStr.replace_char " " "_" department) +:+ "_"
  +:+ spec_clean (PyStr.rsplit1_head file_name) +:+ ".parquet".
Proof.
  unfold IngestToBronze.standardize_filename, spec_clean, PyStr.re_sub.
  by rewrite lower_re_sub_runs.
Qed.

(** A pass through the body of the file loop writes at most one table, at the
    output path of the file. *)
Lemma process_file_written (E : Env) (bronze_folder batch_id : string)
    (ingest_ts : Time) (department : string)
    (file_info : IngestToBronze.FileInfo) (c : IngestToBronze.Counters)
    (w : World) :
  let w' := (IngestToBronze.process_file E bronze_folder batch_id ingest_ts
               department file_info c w).2 in
  written w' = written w ∨
  exists df,
    written w' = <[output_path bronze_folder department
                     (IngestToBronze.filename file_info) := df]> (written w).
Proof.
  set (fname := IngestToBronze.filename file_info).
  set (file_path := IngestToBronze.path file_info).
  pose proof (load_dataset_quiet E file_path 3 w) as Hq1.
  destruct (IngestToBronze.load_dataset E file_path 3 w) as [[e|odf] w1] eqn:Hload;
    simpl in Hq1.
  - erewrite process_file_extraction_fails by done. left. simpl.
    by destruct Hq1 as (-> & _).
  - destruct (first_validation_total E odf fname file_path w1)
      as (b & w2 & Hval & Hq2 & _ & Htrue).
    destruct (quiet_step_trans _ _ _ Hq1 Hq2) as (Hw & _ & _).
    destruct b.
    + destruct (Htrue eq_refl) as (df & -> & _).
      erewrite process_file_accepted by done. fold fname.
      destruct (to_parquet_error E _ _ (write_calls w2)) as [e|]; simpl.
      * by left.
      * right. eexists. by rewrite Hw.
    + erewrite process_file_rejected by done. by left.
Qed.

(** C7, as the code has it.  The output name is a function of the department
    name and the file name alone: whatever the batch id, the ingest timestamp,
    the counters and the world, [process_file] writes nowhere but at
    [bronze_folder / standardize_filename file department].  In
    [ingest_to_bronze] that name is the department, lower-cased and with each
    space replaced by an underscore, then an underscore, then the text of the
    file name before its last dot, lower-cased and with runs of whitespace,
    hyphens and dots collapsed to one underscore, then [.parquet]; it carries
    no [_bronze] tag, and it is the name of the specification without the tag
    when the department has no whitespace, hyphen or dot.  In
    [modded_bronzeval] the name carries the [_bronze] tag; the department is
    only lower-cased and only runs of whitespace and hyphens of the
    [splitext] root of the file name are collapsed. *)
Theorem output_name_depends_on_names_only (E : Env)
    (bronze_folder department : string) (file_info : IngestToBronze.FileInfo) :
  let fname := IngestToBronze.filename file_info in
  (forall batch_id ingest_ts c w,
     let w' := (IngestToBronze.process_file E bronze_folder batch_id ingest_ts
                  department file_info c w).2 in
     written w' = written w ∨
     exists df,
       written w' = <[output_path bronze_folder department fname := df]>
                      (written w)) ∧
  IngestToBronze.standardize_filename fname department =
    PyStr.lower (PyStr.replace_char " " "_" department) +:+ "_"
    +:+ spec_clean (PyStr.rsplit1_head fname) +:+ ".parquet" ∧
  (none_in_class PyStr.cls_space_hyphen_dot department = true ->
   IngestToBronze.standardize_filename fname department
   = spec_output_name "" department fname) ∧
  ModdedBronzeval.bronze_name fname department =
    PyStr.lower department +:+ "_"
    +:+ PyStr.re_sub PyStr.cls_space_hyphen "_"
          (PyStr.lower (OsPath.splitext_root fname))
    +:+ "_bronze.parquet".
Proof.
  intros fname. split; [|split; [|split]].
  - intros. apply process_file_written.
  - apply standardize_filename_unfold.
  - intros Hnone. rewrite standardize_filename_unfold.
    unfold spec_output_name. simpl. f_equal.
    rewrite replace_space_without_class by done.
    unfold spec_clean. symmetry. apply re_sub_without_class.
    by rewrite lower_without_class.
  - reflexivity.
Qed.

Lemma output_name_depends_on_names_only_witness :
  IngestToBronze.standardize_filename "Q1 Report.csv" "Sales"
  = spec_output_name "" "Sales" "Q1 Report.csv".
Proof.
  pose proof (output_name_depends_on_names_only Demo.env "/app/data_zone"
                "Sales"
                (IngestToBronze.mkFileInfo "Q1 Report.csv" Demo.q1_path
                   "csv" 64)) as H.
  destruct H as (_ & _ & H & _). apply H. reflexivity.
Defined.

(** C7, as the claim states it, fails on both scripts.  [ingest_to_bronze]
    adds no [_bronze] tag and does not collapse the runs of the department
    (two spaces give two underscores, hyphens and dots stay);
    [modded_bronzeval] adds the tag but leaves the department's spaces and the
    dots of the base name in place. *)
Lemma output_name_bronze_tag_counterexample :
  spec_output_name "_bronze" "Sales" "Q1 Report.csv"
    = "sales_q1_report_bronze.parquet" ∧
  IngestToBronze.standardize_filename "Q1 Report.csv" "Sales"
    = "sales_q1_report.parquet" ∧
  IngestToBronze.standardize_filename "Q1 Report.csv" "Sales"
    ≠ spec_output_name "_bronze" "Sales" "Q1 Report.csv" ∧
  IngestToBronze.standardize_filename "plan.csv" "R  and-D.v2"
    = "r__and-d.v2_plan.parquet" ∧
  spec_output_name "_bronze" "Sales Team" "v1.2 data.csv"
    = "sales_team_v1_2_data_bronze.parquet" ∧
  ModdedBronzeval.bronze_name "v1.2 data.csv" "Sales Team"
    = "sales team_v1.2_data_bronze.parquet" ∧
  ModdedBronzeval.bronze_name "v1.2 data.csv" "Sales Team"
    ≠ spec_output_name "_bronze" "Sales Team" "v1.2 data.csv".
Proof. repeat split; try (by vm_compute); vm_compute; discriminate. Qed.

(** ** The two scripts on the sample tree *)

(** [modded_bronzeval] also keeps a failure inside the body of its file loop:
    [load_file] never raises. *)
Lemma modded_load_file_total (E : Env) (bronze_folder department : string)
    (meta : ModdedBronzeval.FileMeta) (w : World) :
  exists w', ModdedBronzeval.load_file E bronze_folder department meta tt w
             = (inr tt, w').
Proof.
  destruct (ModdedBronzeval.load_dataset E (ModdedBronzeval.path meta) w)
    as [[e|df] w1] eqn:Hload.
  - eexists. by eapply modded_load_file_extraction_fails.
  - destruct (modded_load_file_tags_two_columns E bronze_folder department
                meta w df w1 Hload) as [Hrun _].
    rewrite Hrun. destruct (to_parquet_error E _ _ (write_calls w1)); eauto.
Qed.

(** A run of [ingestion] over the sample tree: three of the seven files fail
    (a two-byte JSON file, a column-less table, an unrecognized format) and
    the four others are written. *)
Lemma demo_ingestion_counts :
  let r := IngestToBronze.ingestion Demo.env Demo.root "/app/data_zone"
             initial_world in
  r.1 = inr (IngestToBronze.mkCounters 4 3) ∧
  size (written r.2) = 4 ∧
  count_severity "ERROR" (validation_log r.2) = 4 ∧
  count_issue "PROCESSING_ERROR" (validation_log r.2) = 1.
Proof. by vm_compute. Qed.

(** * Further properties of the two scripts *)

(** ** The verdict and the events of [first_validation] *)

(** [first_validation] never raises, and it accepts exactly the tables that
    are present, have at least one column, and come from a file that exists
    and has at least 10 bytes; the number of rows plays no part. *)
Theorem first_validation_verdict (E : Env) (odf : option DataFrame)
    (fname file_path : string) (w : World) :
  (exists b, (IngestToBronze.first_validation E odf fname file_path w).1 = inr b) ∧
  ((IngestToBronze.first_validation E odf fname file_path w).1 = inr true <->
   exists size df,
     stat_size E file_path = Some size ∧ 10 <= size ∧
     odf = Some df ∧ columns df ≠ []).
Proof.
  destruct (stat_size E file_path) as [size|] eqn:Hsz.
  - destruct (decide (size < 10)) as [Hlt|Hge].
    + erewrite first_validation_small by done. simpl. split; [eauto|].
      split; [done|]. intros (size' & df & [= <-] & Hge & _). lia.
    + destruct odf as [df|].
      * destruct (decide (columns df = [])) as [Hcols|Hcols].
        -- erewrite first_validation_no_columns by (done || lia). simpl.
           split; [eauto|]. split; [done|].
           intros (size' & df' & _ & _ & [= <-] & Hne). done.
        -- destruct (decide (index_len df = 0)) as [Hrows|Hrows].
           ++ erewrite first_validation_no_rows by (done || lia). simpl.
              split; [eauto|]. split; [|done]. intros _.
              exists size, df. repeat split; try done. lia.
           ++ erewrite first_validation_passes by (done || lia). simpl.
              split; [eauto|]. split; [|done]. intros _.
              exists size, df. repeat split; try done. lia.
      * erewrite first_validation_none by (done || lia). simpl.
        split; [eauto|]. split; [done|].
        intros (size' & df' & _ & _ & [=] & _).
  - erewrite first_validation_missing by done. simpl. split; [eauto|].
    split; [done|]. intros (size' & df' & [=] & _).
Qed.

(** What [first_validation] leaves behind: it appends at most two events to
    the log, all of them of stage FIRST_VALIDATION and for the file it was
    given, and reads the clock once per event; a rejection logs exactly one
    ERROR event, as the last one, and an acceptance logs no ERROR event; no
    table is read, written or slept on. *)
Theorem first_validation_events (E : Env) (odf : option DataFrame)
    (fname file_path : string) (w : World) :
  let r := IngestToBronze.first_validation E odf fname file_path w in
  exists b new,
    r.1 = inr b ∧
    validation_log r.2 = validation_log w ++ new ∧
    length new <= 2 ∧
    (forall ev, ev ∈ new -> stage ev = "FIRST_VALIDATION" ∧ file ev = fname) ∧
    count_severity "ERROR" new = (if b then 0 else 1) ∧
    (b = false -> exists ev, last new = Some ev ∧ severity ev = "ERROR") ∧
    clock_calls r.2 = clock_calls w + length new ∧
    slept r.2 = slept w ∧ written r.2 = written w ∧
    saved_logs r.2 = saved_logs w ∧ read_calls r.2 = read_calls w ∧
    write_calls r.2 = write_calls w.
Proof.
  intros r. subst r.
  assert (forall (l : list ValidationEvent),
            Forall (fun ev => stage ev = "FIRST_VALIDATION" ∧ file ev = fname) l ->
            forall ev, ev ∈ l -> stage ev = "FIRST_VALIDATION" ∧ file ev = fname)
    as Hall by (intros l Hl ev Hin; by eapply Forall_forall in Hl).
  destruct (stat_size E file_path) as [size|] eqn:Hsz.
  - destruct (decide (size < 10)) as [Hlt|Hge].
    + erewrite first_validation_small by done.
      eexists false, [_]. simpl.
      split_and!; try done; try lia; [apply Hall; by repeat constructor|eauto].
    + destruct odf as [df|].
      * destruct (decide (columns df = [])) as [Hcols|Hcols].
        -- erewrite first_validation_no_columns by (done || lia).
           eexists false, [_; _]. simpl. rewrite <- app_assoc.
           split_and!; try done; try lia;
             [apply Hall; by repeat constructor|eauto].
        -- destruct (decide (index_len df = 0)) as [Hrows|Hrows].
           ++ erewrite first_validation_no_rows by (done || lia).
              eexists true, [_]. simpl.
              split_and!; try done; try lia. apply Hall; by repeat constructor.
           ++ erewrite first_validation_passes by (done || lia).
              eexists true, []. simpl. rewrite app_nil_r.
              split_and!; try done; try lia. apply Hall; by repeat constructor.
      * erewrite first_validation_none by (done || lia).
        eexists false, [_]. simpl.
        split_and!; try done; try lia; [apply Hall; by repeat constructor|eauto].
  - erewrite first_validation_missing by done.
    eexists false, [_]. simpl.
    split_and!; try done; try lia; [apply Hall; by repeat constructor|eauto].
Qed.

(** ** What any run of [load_dataset] does *)

Lemma read_by_ext_world (E : Env) (ext path : string) (w : World) :
  exists s, s <= 1 ∧
    (IngestToBronze.read_by_ext E ext path w).2 = add_reads s w.
Proof.
  unfold IngestToBronze.read_by_ext.
  repeat case_bool_decide;
    try (exists 1; split; [lia|]; by rewrite add_reads_1);
    try (exists 0; split; [lia|]; by rewrite add_reads_0).
  exists 1. split; [lia|]. rewrite add_reads_1. unfold bind, pd_read.
  by destruct (pd_read_html E path (read_calls w)).
Qed.

Lemma retry_events_ext (E : Env) (path : string) (N : Z) (c0 : nat)
    (errs errs' : nat -> exn) (a k : nat) :
  (forall i, a <= i -> errs i = errs' i) ->
  retry_events E path N c0 errs a k = retry_events E path N c0 errs' a k.
Proof.
  intros Hext. unfold retry_events. apply map_ext. intros j.
  by rewrite Hext by lia.
Qed.

(** The shape of every run of the attempt loop over attempts [a], ...,
    [a + len - 1] of [N = a + len]: [k] failed attempts were followed by a
    retry, and then the loop returned a table, fell through (no attempt at
    all), or raised after the last attempt. *)
Lemma load_dataset_attempts_run (E : Env) (path ext : string) (N : Z)
    (len : nat) : forall (a : nat) (w : World),
  Z.of_nat (a + len) = N ->
  let r := IngestToBronze.load_dataset_attempts E path ext N (seq a len) w in
  exists k errs reads,
    k <= len ∧ reads <= len ∧
    slept r.2 = slept w ++ backoff_delays a k ∧
    read_calls r.2 = read_calls w + reads ∧
    written r.2 = written w ∧ saved_logs r.2 = saved_logs w ∧
    uuid_calls r.2 = uuid_calls w ∧ write_calls r.2 = write_calls w ∧
    ((exists df, r.1 = inr (Some df) ∧ k < len ∧
        validation_log r.2 =
          validation_log w ++ retry_events E path N (clock_calls w) errs a k ∧
        clock_calls r.2 = clock_calls w + k)
     ∨ (r.1 = inr None ∧ len = 0 ∧ k = 0 ∧
        validation_log r.2 = validation_log w ∧
        clock_calls r.2 = clock_calls w)
     ∨ (exists e, r.1 = inl e ∧ S k = len ∧
          validation_log r.2 =
            validation_log w ++ retry_events E path N (clock_calls w) errs a k
            ++ [exhausted_event path N (datetime_now E (clock_calls w + k)) e] ∧
          clock_calls r.2 = clock_calls w + S k)).
Proof.
  induction len as [|len IH]; intros a w HN r.
  - exists 0, (fun _ => Exn "" ""), 0. subst r. simpl.
    rewrite app_nil_r. split_and!; try done; try lia. right. left. done.
  - subst r.
    destruct (IngestToBronze.load_dataset_attempts E path ext N
                (seq a (S len)) w) as [res w'] eqn:Hrun.
    cbn [seq IngestToBronze.load_dataset_attempts] in Hrun.
    unfold try_except, bind at 1 in Hrun.
    destruct (read_by_ext_world E ext path w) as (s & Hs & Hw1).
    destruct (IngestToBronze.read_by_ext E ext path w) as [[e|df] w1];
      simpl in Hw1; subst w1.
    + destruct (Z.of_nat a <? N - 1)%Z eqn:Hlast.
      * apply Z.ltb_lt in Hlast.
        unfold bind in Hrun. rewrite log_validation_run in Hrun.
        cbn [sleep] in Hrun.
        match type of Hrun with
        | context [IngestToBronze.load_dataset_attempts E path ext N
                     (seq (S a) len) ?w2] =>
            destruct (IH (S a) w2 ltac:(lia))
              as (k & errs & reads & Hk & Hreads & Hslept & Hrc & Hwr & Hsl
                  & Hu & Hwc & Hcase)
        end.
        rewrite Hrun in *. clear Hrun.
        set (errs1 := fun i => if decide (i = a) then e else errs i).
        assert (forall c0, retry_events E path N c0 errs1 (S a) k
                           = retry_events E path N c0 errs (S a) k) as Hev.
        { intros c0. apply retry_events_ext. intros i Hi. unfold errs1.
          case_decide; [lia|done]. }
        assert (errs1 a = e) as Ha by (unfold errs1; by case_decide).
        exists (S k), errs1, (s + reads).
        rewrite retry_events_S, backoff_delays_S, Hev, Ha.
        unfold_world. rewrite <- !app_assoc in *.
        split_and!; try done; try lia.
        destruct Hcase as [(df & H1 & H2 & H3 & H4)|[(H1 & H2 & H3 & H4 & H5)
                          |(e' & H1 & H2 & H3 & H4)]].
        -- left. exists df.
           split_and!; [done|lia|by rewrite H3, <- ?app_assoc|lia].
        -- lia.
        -- right. right. exists e'.
           split_and!; [done|lia| |lia].
           rewrite H3, <- ?app_assoc. simpl.
           by replace (clock_calls w + S k) with (S (clock_calls w + k)) by lia.
      * apply Z.ltb_ge in Hlast. unfold bind in Hrun.
        rewrite log_validation_run in Hrun. injection Hrun as <- <-.
        exists 0, (fun _ => e), s. unfold_world.
        rewrite app_nil_r, Nat.add_0_r.
        split_and!; try done; try lia.
        right. right. exists e. split_and!; try done; lia.
    + injection Hrun as <- <-.
      exists 0, (fun _ => Exn "" ""), s. unfold_world.
      rewrite !app_nil_r, Nat.add_0_r.
      split_and!; try done; try lia.
      left. exists df. split_and!; try done; lia.
Qed.

Lemma backoff_delays_sum (k : nat) : forall a,
  sum_list (backoff_delays a k) = 2 ^ a * (2 ^ k - 1).
Proof.
  induction k as [|k IH]; intros a.
  - cbn. symmetry. apply Nat.mul_0_r.
  - rewrite backoff_delays_S. cbn [sum_list sum_list_with]. rewrite IH.
    rewrite !Nat.pow_succ_r'.
    assert (2 ^ k ≠ 0) as Hpos by (apply Nat.pow_nonzero; lia).
    clear IH. generalize dependent (2 ^ k). generalize (2 ^ a). clear.
    intros x y Hy. unfold id. destruct y as [|y]; [done|].
    replace (S y - 1) with y by lia.
    replace (2 * S y - 1) with (2 * y + 1) by lia. nia.
Qed.

Lemma count_events_app (issue sev : string) (l1 l2 : list ValidationEvent) :
  count_events issue sev (l1 ++ l2)
  = count_events issue sev l1 + count_events issue sev l2.
Proof. unfold count_events, events_of. by rewrite filter_app, length_app. Qed.

Lemma count_issue_app (issue : string) (l1 l2 : list ValidationEvent) :
  count_issue issue (l1 ++ l2) = count_issue issue l1 + count_issue issue l2.
Proof. unfold count_issue. by rewrite filter_app, length_app. Qed.

(** Whatever the readers answer, a call of [load_dataset] with
    [max_retries = n] calls a reader at most [n] times and sleeps after at
    most [n - 1] failures, for 1, 2, 4, ... seconds, so for [2 ^ k - 1] seconds
    after [k] retries; it logs one RETRY_EXTRACT warning per sleep and one
    EXTRACTION_FAILED event exactly when it raises; it writes nothing. *)
Theorem load_dataset_effects_are_bounded (E : Env) (path : string) (n : nat)
    (w : World) :
  let r := IngestToBronze.load_dataset E path (Z.of_nat n) w in
  exists k new,
    k <= n - 1 ∧
    slept r.2 = slept w ++ map (fun j => 2 ^ j) (seq 0 k) ∧
    sum_list (slept r.2) = sum_list (slept w) + (2 ^ k - 1) ∧
    read_calls r.2 <= read_calls w + n ∧
    written r.2 = written w ∧ write_calls r.2 = write_calls w ∧
    validation_log r.2 = validation_log w ++ new ∧
    count_events "RETRY_EXTRACT" "WARNING" new = k ∧
    count_issue "EXTRACTION_FAILED" new
      = (match r.1 with inl _ => 1 | inr _ => 0 end) ∧
    length new = k + (match r.1 with inl _ => 1 | inr _ => 0 end).
Proof.
  intros r. subst r. unfold IngestToBronze.load_dataset. rewrite Nat2Z.id.
  destruct (load_dataset_attempts_run E path (format_tag path) (Z.of_nat n) n
              0 w eq_refl)
    as (k & errs & reads & Hk & Hreads & Hslept & Hrc & Hwr & _ & _ & Hwc
        & Hcase).
  fold (format_tag path).
  destruct (IngestToBronze.load_dataset_attempts E path (format_tag path)
              (Z.of_nat n) (seq 0 n) w) as [res w']. simpl in *.
  pose proof (count_retry_events E path (Z.of_nat n) (clock_calls w) errs 0 k)
    as [Hc1 Hc2].
  assert (sum_list (slept w') = sum_list (slept w) + (2 ^ k - 1)) as Hsum.
  { rewrite Hslept, sum_list_with_app, backoff_delays_sum. simpl. lia. }
  destruct Hcase as [(df & -> & Hlt & Hl & _)|[(-> & -> & -> & Hl & _)
                    |(e & -> & Hlen & Hl & _)]].
  - exists k, (retry_events E path (Z.of_nat n) (clock_calls w) errs 0 k).
    rewrite retry_events_length. split_and!; try done; clear Hsum; lia.
  - exists 0, []. rewrite !app_nil_r. simpl in Hslept. rewrite app_nil_r in Hslept.
    split_and!; try done; clear Hsum; lia.
  - eexists k, (_ ++ [_]). split_and!; try done; try (clear Hsum; lia).
    + rewrite count_events_app, Hc1. unfold count_events, events_of.
      rewrite filter_cons_False; [simpl; lia|]. by intros [[=] _].
    + rewrite count_issue_app, Hc2. unfold count_issue.
      by rewrite filter_cons_True.
    + rewrite length_app, retry_events_length. simpl. lia.
Qed.


(** For an [html] source only the first table the reader finds is kept, and a
    page without tables becomes the empty frame; either way the first attempt
    succeeds, so nothing is retried or logged.  The empty frame has no
    columns, so the checkpoint will reject it. *)
Theorem load_dataset_html_keeps_first_table (E : Env) (path : string) (n : nat)
    (w : World) (tables : list DataFrame) :
  format_tag path = "html" ->
  0 < n ->
  pd_read_html E path (read_calls w) = inr tables ->
  IngestToBronze.load_dataset E path (Z.of_nat n) w =
    (inr (Some (match tables with t :: _ => t | [] => empty_DataFrame end)),
     tick_read w) ∧
  columns empty_DataFrame = [].
Proof.
  intros Hfmt Hn Hread. split; [|done].
  unfold IngestToBronze.load_dataset. rewrite Nat2Z.id.
  fold (format_tag path). rewrite Hfmt.
  destruct n as [|m]; [lia|]. cbn [seq IngestToBronze.load_dataset_attempts].
  unfold try_except, bind at 1.
  assert (IngestToBronze.read_by_ext E "html" path w =
          (inr (match tables with t :: _ => t | [] => empty_DataFrame end),
           tick_read w)) as ->; [|done].
  unfold IngestToBronze.read_by_ext.
  repeat (rewrite bool_decide_eq_false_2;
          [|first [discriminate
                  |intros Hin; repeat (apply elem_of_cons in Hin as [Hin|Hin];
                                       [discriminate|]);
                   by apply elem_of_nil in Hin]]).
  rewrite bool_decide_eq_true_2 by done.
  unfold bind, pd_read. by rewrite Hread.
Qed.

Lemma load_dataset_html_keeps_first_table_witness :
  let E := mkEnv ∅ (fun k => k) (fun _ => "id")
             (fun _ _ _ => inl (Exn "IOError" ""))
             (fun _ _ => inl (Exn "IOError" ""))
             (fun _ _ => inl (Exn "IOError" ""))
             (fun _ _ => inl (Exn "IOError" ""))
             (fun _ _ => inl (Exn "IOError" ""))
             (fun _ _ => inr [Demo.q1_report; Demo.no_rows])
             (fun _ _ _ => None) in
  IngestToBronze.load_dataset E "pages/Report.HTML" 3 initial_world
  = (inr (Some Demo.q1_report), tick_read initial_world).
Proof.
  intros E.
  apply (load_dataset_html_keeps_first_table E "pages/Report.HTML" 3
           initial_world [Demo.q1_report; Demo.no_rows]).
  - by vm_compute.
  - lia.
  - reflexivity.
Defined.

(** ** Splitting names at dots *)

Lemma split_nonempty (sep : ascii) (s : string) : PyStr.split sep s ≠ [].
Proof.
  destruct s as [|c s]; simpl; [done|].
  destruct (Ascii.eqb c sep); [done|]. by destruct (PyStr.split sep s).
Qed.

Lemma split_app_sep (sep : ascii) (b e : string) :
  PyStr.split sep (b +:+ String sep e) = PyStr.split sep b ++ PyStr.split sep e.
Proof.
  induction b as [|c b IH]; simpl.
  - by rewrite Ascii.eqb_refl.
  - rewrite IH. destruct (Ascii.eqb c sep); [done|].
    pose proof (split_nonempty sep b). by destruct (PyStr.split sep b).
Qed.

Lemma join_split (sep : ascii) (s : string) :
  PyStr.join sep (PyStr.split sep s) = s.
Proof.
  induction s as [|c s IH]; [done|]. simpl.
  pose proof (split_nonempty sep s) as Hne.
  destruct (Ascii.eqb c sep) eqn:Hc.
  - apply Ascii.eqb_eq in Hc. subst c.
    destruct (PyStr.split sep s) as [|seg segs]; [done|].
    change (PyStr.join sep ("" :: seg :: segs))
      with ("" +:+ String sep (PyStr.join sep (seg :: segs))).
    by rewrite IH.
  - destruct (PyStr.split sep s) as [|seg segs]; [done|].
    destruct segs as [|x xs].
    + simpl in *. by rewrite IH.
    + change (PyStr.join sep (String c seg :: x :: xs))
        with (String c (PyStr.join sep (seg :: x :: xs))).
      by rewrite IH.
Qed.

Lemma rsplit1_head_app (b e : string) :
  none_in_class (Ascii.eqb ".") e = true ->
  PyStr.rsplit1_head (b +:+ String "." e) = b.
Proof.
  intros He. unfold PyStr.rsplit1_head.
  rewrite split_app_sep, (split_without_separator _ _ He).
  pose proof (split_nonempty "." b) as Hne.
  pose proof (join_split "." b) as Hjoin.
  destruct (PyStr.split "." b) as [|x xs] eqn:Hsplit; [done|].
  destruct xs as [|y ys].
  - simpl. exact Hjoin.
  - change ((x :: y :: ys) ++ [e]) with (x :: (y :: ys) ++ [e]).
    assert (PyStr.join "." (removelast ((x :: y :: ys) ++ [e])) = b) as Hgoal
      by (by rewrite removelast_last).
    exact Hgoal.
Qed.

Lemma suffix_after_last_dot_app (b e : string) :
  none_in_class (Ascii.eqb ".") e = true ->
  PyStr.suffix_after_last_dot (b +:+ String "." e) = e.
Proof.
  intros He. unfold PyStr.suffix_after_last_dot, PyStr.last_item.
  rewrite split_app_sep, (split_without_separator _ _ He).
  apply last_last.
Qed.

Lemma split_segments_without_separator (sep : ascii) (s : string) :
  Forall (fun seg => none_in_class (Ascii.eqb sep) seg = true)
    (PyStr.split sep s).
Proof.
  induction s as [|c s IH]; simpl; [by repeat constructor|].
  destruct (Ascii.eqb c sep) eqn:Hc; [by constructor|].
  destruct (PyStr.split sep s) as [|seg segs].
  - constructor; [|constructor]. simpl. by rewrite Ascii.eqb_sym, Hc.
  - inversion IH as [|? ? Hseg Hsegs]; subst. constructor; [|done].
    simpl. rewrite Ascii.eqb_sym, Hc. done.
Qed.

Lemma lower_char_keeps_dot (c : ascii) :
  Ascii.eqb "." (PyStr.lower_char c) = Ascii.eqb "." c.
Proof. destruct c as [[] [] [] [] [] [] [] []]; reflexivity. Qed.

Lemma lower_keeps_dots (s : string) :
  none_in_class (Ascii.eqb ".") (PyStr.lower s)
  = none_in_class (Ascii.eqb ".") s.
Proof.
  induction s as [|c s IH]; [done|]. cbn [none_in_class PyStr.lower].
  by rewrite lower_char_keeps_dot, IH.
Qed.

(** The format tag both scripts dispatch on is the lower-cased text after
    the last dot of the name, so recognition does not depend on the case of
    the extension; a name without a dot is its own tag, and a tag never
    contains a dot. *)
Theorem format_tag_is_lower_cased_suffix (name : string) :
  none_in_class (Ascii.eqb ".") (format_tag name) = true ∧
  (none_in_class (Ascii.eqb ".") name = true ->
   format_tag name = PyStr.lower name) ∧
  (forall stem ext,
     name = stem +:+ String "." ext ->
     none_in_class (Ascii.eqb ".") ext = true ->
     format_tag name = PyStr.lower ext).
Proof.
  unfold format_tag. split_and!.
  - rewrite lower_keeps_dots. unfold PyStr.suffix_after_last_dot, PyStr.last_item.
    pose proof (split_segments_without_separator "." name) as Hall.
    pose proof (split_nonempty "." name) as Hne.
    induction (PyStr.split "." name) as [|seg segs IH]; [done|].
    inversion Hall as [|? ? Hseg Hsegs]; subst.
    destruct segs as [|seg' segs']; [done|]. by apply IH.
  - intros Hname. unfold PyStr.suffix_after_last_dot.
    by rewrite (split_without_separator _ _ Hname).
  - intros stem ext -> Hext. by rewrite suffix_after_last_dot_app.
Qed.

Lemma format_tag_is_lower_cased_suffix_witness :
  format_tag "/app/source_data/Sales/Q1 Report.CSV" = "csv".
Proof.
  destruct (format_tag_is_lower_cased_suffix
              "/app/source_data/Sales/Q1 Report.CSV") as (_ & _ & H).
  apply (H "/app/source_data/Sales/Q1 Report" "CSV"); reflexivity.
Defined.

(** ** More on output names *)

(** [standardize_filename] drops the extension: two files of one department
    whose names differ only after the last dot get the same output name, and
    so the same output path, where the later write replaces the earlier
    one. *)
Theorem standardize_filename_ignores_extension (stem ext1 ext2 department
    bronze_folder : string) :
  none_in_class (Ascii.eqb ".") ext1 = true ->
  none_in_class (Ascii.eqb ".") ext2 = true ->
  IngestToBronze.standardize_filename (stem +:+ String "." ext1) department
  = IngestToBronze.standardize_filename (stem +:+ String "." ext2) department ∧
  IngestToBronze.standardize_filename (stem +:+ String "." ext1) department
  = PyStr.lower (PyStr.replace_char " " "_" department) +:+ "_"
    +:+ spec_clean stem +:+ ".parquet" ∧
  output_path bronze_folder department (stem +:+ String "." ext1)
  = output_path bronze_folder department (stem +:+ String "." ext2).
Proof.
  intros H1 H2. unfold output_path.
  rewrite !standardize_filename_unfold, !rsplit1_head_app by done. done.
Qed.

Lemma standardize_filename_ignores_extension_witness :
  IngestToBronze.standardize_filename "orders.csv" "Sales"
  = IngestToBronze.standardize_filename "orders.json" "Sales".
Proof.
  apply (standardize_filename_ignores_extension "orders" "csv" "json" "Sales"
           "/app/data_zone"); reflexivity.
Defined.

Lemma lower_char_not_upper (c : ascii) :
  PyStr.is_upper (PyStr.lower_char c) = false.
Proof. destruct c as [[] [] [] [] [] [] [] []]; reflexivity. Qed.

Lemma none_in_class_app (cls : ascii -> bool) (s1 s2 : string) :
  none_in_class cls (s1 +:+ s2) = none_in_class cls s1 && none_in_class cls s2.
Proof.
  induction s1 as [|c s1 IH]; [done|]. simpl. by rewrite IH, andb_assoc.
Qed.

Lemma lower_has_no_upper (s : string) :
  none_in_class PyStr.is_upper (PyStr.lower s) = true.
Proof.
  induction s as [|c s IH]; [done|]. cbn [none_in_class PyStr.lower].
  by rewrite lower_char_not_upper, IH.
Qed.

Lemma re_sub_runs_keeps_none (keep cls : ascii -> bool) (in_run : bool)
    (s : string) :
  keep "_"%char = false ->
  none_in_class keep s = true ->
  none_in_class keep (PyStr.re_sub_runs cls "_" in_run s) = true.
Proof.
  intros Hu. revert in_run. induction s as [|c s IH]; intros in_run; [done|].
  simpl. intros [Hc Hs]%andb_true_iff.
  destruct (cls c).
  - destruct in_run; [by apply IH|]. simpl. rewrite Hu. by apply IH.
  - simpl. rewrite Hc. by apply IH.
Qed.

Lemma re_sub_runs_removes_class (cls : ascii -> bool) (in_run : bool)
    (s : string) :
  cls "_"%char = false ->
  none_in_class cls (PyStr.re_sub_runs cls "_" in_run s) = true.
Proof.
  intros Hu. revert in_run. induction s as [|c s IH]; intros in_run; [done|].
  simpl. destruct (cls c) eqn:Hc.
  - destruct in_run; [apply IH|]. simpl. rewrite Hu. apply IH.
  - simpl. rewrite Hc. apply IH.
Qed.

(** The output names of both scripts contain no capital letter, whatever
    the case of the department and file names; in the name of
    [ingest_to_bronze] the part made from the file name contains no
    whitespace, hyphen or dot, so the only dots of the name are those of the
    department and of the extension. *)
Theorem output_names_are_lower_case (file_name department : string) :
  none_in_class PyStr.is_upper
    (IngestToBronze.standardize_filename file_name department) = true ∧
  none_in_class PyStr.is_upper
    (ModdedBronzeval.bronze_name file_name department) = true ∧
  exists base,
    IngestToBronze.standardize_filename file_name department
    = PyStr.lower (PyStr.replace_char " " "_" department) +:+ "_" +:+ base
      +:+ ".parquet" ∧
    none_in_class PyStr.cls_space_hyphen_dot base = true.
Proof.
  split_and!.
  - unfold IngestToBronze.standardize_filename.
    rewrite !none_in_class_app, !lower_has_no_upper. done.
  - unfold ModdedBronzeval.bronze_name, PyStr.re_sub.
    rewrite !none_in_class_app, lower_has_no_upper.
    rewrite re_sub_runs_keeps_none; [done|done|apply lower_has_no_upper].
  - eexists. split; [apply standardize_filename_unfold|].
    unfold spec_clean, PyStr.re_sub. by apply re_sub_runs_removes_class.
Qed.

(** ** Discovery *)

Lemma dict_set_keys {V} (d : dict V) (k : string) (v : V) :
  (dict_set d k v).*1 = if bool_decide (k ∈ d.*1) then d.*1 else d.*1 ++ [k].
Proof.
  unfold dict_set. case_bool_decide.
  - clear. induction d as [|[k' v'] d IH]; [done|]. simpl.
    f_equal; [by case_bool_decide|]. exact IH.
  - by rewrite fmap_app.
Qed.

Lemma dict_set_elem {V} (d : dict V) (k : string) (v : V) (k' : string) (v' : V) :
  (k', v') ∈ dict_set d k v <->
  (k' = k ∧ v' = v) ∨ (k' ≠ k ∧ (k', v') ∈ d).
Proof.
  unfold dict_set. case_bool_decide as Hin.
  - rewrite list_elem_of_fmap. split.
    + intros ([k0 v0] & Heq & Hel). simpl in Heq.
      case_bool_decide; simplify_eq; [by left|by right].
    + intros [[-> ->]|[Hne Hel]].
      * apply list_elem_of_fmap in Hin as ([k0 v0] & Heq & Hel). simpl in Heq.
        subst k0. exists (k, v0). simpl. by rewrite bool_decide_eq_true_2.
      * exists (k', v'). simpl. by rewrite bool_decide_eq_false_2.
  - rewrite elem_of_app, list_elem_of_singleton. split.
    + intros [Hel|[= -> ->]]; [right|by left]. split; [|done].
      intros ->. apply Hin. apply list_elem_of_fmap. by exists (k, v').
    + intros [[-> ->]|[_ Hel]]; [by right|by left].
Qed.

Lemma dict_set_NoDup {V} (d : dict V) (k : string) (v : V) :
  NoDup d.*1 -> NoDup (dict_set d k v).*1.
Proof.
  intros Hnd. rewrite dict_set_keys. case_bool_decide; [done|].
  apply NoDup_app. split_and!; [done| |apply NoDup_singleton].
  intros x Hx ->%list_elem_of_singleton. done.
Qed.

Lemma catalog_files_elem (E : Env) (dept_path : string) (files : list string)
    (fi : IngestToBronze.FileInfo) :
  fi ∈ catalog_files E dept_path files <->
  exists file size,
    file ∈ files ∧ fs E !! OsPath.join dept_path file = Some (File size) ∧
    fi = IngestToBronze.mkFileInfo file (OsPath.join dept_path file)
           (format_tag file) size.
Proof.
  induction files as [|file rest IH]; simpl.
  - split; [by intros ?%elem_of_nil|]. by intros (? & ? & ?%elem_of_nil & _).
  - destruct (fs E !! OsPath.join dept_path file) as [[size|dsz l]|] eqn:Hfs.
    + rewrite elem_of_cons, IH. split.
      * intros [->|(f & sz & Hin & Hf & ->)].
        -- exists file, size. split_and!; [by left|done|done].
        -- exists f, sz. split_and!; [by right|done|done].
      * intros (f & sz & [->|Hin]%elem_of_cons & Hf & ->).
        -- left. rewrite Hfs in Hf. by injection Hf as ->.
        -- right. by exists f, sz.
    + rewrite IH. split.
      * intros (f & sz & Hin & Hf & ->). exists f, sz.
        split_and!; [by right|done|done].
      * intros (f & sz & [->|Hin]%elem_of_cons & Hf & ->); [congruence|].
        by exists f, sz.
    + rewrite IH. split.
      * intros (f & sz & Hin & Hf & ->). exists f, sz.
        split_and!; [by right|done|done].
      * intros (f & sz & [->|Hin]%elem_of_cons & Hf & ->); [congruence|].
        by exists f, sz.
Qed.

Lemma identify_files_run (E : Env) (dept_path : string) (files : list string) :
  forall (acc : list IngestToBronze.FileInfo) (w : World),
  for_each files (IngestToBronze.identify_file E dept_path) acc w
  = (inr (acc ++ catalog_files E dept_path files), w).
Proof.
  induction files as [|file rest IH]; intros acc w; simpl.
  - by rewrite app_nil_r.
  - unfold bind at 1, IngestToBronze.identify_file at 1.
    unfold os_path_isfile, os_path_getsize, format_tag.
    destruct (fs E !! OsPath.join dept_path file) as [[size|dsz l]|]; simpl.
    + unfold bind, ret. rewrite IH. by rewrite <- app_assoc.
    + unfold ret. by rewrite IH.
    + unfold ret. by rewrite IH.
Qed.

Lemma identify_departments_run (E : Env) (raw_folder : string)
    (departments : list string) :
  forall (seen : list string) (sources : dict (list IngestToBronze.FileInfo))
         (w : World),
  catalogue_of E raw_folder seen sources ->
  exists sources',
    for_each departments (IngestToBronze.identify_department E raw_folder)
      sources w = (inr sources', w) ∧
    catalogue_of E raw_folder (seen ++ departments) sources'.
Proof.
  induction departments as [|dept rest IH]; intros seen sources w Hcat.
  - exists sources. by rewrite app_nil_r.
  - cbn [for_each]. unfold bind at 1, IngestToBronze.identify_department at 1.
    unfold os_path_isdir at 1, os_listdir.
    replace (seen ++ dept :: rest) with ((seen ++ [dept]) ++ rest)
      by (by rewrite <- app_assoc).
    destruct (fs E !! OsPath.join raw_folder dept) as [[size|dsz files]|] eqn:Hfs;
      simpl.
    + apply IH. destruct Hcat as (Hnd & Hkeys & Hval). split_and!; [done| |done].
      intros d. rewrite Hkeys, elem_of_app, list_elem_of_singleton.
      unfold os_path_isdir. split; [tauto|].
      intros [[Hin| ->] Hdir]; [done|]. by rewrite Hfs in Hdir.
    + unfold bind, ret. rewrite identify_files_run. simpl.
      apply IH. destruct Hcat as (Hnd & Hkeys & Hval). split_and!.
      * by apply dict_set_NoDup.
      * intros d. rewrite dict_set_keys, elem_of_app, list_elem_of_singleton.
        case_bool_decide as Hin.
        -- rewrite Hkeys. split; [tauto|]. intros [[Hd| ->] Hdir]; [done|].
           by apply Hkeys.
        -- rewrite elem_of_app, list_elem_of_singleton, Hkeys.
           unfold os_path_isdir. split; [|tauto].
           intros [[Hd Hdir]| ->]; [tauto|]. by rewrite Hfs; auto.
      * intros d infos [[-> ->]|[Hne Hel]]%dict_set_elem; [eauto|by apply Hval].
    + apply IH. destruct Hcat as (Hnd & Hkeys & Hval). split_and!; [done| |done].
      intros d. rewrite Hkeys, elem_of_app, list_elem_of_singleton.
      unfold os_path_isdir. split; [tauto|].
      intros [[Hin| ->] Hdir]; [done|]. by rewrite Hfs in Hdir.
Qed.

(** [identify_sources] on a root that is a directory: it returns without
    logging or changing anything else; the keys of the mapping are the entries
    of the root that are directories, each once, a directory without files
    included; and under each key are the descriptors of exactly the regular
    files directly inside that directory, with their path
    [root/department/file], their size and the lower-cased suffix of the file
    name as format. *)
Theorem identify_sources_catalogues_regular_files (E : Env)
    (raw_folder : string) (size : nat) (entries : list string) (w : World) :
  fs E !! raw_folder = Some (Dir size entries) ->
  exists sources,
    IngestToBronze.identify_sources E raw_folder w = (inr sources, w) ∧
    NoDup sources.*1 ∧
    (forall dept,
       dept ∈ sources.*1 <->
       dept ∈ entries ∧ os_path_isdir E (OsPath.join raw_folder dept) = true) ∧
    (forall dept infos fi,
       (dept, infos) ∈ sources ->
       (fi ∈ infos <->
        exists dsz files file fsize,
          fs E !! OsPath.join raw_folder dept = Some (Dir dsz files) ∧
          file ∈ files ∧
          fs E !! OsPath.join (OsPath.join raw_folder dept) file
            = Some (File fsize) ∧
          fi = IngestToBronze.mkFileInfo file
                 (OsPath.join (OsPath.join raw_folder dept) file)
                 (format_tag file) fsize)).
Proof.
  intros Hroot.
  destruct (identify_departments_run E raw_folder entries [] [] w)
    as (sources & Hrun & Hnd & Hkeys & Hval).
  { split_and!; [constructor| |by intros ? ? ?%elem_of_nil].
    intros dept. simpl. split; [by intros ?%elem_of_nil|].
    by intros [?%elem_of_nil _]. }
  exists sources. split_and!; try done.
  - unfold IngestToBronze.identify_sources, bind, os_listdir.
    by rewrite Hroot.
  - intros dept infos fi Hel.
    destruct (Hval dept infos Hel) as (dsz & files & Hdir & ->).
    rewrite catalog_files_elem. split.
    + intros (file & fsize & Hin & Hf & ->). by exists dsz, files, file, fsize.
    + intros (dsz' & files' & file & fsize & Hdir' & Hin & Hf & ->).
      rewrite Hdir in Hdir'. injection Hdir' as <- <-. by exists file, fsize.
Qed.

Lemma identify_sources_catalogues_regular_files_witness :
  exists sources,
    IngestToBronze.identify_sources Demo.env Demo.root initial_world
      = (inr sources, initial_world) ∧
    NoDup sources.*1.
Proof.
  destruct (identify_sources_catalogues_regular_files Demo.env Demo.root 4096
              ["Sales"; "Marketing"; "Ops"] initial_world)
    as (sources & Hrun & Hnd & _); [reflexivity|].
  exists sources. split; [exact Hrun|exact Hnd].
Defined.

(** [identify_sources] has no guard: on a root that is missing or is not a
    directory the [os.listdir] raises to the caller, and nothing is logged. *)
Theorem identify_sources_raises_without_directory (E : Env)
    (raw_folder : string) (w : World) :
  os_path_isdir E raw_folder = false ->
  exists e,
    IngestToBronze.identify_sources E raw_folder w = (inl e, w) ∧
    exn_class e ∈ ["FileNotFoundError"; "NotADirectoryError"].
Proof.
  unfold os_path_isdir, IngestToBronze.identify_sources, bind, os_listdir.
  destruct (fs E !! raw_folder) as [[size|dsz l]|]; intros Hdir; [|done|].
  - eexists. split; [done|]. simpl. by repeat constructor.
  - eexists. split; [done|]. simpl. by repeat constructor.
Qed.

Lemma identify_sources_raises_without_directory_witness :
  exists e,
    IngestToBronze.identify_sources Demo.env Demo.q1_path initial_world
      = (inl e, initial_world) ∧
    exn_class e ∈ ["FileNotFoundError"; "NotADirectoryError"].
Proof.
  apply (identify_sources_raises_without_directory Demo.env Demo.q1_path
           initial_world).
  reflexivity.
Defined.

Lemma catalog_metas_elem (E : Env) (dept_path : string) (files : list string)
    (m : ModdedBronzeval.FileMeta) :
  m ∈ catalog_metas E dept_path files <->
  exists file size,
    file ∈ files ∧ fs E !! OsPath.join dept_path file = Some (File size) ∧
    m = ModdedBronzeval.mkFileMeta file (OsPath.join dept_path file)
          (format_tag file).
Proof.
  induction files as [|file rest IH]; simpl.
  - split; [by intros ?%elem_of_nil|]. by intros (? & ? & ?%elem_of_nil & _).
  - destruct (fs E !! OsPath.join dept_path file) as [[size|dsz l]|] eqn:Hfs.
    + rewrite elem_of_cons, IH. split.
      * intros [->|(f & sz & Hin & Hf & ->)].
        -- exists file, size. split_and!; [by left|done|done].
        -- exists f, sz. split_and!; [by right|done|done].
      * intros (f & sz & [->|Hin]%elem_of_cons & Hf & ->).
        -- by left.
        -- right. by exists f, sz.
    + rewrite IH. split.
      * intros (f & sz & Hin & Hf & ->). exists f, sz.
        split_and!; [by right|done|done].
      * intros (f & sz & [->|Hin]%elem_of_cons & Hf & ->); [congruence|].
        by exists f, sz.
    + rewrite IH. split.
      * intros (f & sz & Hin & Hf & ->). exists f, sz.
        split_and!; [by right|done|done].
      * intros (f & sz & [->|Hin]%elem_of_cons & Hf & ->); [congruence|].
        by exists f, sz.
Qed.

Lemma discover_files_run (E : Env) (dept_path : string) (files : list string) :
  forall (acc : list ModdedBronzeval.FileMeta) (w : World),
  for_each files (ModdedBronzeval.discover_file E dept_path) acc w
  = (inr (acc ++ catalog_metas E dept_path files), w).
Proof.
  induction files as [|file rest IH]; intros acc w; simpl.
  - by rewrite app_nil_r.
  - unfold bind at 1, ModdedBronzeval.discover_file at 1.
    unfold os_path_isfile, format_tag.
    destruct (fs E !! OsPath.join dept_path file) as [[size|dsz l]|]; simpl.
    + unfold ret. rewrite IH. by rewrite <- app_assoc.
    + unfold ret. by rewrite IH.
    + unfold ret. by rewrite IH.
Qed.

Lemma discover_departments_run (E : Env) (raw_folder : string)
    (departments : list string) :
  forall (seen : list string) (sources : dict (list ModdedBronzeval.FileMeta))
         (w : World),
  catalogue_of_metas E raw_folder seen sources ->
  exists sources',
    for_each departments (ModdedBronzeval.discover_department E raw_folder)
      sources w = (inr sources', w) ∧
    catalogue_of_metas E raw_folder (seen ++ departments) sources'.
Proof.
  induction departments as [|dept rest IH]; intros seen sources w Hcat.
  - exists sources. by rewrite app_nil_r.
  - cbn [for_each]. unfold bind at 1, ModdedBronzeval.discover_department at 1.
    unfold os_path_isdir at 1, os_listdir.
    replace (seen ++ dept :: rest) with ((seen ++ [dept]) ++ rest)
      by (by rewrite <- app_assoc).
    destruct Hcat as (Hnd & Hkeys & Hval).
    assert (forall d, d ∈ seen ++ [dept] <-> d ∈ seen ∨ d = dept) as Hseen
      by (intros d; by rewrite elem_of_app, list_elem_of_singleton).
    destruct (fs E !! OsPath.join raw_folder dept) as [[size|dsz files]|] eqn:Hfs;
      simpl.
    + apply IH. split_and!; [done| |done].
      intros d. rewrite Hkeys, Hseen. split; [tauto|].
      intros [[Hin| ->] Hdir]; [done|].
      destruct Hdir as (? & ? & Hdir & _). congruence.
    + unfold bind, ret. rewrite discover_files_run. simpl.
      destruct (catalog_metas E (OsPath.join raw_folder dept) files)
        as [|m ms] eqn:Hcatalog.
      * apply IH. split_and!; [done| |done].
        intros d. rewrite Hkeys, Hseen. split; [tauto|].
        intros [[Hin| ->] Hdir]; [done|].
        destruct Hdir as (dsz' & files' & Hdir & Hne).
        rewrite Hfs in Hdir. injection Hdir as <- <-. by rewrite Hcatalog in Hne.
      * apply IH. split_and!.
        -- by apply dict_set_NoDup.
        -- intros d. rewrite dict_set_keys, Hseen. case_bool_decide as Hin.
           ++ rewrite Hkeys. split; [tauto|]. intros [[Hd| ->] Hdir]; [done|].
              by apply Hkeys.
           ++ rewrite elem_of_app, list_elem_of_singleton, Hkeys.
              split; [|tauto]. intros [[Hd Hdir]| ->]; [tauto|].
              split; [by right|]. exists dsz, files. by rewrite Hcatalog.
        -- intros d metas [[-> ->]|[Hne Hel]]%dict_set_elem; [|by apply Hval].
           exists dsz, files. by rewrite Hcatalog.
    + apply IH. split_and!; [done| |done].
      intros d. rewrite Hkeys, Hseen. split; [tauto|].
      intros [[Hin| ->] Hdir]; [done|].
      destruct Hdir as (? & ? & Hdir & _). congruence.
Qed.

(** [discover_sources] on a root that is a directory: it returns without
    logging; a department is a key of the mapping exactly when it is a
    directory of the root with at least one regular file directly inside, so
    no key holds an empty list; and under each key are the descriptors of
    exactly those regular files. *)
Theorem discover_sources_keeps_departments_with_files (E : Env)
    (raw_folder : string) (size : nat) (entries : list string) (w : World) :
  fs E !! raw_folder = Some (Dir size entries) ->
  exists sources,
    ModdedBronzeval.discover_sources E raw_folder w = (inr sources, w) ∧
    NoDup sources.*1 ∧
    (forall dept metas, (dept, metas) ∈ sources -> metas ≠ []) ∧
    (forall dept,
       dept ∈ sources.*1 <->
       dept ∈ entries ∧
       exists dsz files file fsize,
         fs E !! OsPath.join raw_folder dept = Some (Dir dsz files) ∧
         file ∈ files ∧
         fs E !! OsPath.join (OsPath.join raw_folder dept) file
           = Some (File fsize)) ∧
    (forall dept metas m,
       (dept, metas) ∈ sources ->
       (m ∈ metas <->
        exists dsz files file fsize,
          fs E !! OsPath.join raw_folder dept = Some (Dir dsz files) ∧
          file ∈ files ∧
          fs E !! OsPath.join (OsPath.join raw_folder dept) file
            = Some (File fsize) ∧
          m = ModdedBronzeval.mkFileMeta file
                (OsPath.join (OsPath.join raw_folder dept) file)
                (format_tag file))).
Proof.
  intros Hroot.
  destruct (discover_departments_run E raw_folder entries [] [] w)
    as (sources & Hrun & Hnd & Hkeys & Hval).
  { split_and!; [constructor| |by intros ? ? ?%elem_of_nil].
    intros dept. simpl. split; [by intros ?%elem_of_nil|].
    by intros [?%elem_of_nil _]. }
  assert (forall dp files,
            catalog_metas E dp files ≠ [] <->
            exists file fsize,
              file ∈ files ∧ fs E !! OsPath.join dp file = Some (File fsize))
    as Hnonempty.
  { intros dp files. split.
    - intros Hne. destruct (catalog_metas E dp files) as [|m ms] eqn:Hc; [done|].
      assert (m ∈ catalog_metas E dp files) as Hm by (rewrite Hc; by left).
      apply catalog_metas_elem in Hm as (file & fsize & Hin & Hf & _). eauto.
    - intros (file & fsize & Hin & Hf) Hnil.
      assert (ModdedBronzeval.mkFileMeta file (OsPath.join dp file)
                (format_tag file) ∈ catalog_metas E dp files) as Hm
        by (apply catalog_metas_elem; eauto).
      rewrite Hnil in Hm. by apply elem_of_nil in Hm. }
  exists sources. split_and!; try done.
  - unfold ModdedBronzeval.discover_sources, os_path_exists, bind, os_listdir.
    rewrite Hroot. rewrite bool_decide_eq_true_2 by eauto. done.
  - intros dept metas Hel.
    destruct (Hval dept metas Hel) as (dsz & files & Hdir & ->).
    assert (dept ∈ sources.*1) as Hk
      by (apply list_elem_of_fmap;
          by exists (dept, catalog_metas E (OsPath.join raw_folder dept) files)).
    apply Hkeys in Hk as (_ & dsz' & files' & Hdir' & Hne).
    rewrite Hdir in Hdir'. by injection Hdir' as <- <-.
  - intros dept. rewrite Hkeys. split.
    + intros (Hin & dsz & files & Hdir & Hne).
      apply Hnonempty in Hne as (file & fsize & Hf & Hfs).
      split; [done|]. by exists dsz, files, file, fsize.
    + intros (Hin & dsz & files & file & fsize & Hdir & Hf & Hfs).
      split; [done|]. exists dsz, files. split; [done|].
      apply Hnonempty. eauto.
  - intros dept metas m Hel.
    destruct (Hval dept metas Hel) as (dsz & files & Hdir & ->).
    rewrite catalog_metas_elem. split.
    + intros (file & fsize & Hin & Hf & ->). by exists dsz, files, file, fsize.
    + intros (dsz' & files' & file & fsize & Hdir' & Hin & Hf & ->).
      rewrite Hdir in Hdir'. injection Hdir' as <- <-. by exists file, fsize.
Qed.

Lemma discover_sources_keeps_departments_with_files_witness :
  exists sources,
    ModdedBronzeval.discover_sources Demo.env Demo.root initial_world
      = (inr sources, initial_world) ∧
    NoDup sources.*1.
Proof.
  destruct (discover_sources_keeps_departments_with_files Demo.env Demo.root
              4096 ["Sales"; "Marketing"; "Ops"] initial_world)
    as (sources & Hrun & Hnd & _); [reflexivity|].
  exists sources. split; [exact Hrun|exact Hnd].
Defined.

(** The guard of [discover_sources] tests existence only: a root that exists
    but is a regular file passes it, and the [os.listdir] that follows raises
    [NotADirectoryError] to the caller. *)
Theorem discover_sources_raises_on_file_root (E : Env) (raw_folder : string)
    (size : nat) (w : World) :
  fs E !! raw_folder = Some (File size) ->
  ModdedBronzeval.discover_sources E raw_folder w =
    (inl (Exn "NotADirectoryError" ("Not a directory: " +:+ raw_folder)), w) ∧
  ModdedBronzeval.raw_loading_zone E raw_folder "out" w =
    (inl (Exn "NotADirectoryError" ("Not a directory: " +:+ raw_folder)), w).
Proof.
  intros Hroot.
  assert (ModdedBronzeval.discover_sources E raw_folder w =
          (inl (Exn "NotADirectoryError" ("Not a directory: " +:+ raw_folder)),
           w)) as Hrun.
  { unfold ModdedBronzeval.discover_sources, os_path_exists, bind, os_listdir.
    rewrite Hroot. by rewrite bool_decide_eq_true_2 by eauto. }
  split; [done|]. unfold ModdedBronzeval.raw_loading_zone.
  by erewrite bind_run_raise.
Qed.

Lemma discover_sources_raises_on_file_root_witness :
  ModdedBronzeval.discover_sources Demo.env Demo.q1_path initial_world =
  (inl (Exn "NotADirectoryError" ("Not a directory: " +:+ Demo.q1_path)),
   initial_world).
Proof.
  apply (discover_sources_raises_on_file_root Demo.env Demo.q1_path 64
           initial_world).
  reflexivity.
Defined.

(** ** A whole run of [raw_loading_zone] and of [ingestion] *)

Lemma first_validation_frame (E : Env) (odf : option DataFrame)
    (fname file_path : string) (w : World) :
  let r := IngestToBronze.first_validation E odf fname file_path w in
  saved_logs r.2 = saved_logs w ∧ uuid_calls r.2 = uuid_calls w ∧
  written r.2 = written w ∧ write_calls r.2 = write_calls w.
Proof.
  intros r. subst r.
  destruct (stat_size E file_path) as [size|] eqn:Hsz.
  - destruct (decide (size < 10)) as [Hlt|Hge].
    + by erewrite first_validation_small by done.
    + destruct odf as [df|].
      * destruct (decide (columns df = [])) as [Hcols|Hcols].
        -- by erewrite first_validation_no_columns by (done || lia).
        -- destruct (decide (index_len df = 0)) as [Hrows|Hrows].
           ++ by erewrite first_validation_no_rows by (done || lia).
           ++ by erewrite first_validation_passes by (done || lia).
      * by erewrite first_validation_none by (done || lia).
  - by erewrite first_validation_missing by done.
Qed.

(** One pass of the file loop leaves the saved logs and the [uuid] counter
    alone, and either leaves the written tables alone or puts one audit-tagged
    table at the output path of the file. *)
Lemma process_file_frame (E : Env) (bronze_folder batch_id : string)
    (ingest_ts : Time) (department : string)
    (file_info : IngestToBronze.FileInfo) (c : IngestToBronze.Counters)
    (w : World) :
  let r := IngestToBronze.process_file E bronze_folder batch_id ingest_ts
             department file_info c w in
  saved_logs r.2 = saved_logs w ∧ uuid_calls r.2 = uuid_calls w ∧
  (written r.2 = written w ∨
   exists df,
     written r.2 =
       <[output_path bronze_folder department
           (IngestToBronze.filename file_info) :=
           IngestToBronze.add_audit_metadata df ingest_ts batch_id department
             (IngestToBronze.filename file_info)]> (written w)).
Proof.
  intros r. subst r.
  set (fname := IngestToBronze.filename file_info).
  set (file_path := IngestToBronze.path file_info).
  destruct (load_dataset_attempts_run E file_path (format_tag file_path) 3 3 0
              w eq_refl)
    as (k & errs & reads & _ & _ & _ & _ & Hwr & Hsl & Hu & _ & _).
  change (IngestToBronze.load_dataset_attempts E file_path
            (format_tag file_path) 3 (seq 0 3) w)
    with (IngestToBronze.load_dataset E file_path 3 w) in *.
  destruct (IngestToBronze.load_dataset E file_path 3 w) as [[e|odf] w1] eqn:Hload;
    simpl in *.
  - erewrite process_file_extraction_fails by done. simpl. auto.
  - pose proof (first_validation_frame E odf fname file_path w1)
      as (Hsl2 & Hu2 & Hwr2 & _).
    destruct (first_validation_total E odf fname file_path w1)
      as (b & w2 & Hval & _ & _ & Htrue).
    rewrite Hval in *. simpl in *.
    destruct b.
    + destruct (Htrue eq_refl) as (df & -> & _).
      erewrite process_file_accepted by done. fold fname.
      destruct (to_parquet_error E _ _ (write_calls w2)) as [e|];
        unfold logged; unfold_world.
      * split_and!; [by rewrite Hsl2|by rewrite Hu2|left; by rewrite Hwr2].
      * split_and!; [by rewrite Hsl2|by rewrite Hu2|]. right. exists df.
        by rewrite Hwr2, Hwr.
    + erewrite process_file_rejected by done. simpl.
      split_and!; [by rewrite Hsl2|by rewrite Hu2|left; by rewrite Hwr2].
Qed.

Lemma process_files_frame (E : Env) (bronze_folder batch_id : string)
    (ingest_ts : Time) (department : string)
    (files : list IngestToBronze.FileInfo) :
  forall (c : IngestToBronze.Counters) (w : World),
  let r := for_each files
             (IngestToBronze.process_file E bronze_folder batch_id ingest_ts
                department) c w in
  saved_logs r.2 = saved_logs w ∧ uuid_calls r.2 = uuid_calls w ∧
  forall p,
    written r.2 !! p = written w !! p ∨
    exists fi df,
      fi ∈ files ∧
      p = output_path bronze_folder department (IngestToBronze.filename fi) ∧
      written r.2 !! p =
        Some (IngestToBronze.add_audit_metadata df ingest_ts batch_id
                department (IngestToBronze.filename fi)).
Proof.
  induction files as [|fi rest IH]; intros c w r; subst r.
  - simpl. split_and!; auto.
  - cbn [for_each].
    destruct (process_file_total E bronze_folder batch_id ingest_ts department
                fi c w) as (c1 & w1 & new1 & Hrun & _).
    pose proof (process_file_frame E bronze_folder batch_id ingest_ts
                  department fi c w) as (Hsl1 & Hu1 & Hw1).
    rewrite Hrun in Hsl1, Hu1, Hw1. simpl in *.
    erewrite bind_run_ok by exact Hrun.
    destruct (IH c1 w1) as (Hsl & Hu & Hw).
    split_and!; [by rewrite Hsl|by rewrite Hu|].
    intros p. destruct (Hw p) as [Heq|(fi' & df & Hin & -> & Hp)].
    + rewrite Heq. destruct Hw1 as [->|(df & ->)]; [by left|].
      destruct (decide (output_path bronze_folder department
                          (IngestToBronze.filename fi) = p)) as [<-|Hne].
      * right. exists fi, df. rewrite lookup_insert_eq.
        split_and!; [by left|done|done].
      * left. by rewrite lookup_insert_ne.
    + right. exists fi', df. split_and!; [by right|done|done].
Qed.

Lemma raw_loading_zone_frame (E : Env) (bronze_folder batch_id : string)
    (ingest_ts : Time) (sources : dict (list IngestToBronze.FileInfo)) :
  forall (c : IngestToBronze.Counters) (w : World),
  let r := for_each sources
             (IngestToBronze.process_department E bronze_folder batch_id
                ingest_ts) c w in
  saved_logs r.2 = saved_logs w ∧ uuid_calls r.2 = uuid_calls w ∧
  forall p,
    written r.2 !! p = written w !! p ∨
    exists department files fi df,
      (department, files) ∈ sources ∧ fi ∈ files ∧
      p = output_path bronze_folder department (IngestToBronze.filename fi) ∧
      written r.2 !! p =
        Some (IngestToBronze.add_audit_metadata df ingest_ts batch_id
                department (IngestToBronze.filename fi)).
Proof.
  induction sources as [|[department files] rest IH]; intros c w r; subst r.
  - simpl. split_and!; auto.
  - destruct (process_files_total E bronze_folder batch_id ingest_ts department
                files c w) as (c1 & w1 & new1 & Hrun & _).
    pose proof (process_files_frame E bronze_folder batch_id ingest_ts
                  department files c w) as (Hsl1 & Hu1 & Hw1).
    rewrite Hrun in Hsl1, Hu1, Hw1. simpl in Hsl1, Hu1, Hw1.
    assert (for_each ((department, files) :: rest)
              (IngestToBronze.process_department E bronze_folder batch_id
                 ingest_ts) c w
            = for_each rest
                (IngestToBronze.process_department E bronze_folder batch_id
                   ingest_ts) c1 w1) as ->.
    { cbn [for_each]. unfold IngestToBronze.process_department at 1. simpl.
      by erewrite bind_run_ok. }
    destruct (IH c1 w1) as (Hsl & Hu & Hw).
    split_and!; [by rewrite Hsl|by rewrite Hu|].
    intros p. destruct (Hw p) as [Heq|(d & fs' & fi & df & Hin & Hfi & -> & Hp)].
    + rewrite Heq. destruct (Hw1 p) as [->|(fi & df & Hfi & -> & Hp)];
        [by left|].
      right. exists department, files, fi, df.
      split_and!; [by left|done|done|done].
    + right. exists d, fs', fi, df. split_and!; [by right|done|done|done].
Qed.

(** After a run of [raw_loading_zone], every path holds either what it held
    before, or the table of a file of the batch at that file's output path,
    tagged with the batch id and ingest timestamp of this run on every row; no
    table is removed, and no log file is saved. *)
Theorem raw_loading_zone_writes_only_tagged_batch_tables (E : Env)
    (sources : dict (list IngestToBronze.FileInfo))
    (bronze_folder batch_id : string) (ingest_ts : Time) (w : World) :
  let r := IngestToBronze.raw_loading_zone E sources bronze_folder batch_id
             ingest_ts w in
  saved_logs r.2 = saved_logs w ∧
  dom (written w) ⊆ dom (written r.2) ∧
  forall p,
    written r.2 !! p = written w !! p ∨
    exists department files fi df t,
      (department, files) ∈ sources ∧ fi ∈ files ∧
      p = output_path bronze_folder department (IngestToBronze.filename fi) ∧
      written r.2 !! p = Some t ∧
      t = IngestToBronze.add_audit_metadata df ingest_ts batch_id department
            (IngestToBronze.filename fi) ∧
      df_len t = df_len df ∧
      (LStr "batch_id", repeat (CStr batch_id) (df_len df)) ∈ columns t ∧
      (LStr "ingest_ts", repeat (CTime ingest_ts) (df_len df)) ∈ columns t.
Proof.
  intros r. subst r. unfold IngestToBronze.raw_loading_zone.
  destruct (raw_loading_zone_frame E bronze_folder batch_id ingest_ts sources
              (IngestToBronze.mkCounters 0 0) w) as (Hsl & _ & Hw).
  split_and!; [done| |].
  - intros p [t Hp]%elem_of_dom. apply elem_of_dom.
    destruct (Hw p) as [->|(d & fs' & fi & df & _ & _ & _ & ->)]; eauto.
  - intros p. destruct (Hw p) as [Heq|(d & fs' & fi & df & Hin & Hfi & -> & Hp)];
      [by left|].
    right. eexists d, fs', fi, df, _.
    split_and!; [done|done|done|exact Hp|done| | |].
    + apply audit_metadata_index_len.
    + apply audit_metadata_columns. right. apply elem_of_cons. right.
      by left.
    + apply audit_metadata_columns. right. by left.
Qed.

(** [ingestion] reads the clock and draws the batch id before it looks at the
    source root; when the root is missing or is not a directory, the
    exception of [identify_sources] leaves [ingestion] uncaught: nothing is
    logged, written or saved. *)
Theorem ingestion_raises_without_source_directory (E : Env)
    (raw_folder bronze_folder : string) (w : World) :
  os_path_isdir E raw_folder = false ->
  exists e,
    IngestToBronze.ingestion E raw_folder bronze_folder w
      = (inl e, tick_clock (tick_uuid w)) ∧
    exn_class e ∈ ["FileNotFoundError"; "NotADirectoryError"].
Proof.
  unfold os_path_isdir, IngestToBronze.ingestion,
    IngestToBronze.identify_sources, os_listdir.
  unfold bind at 1. cbn [new_uuid]. unfold bind at 1. cbn [now].
  unfold bind at 1. unfold bind at 1.
  destruct (fs E !! raw_folder) as [[size|dsz l]|]; intros Hdir; [|done|].
  - eexists. split; [done|]. simpl. by repeat constructor.
  - eexists. split; [done|]. simpl. by repeat constructor.
Qed.

Lemma ingestion_raises_without_source_directory_witness :
  exists e,
    IngestToBronze.ingestion Demo.env "/no/such/root" "/app/data_zone"
      initial_world = (inl e, tick_clock (tick_uuid initial_world)) ∧
    exn_class e ∈ ["FileNotFoundError"; "NotADirectoryError"].
Proof.
  apply (ingestion_raises_without_source_directory Demo.env "/no/such/root"
           "/app/data_zone" initial_world).
  reflexivity.
Defined.

(** [ingestion] on a root that is a directory returns: it draws one batch id
    for the whole run, counts every discovered file once, only appends to the
    validation log, and at the end saves the whole log as
    [bronze_folder/_bronze_validation_log.csv] exactly when the log is not
    empty. *)
Theorem ingestion_saves_log_when_not_empty (E : Env)
    (raw_folder bronze_folder : string) (size : nat) (entries : list string)
    (w : World) :
  fs E !! raw_folder = Some (Dir size entries) ->
  exists sources c w' new,
    IngestToBronze.identify_sources E raw_folder (tick_clock (tick_uuid w))
      = (inr sources, tick_clock (tick_uuid w)) ∧
    IngestToBronze.ingestion E raw_folder bronze_folder w = (inr c, w') ∧
    IngestToBronze.successful c + IngestToBronze.failed c = batch_size sources ∧
    uuid_calls w' = S (uuid_calls w) ∧
    validation_log w' = validation_log w ++ new ∧
    (validation_log w' = [] -> saved_logs w' = saved_logs w) ∧
    (validation_log w' ≠ [] ->
     saved_logs w' =
       <[OsPath.join bronze_folder "_bronze_validation_log.csv" :=
           validation_log w']> (saved_logs w)).
Proof.
  intros Hroot.
  set (w0 := tick_clock (tick_uuid w)).
  destruct (identify_departments_run E raw_folder entries [] [] w0)
    as (sources & Hid & _).
  { split_and!; [constructor| |by intros ? ? ?%elem_of_nil].
    intros dept. simpl. split; [by intros ?%elem_of_nil|].
    by intros [?%elem_of_nil _]. }
  assert (IngestToBronze.identify_sources E raw_folder w0 = (inr sources, w0))
    as Hsources.
  { unfold IngestToBronze.identify_sources, bind, os_listdir.
    by rewrite Hroot. }
  set (batch_id := uuid4 E (uuid_calls w)).
  set (ingest_ts := datetime_now E (clock_calls w)).
  destruct (raw_loading_zone_loop_total E bronze_folder batch_id ingest_ts
              sources (IngestToBronze.mkCounters 0 0) w0)
    as (c & w1 & new & Hrun & Hsum & Hl & _).
  pose proof (raw_loading_zone_frame E bronze_folder batch_id ingest_ts sources
                (IngestToBronze.mkCounters 0 0) w0) as (Hsl & Hu & _).
  rewrite Hrun in Hsl, Hu. simpl in Hsl, Hu, Hsum, Hl.
  assert (IngestToBronze.ingestion E raw_folder bronze_folder w =
          (inr c,
           if bool_decide (validation_log w1 = []) then w1
           else with_saved_logs
                  (<[OsPath.join bronze_folder "_bronze_validation_log.csv" :=
                       validation_log w1]> (saved_logs w1)) w1)) as Hing.
  { unfold IngestToBronze.ingestion.
    unfold bind at 1. cbn [new_uuid]. unfold bind at 1. cbn [now].
    fold w0 batch_id ingest_ts.
    erewrite bind_run_ok by exact Hsources.
    unfold IngestToBronze.raw_loading_zone.
    erewrite bind_run_ok by exact Hrun.
    unfold bind. by case_bool_decide. }
  eexists sources, c, _, new. split; [exact Hsources|].
  split; [exact Hing|]. split; [done|].
  case_bool_decide as Hempty; simpl.
  - split_and!; [done|done|by rewrite Hsl|done].
  - split_and!; [done|done|done|]. intros _. by rewrite Hsl.
Qed.

Lemma ingestion_saves_log_when_not_empty_witness :
  exists c w',
    IngestToBronze.ingestion Demo.env Demo.root "/app/data_zone" initial_world
      = (inr c, w') ∧
    uuid_calls w' = 1.
Proof.
  destruct (ingestion_saves_log_when_not_empty Demo.env Demo.root
              "/app/data_zone" 4096 ["Sales"; "Marketing"; "Ops"]
              initial_world)
    as (sources & c & w' & new & _ & Hrun & _ & Hu & _); [reflexivity|].
  exists c, w'. split; [exact Hrun|exact Hu].
Defined.

(** ** More on [modded_bronzeval] *)

Lemma modded_load_dataset_world (E : Env) (path : string) (w : World) :
  (ModdedBronzeval.load_dataset E path w).2 = w ∧
  format_tag path ∉ recognized_formats
  ∨ (ModdedBronzeval.load_dataset E path w).2 = tick_read w ∧
    format_tag path ∈ recognized_formats.
Proof.
  destruct (decide (format_tag path ∈ recognized_formats)) as [Hin|Hnin].
  - right. split; [|done].
    unfold ModdedBronzeval.load_dataset, try_except. fold (format_tag path).
    unfold recognized_formats in Hin.
    repeat case_bool_decide;
      try (unfold pd_read;
           match goal with
           | |- context [match ?r with inl _ => _ | inr _ => _ end] =>
               by destruct r
           end).
    + destruct (PyStr.contains "campaign" _); unfold pd_read;
        match goal with
        | |- context [match ?r with inl _ => _ | inr _ => _ end] =>
            by destruct r
        end.
    + unfold bind, pd_read. by destruct (pd_read_html E path (read_calls w)).
    + exfalso.
      repeat (apply elem_of_cons in Hin as [Hin|Hin];
              [rewrite Hin in *;
               match goal with
               | H : ¬ _ |- _ => solve [apply H; repeat constructor]
               end|]).
      by apply elem_of_nil in Hin.
  - left. split; [|done]. by rewrite modded_load_dataset_unrecognized.
Qed.

(** [load_dataset] of [modded_bronzeval] never retries: it calls a reader
    exactly once for a recognized format and not at all otherwise, and it
    neither logs, nor sleeps, nor writes, whether it returns or raises. *)
Theorem modded_load_dataset_never_retries (E : Env) (path : string)
    (w : World) :
  let r := ModdedBronzeval.load_dataset E path w in
  validation_log r.2 = validation_log w ∧ slept r.2 = slept w ∧
  written r.2 = written w ∧ write_calls r.2 = write_calls w ∧
  clock_calls r.2 = clock_calls w ∧
  (format_tag path ∈ recognized_formats -> read_calls r.2 = S (read_calls w)) ∧
  (format_tag path ∉ recognized_formats ->
   read_calls r.2 = read_calls w ∧
   r.1 = inl (Exn "ValueError" ("Unknown type: " +:+ format_tag path))).
Proof.
  intros r. subst r.
  destruct (modded_load_dataset_world E path w) as [[Hw Hfmt]|[Hw Hfmt]];
    rewrite Hw; split_and!; try done.
  intros _. split; [done|]. by rewrite modded_load_dataset_unrecognized.
Qed.

(** One pass of the file loop of [modded_bronzeval]: it returns, appends at
    most one event, which is the BRONZE_LOAD / FAILED error for that file, and
    never sleeps or saves a log. *)
Lemma modded_load_file_run (E : Env) (bronze_folder department : string)
    (meta : ModdedBronzeval.FileMeta) (w : World) :
  exists w' new,
    ModdedBronzeval.load_file E bronze_folder department meta tt w
      = (inr tt, w') ∧
    validation_log w' = validation_log w ++ new ∧
    length new <= 1 ∧
    Forall (fun ev => stage ev = "BRONZE_LOAD" ∧ issue_type ev = "FAILED" ∧
                      severity ev = "ERROR" ∧
                      file ev = ModdedBronzeval.filename meta) new ∧
    slept w' = slept w ∧ saved_logs w' = saved_logs w.
Proof.
  assert (validation_log (ModdedBronzeval.load_dataset E
                            (ModdedBronzeval.path meta) w).2 = validation_log w
          ∧ slept (ModdedBronzeval.load_dataset E
                     (ModdedBronzeval.path meta) w).2 = slept w
          ∧ saved_logs (ModdedBronzeval.load_dataset E
                          (ModdedBronzeval.path meta) w).2 = saved_logs w)
    as (Hl & Hs & Hsl).
  { destruct (modded_load_dataset_world E (ModdedBronzeval.path meta) w)
      as [[-> _]|[-> _]]; done. }
  destruct (ModdedBronzeval.load_dataset E (ModdedBronzeval.path meta) w)
    as [[e|df] w1] eqn:Hload; simpl in *.
  - erewrite modded_load_file_extraction_fails by done.
    eexists _, [_]. unfold logged. unfold_world. rewrite Hl.
    split_and!; try done. by repeat constructor.
  - destruct (modded_load_file_tags_two_columns E bronze_folder department
                meta w df w1 Hload) as [Hrun _].
    rewrite Hrun. destruct (to_parquet_error E _ _ (write_calls w1)) as [e|].
    + eexists _, [_]. unfold logged. unfold_world. rewrite Hl.
      split_and!; try done. by repeat constructor.
    + eexists _, []. unfold_world. rewrite Hl, app_nil_r.
      split_and!; try done; try lia; try constructor.
Qed.

Lemma modded_load_files_run (E : Env) (bronze_folder department : string)
    (files : list ModdedBronzeval.FileMeta) :
  forall (w : World),
  exists w' new,
    for_each files (ModdedBronzeval.load_file E bronze_folder department) tt w
      = (inr tt, w') ∧
    validation_log w' = validation_log w ++ new ∧
    length new <= length files ∧
    Forall (fun ev => stage ev = "BRONZE_LOAD" ∧ issue_type ev = "FAILED" ∧
                      severity ev = "ERROR" ∧
                      exists m, m ∈ files ∧ file ev = ModdedBronzeval.filename m)
      new ∧
    slept w' = slept w ∧ saved_logs w' = saved_logs w.
Proof.
  induction files as [|m rest IH]; intros w.
  - exists w, []. rewrite app_nil_r. simpl. split_and!; try done; constructor.
  - destruct (modded_load_file_run E bronze_folder department m w)
      as (w1 & new1 & Hrun & Hl1 & Hlen1 & Hall1 & Hs1 & Hsl1).
    destruct (IH w1) as (w2 & new2 & Hrest & Hl2 & Hlen2 & Hall2 & Hs2 & Hsl2).
    exists w2, (new1 ++ new2). split_and!.
    + cbn [for_each]. by erewrite bind_run_ok.
    + by rewrite Hl2, Hl1, app_assoc.
    + rewrite length_app. simpl. lia.
    + apply Forall_app. split.
      * eapply Forall_impl; [exact Hall1|]. intros ev (? & ? & ? & ?).
        split_and!; try done. exists m. split; [by left|done].
      * eapply Forall_impl; [exact Hall2|].
        intros ev (? & ? & ? & m' & Hin & ?).
        split_and!; try done. exists m'. split; [by right|done].
    + by rewrite Hs2.
    + by rewrite Hsl2.
Qed.

(** The loading loop of [modded_bronzeval] over a whole batch: it never
    raises and never sleeps; the only events it appends are BRONZE_LOAD /
    FAILED errors, each for a file of the batch and at most one per file. *)
Theorem modded_load_sources_logs_failed_events_only (E : Env)
    (sources : dict (list ModdedBronzeval.FileMeta)) (bronze_folder : string)
    (w : World) :
  exists w' new,
    ModdedBronzeval.load_sources E sources bronze_folder w = (inr tt, w') ∧
    validation_log w' = validation_log w ++ new ∧
    length new <= batch_size sources ∧
    (forall ev, ev ∈ new ->
       stage ev = "BRONZE_LOAD" ∧ issue_type ev = "FAILED" ∧
       severity ev = "ERROR" ∧
       exists department files m,
         (department, files) ∈ sources ∧ m ∈ files ∧
         file ev = ModdedBronzeval.filename m) ∧
    slept w' = slept w ∧ saved_logs w' = saved_logs w.
Proof.
  unfold ModdedBronzeval.load_sources. revert w.
  induction sources as [|[department files] rest IH]; intros w.
  - exists w, []. rewrite app_nil_r. unfold batch_size. simpl.
    split_and!; try done. by intros ev ?%elem_of_nil.
  - destruct (modded_load_files_run E bronze_folder department files w)
      as (w1 & new1 & Hrun & Hl1 & Hlen1 & Hall1 & Hs1 & Hsl1).
    destruct (IH w1) as (w2 & new2 & Hrest & Hl2 & Hlen2 & Hall2 & Hs2 & Hsl2).
    exists w2, (new1 ++ new2). split_and!.
    + cbn [for_each]. unfold ModdedBronzeval.load_department at 1. simpl.
      by erewrite bind_run_ok.
    + by rewrite Hl2, Hl1, app_assoc.
    + rewrite length_app. unfold batch_size in *. simpl. lia.
    + intros ev [Hev|Hev]%elem_of_app.
      * eapply Forall_forall in Hall1 as (? & ? & ? & m & Hin & ?); [|exact Hev].
        split_and!; try done. exists department, files, m.
        split_and!; [by left|done|done].
      * destruct (Hall2 ev Hev) as (? & ? & ? & d & fs' & m & Hin & Hm & ?).
        split_and!; try done. exists d, fs', m.
        split_and!; [by right|done|done].
    + by rewrite Hs2.
    + by rewrite Hsl2.
Qed.



(** ** Where [run_bronze_pipeline] saves the log *)

Lemma rfind_from_absent (c : ascii) (s : string) : forall i,
  none_in_class (Ascii.eqb c) s = true -> PyStr.rfind_from c i s = None.
Proof.
  induction s as [|a s IH]; intros i; [done|]. simpl.
  intros [Ha Hs]%andb_true_iff. rewrite (IH _ Hs).
  apply negb_true_iff in Ha. by rewrite Ascii.eqb_sym, Ha.
Qed.

Lemma rfind_from_app (c : ascii) (a b : string) : forall i,
  none_in_class (Ascii.eqb c) b = true ->
  PyStr.rfind_from c i (a +:+ String c b) = Some (i + String.length a).
Proof.
  induction a as [|x a IH]; intros i Hb; simpl.
  - rewrite (rfind_from_absent _ _ _ Hb), Ascii.eqb_refl. f_equal. lia.
  - rewrite (IH _ Hb). f_equal. lia.
Qed.

Lemma substring_app_sep (c : ascii) (a b : string) :
  String.substring 0 (S (String.length a)) (a +:+ String c b)
  = a +:+ String c "".
Proof.
  induction a as [|x a IH]; simpl.
  - by destruct b.
  - by rewrite IH.
Qed.

Lemma all_chars_app_sep (c : ascii) (a : string) :
  a ≠ "" -> PyStr.ends_with_char c a = false ->
  PyStr.all_chars c (a +:+ String c "") = false.
Proof.
  induction a as [|x a IH]; [done|]. intros _ Hend.
  destruct a as [|y a].
  - simpl in *. by rewrite Hend.
  - change (PyStr.all_chars c (String x (String y a) +:+ String c ""))
      with (Ascii.eqb x c && PyStr.all_chars c (String y a +:+ String c "")).
    rewrite IH; [apply andb_false_r|done|exact Hend].
Qed.

Lemma rstrip_app_sep (c : ascii) (a : string) :
  PyStr.ends_with_char c a = false ->
  PyStr.rstrip_char c (a +:+ String c "") = a.
Proof.
  induction a as [|x a IH]; intros Hend.
  - simpl. by rewrite Ascii.eqb_refl.
  - destruct a as [|y a].
    + simpl in *. by rewrite Ascii.eqb_refl, Hend.
    + change (PyStr.rstrip_char c (String x (String y a) +:+ String c ""))
        with (match PyStr.rstrip_char c (String y a +:+ String c "") with
              | EmptyString =>
                  if Ascii.eqb x c then EmptyString else String x EmptyString
              | t => String x t
              end).
      by rewrite IH by exact Hend.
Qed.

Lemma prefix_sep_absent (c : ascii) (b : string) :
  none_in_class (Ascii.eqb c) b = true -> String.prefix (String c "") b = false.
Proof.
  destruct b as [|x b]; [done|]. cbn [none_in_class String.prefix].
  intros [Hx _]%andb_true_iff. apply negb_true_iff in Hx.
  destruct (ascii_dec c x) as [<-|Hne]; [|done].
  by rewrite Ascii.eqb_refl in Hx.
Qed.

(** [os.path.dirname] undoes [os.path.join] on a directory name that is
    not empty and has no trailing slash. *)
Lemma dirname_join (a b : string) :
  a ≠ "" -> PyStr.ends_with_char "/" a = false ->
  none_in_class (Ascii.eqb "/") b = true ->
  OsPath.dirname (OsPath.join a b) = a.
Proof.
  intros Ha Hend Hb.
  assert (OsPath.join a b = a +:+ String "/" b) as ->.
  { unfold OsPath.join.
    by rewrite prefix_sep_absent, Hend, bool_decide_eq_false_2 by done. }
  unfold OsPath.dirname, PyStr.rfind.
  rewrite rfind_from_app by done. simpl plus.
  rewrite substring_app_sep.
  rewrite all_chars_app_sep by done.
  rewrite bool_decide_eq_false_2 by (by destruct a).
  simpl. by apply rstrip_app_sep.
Qed.

(** [run_bronze_pipeline] loads into [data_zone/bronze_files] and, when the
    loading returns with a log that is not empty, saves the log one level
    up, as [data_zone/_bronze_validation_log.csv] (for a [data_zone] that is
    not empty and has no trailing slash); with an empty log nothing is
    saved. *)
Theorem run_bronze_pipeline_saves_log_in_data_zone (E : Env)
    (source_data data_zone : string) (w w1 : World) :
  data_zone ≠ "" ->
  PyStr.ends_with_char "/" data_zone = false ->
  ModdedBronzeval.raw_loading_zone E source_data
    (data_zone +:+ "/bronze_files") w = (inr tt, w1) ->
  OsPath.join data_zone "bronze_files" = data_zone +:+ "/bronze_files" ∧
  ModdedBronzeval.run_bronze_pipeline E source_data data_zone w =
    (inr tt,
     if bool_decide (validation_log w1 = []) then w1
     else with_saved_logs
            (<[data_zone +:+ "/_bronze_validation_log.csv" := validation_log w1]>
               (saved_logs w1)) w1).
Proof.
  intros Hne Hend Hrun.
  assert (forall b, none_in_class (Ascii.eqb "/") b = true ->
                    String.prefix "/" b = false ->
                    OsPath.join data_zone b = data_zone +:+ String "/" b)
    as Hjoin.
  { intros b _ Hb. unfold OsPath.join.
    by rewrite Hb, Hend, bool_decide_eq_false_2 by done. }
  assert (OsPath.join data_zone "bronze_files" = data_zone +:+ "/bronze_files")
    as Hsub by (by apply Hjoin).
  split; [done|].
  unfold ModdedBronzeval.run_bronze_pipeline. rewrite Hsub.
  erewrite bind_run_ok by exact Hrun.
  unfold ModdedBronzeval.save_validation_log, bind.
  case_bool_decide; [done|].
  rewrite <- Hsub, dirname_join by done.
  by rewrite (Hjoin "_bronze_validation_log.csv").
Qed.

Lemma run_bronze_pipeline_saves_log_in_data_zone_witness :
  exists w1,
    ModdedBronzeval.run_bronze_pipeline Demo.env Demo.root "/app/data_zone"
      initial_world = (inr tt, w1) ∧
    is_Some (saved_logs w1 !! "/app/data_zone/_bronze_validation_log.csv").
Proof.
  destruct (ModdedBronzeval.raw_loading_zone Demo.env Demo.root
              "/app/data_zone/bronze_files" initial_world) as [res w1] eqn:Hrun.
  assert (res = inr tt) as -> by (by vm_compute in Hrun; injection Hrun as <- _).
  destruct (run_bronze_pipeline_saves_log_in_data_zone Demo.env Demo.root
              "/app/data_zone" initial_world w1) as [_ H];
    [done|reflexivity|exact Hrun|].
  eexists. split; [exact H|].
  vm_compute in Hrun. injection Hrun as <-. vm_compute. eauto.
Defined.

(** ** Two files of one stem *)

(** When two files of one department differ only in their extension and the
    second is extracted, accepted and written, then after both passes of the
    file loop the common output path holds the table of the second file only:
    whatever the first pass wrote there is replaced, although the first pass
    may have been counted as a success. *)
Theorem later_file_of_same_stem_replaces_earlier (E : Env)
    (bronze_folder batch_id : string) (ingest_ts : Time) (department : string)
    (fi1 fi2 : IngestToBronze.FileInfo) (c c1 : IngestToBronze.Counters)
    (w w1 w2 w3 : World) (df2 : DataFrame) (stem ext1 ext2 : string) :
  IngestToBronze.filename fi1 = stem +:+ String "." ext1 ->
  IngestToBronze.filename fi2 = stem +:+ String "." ext2 ->
  none_in_class (Ascii.eqb ".") ext1 = true ->
  none_in_class (Ascii.eqb ".") ext2 = true ->
  IngestToBronze.process_file E bronze_folder batch_id ingest_ts department
    fi1 c w = (inr c1, w1) ->
  IngestToBronze.load_dataset E (IngestToBronze.path fi2) 3 w1
    = (inr (Some df2), w2) ->
  IngestToBronze.first_validation E (Some df2) (IngestToBronze.filename fi2)
    (IngestToBronze.path fi2) w2 = (inr true, w3) ->
  let out := output_path bronze_folder department (IngestToBronze.filename fi2) in
  let tagged2 := IngestToBronze.add_audit_metadata df2 ingest_ts batch_id
                   department (IngestToBronze.filename fi2) in
  to_parquet_error E out tagged2 (write_calls w3) = None ->
  let r := for_each [fi1; fi2]
             (IngestToBronze.process_file E bronze_folder batch_id ingest_ts
                department) c w in
  output_path bronze_folder department (IngestToBronze.filename fi1) = out ∧
  r.1 = inr (counted_success c1) ∧
  written r.2 = <[out := tagged2]> (written w).
Proof.
  intros Hf1 Hf2 He1 He2 Hrun1 Hload Hval out tagged2 Hwrite r.
  assert (output_path bronze_folder department (IngestToBronze.filename fi1)
          = out) as Hout.
  { unfold out, output_path. rewrite Hf1, Hf2.
    by rewrite !standardize_filename_unfold, !rsplit1_head_app by done. }
  split; [done|].
  pose proof (process_file_frame E bronze_folder batch_id ingest_ts department
                fi1 c w) as (_ & _ & Hw1).
  rewrite Hrun1, Hout in Hw1. simpl in Hw1.
  pose proof (load_dataset_quiet E (IngestToBronze.path fi2) 3 w1) as (Hw2 & _).
  rewrite Hload in Hw2. simpl in Hw2.
  pose proof (first_validation_frame E (Some df2) (IngestToBronze.filename fi2)
                (IngestToBronze.path fi2) w2) as (_ & _ & Hw3 & _).
  rewrite Hval in Hw3. simpl in Hw3.
  assert (r = (inr (counted_success c1),
               with_written (<[out := tagged2]> (written w3)) (tick_write w3)))
    as ->.
  { subst r. cbn [for_each]. erewrite bind_run_ok by exact Hrun1.
    erewrite bind_run_ok; [reflexivity|].
    erewrite process_file_accepted by done.
    fold out tagged2. by rewrite Hwrite. }
  split; [done|]. simpl. rewrite Hw3, Hw2.
  destruct Hw1 as [->|(df1 & ->)]; [done|]. apply insert_insert_eq.
Qed.

Lemma later_file_of_same_stem_replaces_earlier_witness :
  let r := for_each [Clash.csv_info; Clash.json_info]
             (IngestToBronze.process_file Clash.env "/out" "batch-c" 500
                "Sales") (IngestToBronze.mkCounters 0 0) initial_world in
  r.1 = inr (IngestToBronze.mkCounters 2 0) ∧
  written r.2 =
    {[ "/out/sales_orders.parquet" :=
         IngestToBronze.add_audit_metadata Clash.json_orders 500 "batch-c"
           "Sales" "orders.json" ]}.
Proof.
  destruct (IngestToBronze.process_file Clash.env "/out" "batch-c" 500 "Sales"
              Clash.csv_info (IngestToBronze.mkCounters 0 0) initial_world)
    as [res1 w1] eqn:Hrun1.
  assert (res1 = inr (IngestToBronze.mkCounters 1 0)) as ->
    by (by vm_compute in Hrun1; injection Hrun1 as <- _).
  destruct (IngestToBronze.load_dataset Clash.env Clash.orders_json 3 w1)
    as [res2 w2] eqn:Hload.
  assert (res2 = inr (Some Clash.json_orders)) as ->.
  { vm_compute in Hrun1. injection Hrun1 as <-.
    by vm_compute in Hload; injection Hload as <- _. }
  destruct (IngestToBronze.first_validation Clash.env (Some Clash.json_orders)
              "orders.json" Clash.orders_json w2) as [res3 w3] eqn:Hval.
  assert (res3 = inr true) as ->.
  { vm_compute in Hrun1. injection Hrun1 as <-.
    vm_compute in Hload. injection Hload as <-.
    by vm_compute in Hval; injection Hval as <- _. }
  destruct (later_file_of_same_stem_replaces_earlier Clash.env "/out" "batch-c"
              500 "Sales" Clash.csv_info Clash.json_info
              (IngestToBronze.mkCounters 0 0) (IngestToBronze.mkCounters 1 0)
              initial_world w1 w2 w3 Clash.json_orders "orders" "csv" "json")
    as (_ & H1 & H2);
    [reflexivity|reflexivity|reflexivity|reflexivity|exact Hrun1|exact Hload
    |exact Hval|reflexivity|].
  split; [exact H1|]. etrans; [exact H2|]. by vm_compute.
Defined.

Lemma modded_load_dataset_never_retries_witness :
  let r := ModdedBronzeval.load_dataset Demo.env Demo.flaky_path initial_world in
  read_calls r.2 = 1 ∧ slept r.2 = [] ∧ validation_log r.2 = [].
Proof.
  destruct (modded_load_dataset_never_retries Demo.env Demo.flaky_path
              initial_world) as (Hl & Hs & _ & _ & _ & Hr & _).
  split; [|split; [exact Hs|exact Hl]].
  apply Hr. apply (bool_decide_unpack _). vm_compute. exact I.
Defined.
